(* ===== verification/_CoqProject ===== *)
-Q . S2P
Prelude.v
PyValue.v
Credentials.v
Security.v
Base64.v
Jws.v
Store.v
Http.v
Startup.v
Auth.v
Users.v
Todos.v
App.v
Deploy.v
