(* ===== verification/Prelude.v ===== *)
(** * A verification development of todo_flask_api (src/api.py)

    The program is one Flask module, [src/api.py].  It serves a small
    authenticated CRUD API over a relational store with two tables:
    [User] (api.py 29-34) and [Todo] (api.py 37-41).  Its parts:

    - the login view [login] (api.py 45-67): HTTP Basic credentials are
      checked against the stored password hash and a JWT is issued;
    - the decorator [token_required] (api.py 70-86): it reads the
      [X-Access-Token] header, decodes the JWT and resolves the user;
    - the user views [get_all_users], [get_one_user], [create_new_user],
      [update_user], [delete_user] (api.py 106-196);
    - the todo views [get_all_todo], [get_one_todo], [create_todo],
      [update_todo], [delete_todo] (api.py 199-268);
    - the error views [not_found], [internal_error], [not_allowed]
      (api.py 90-102) and Flask's routing table (the [@app.route] lines).

    Every view goes through the SQLAlchemy session ([User.query],
    [db.session.add/delete/commit]) against the database, and every
    protected view is wrapped by [token_required], which passes the
    resolved user (or [None]) to the view.

    ** Files, in dependency order
    - [Prelude] (this file): a state-and-exception monad [SE] in which
      the views are written in the order the Python code runs them
      ([raise], [try/except] as [se_try_except] and [se_catch]), the
      notation scope [api_scope], the hint databases [api], [se_simpl]
      and [str_simpl], the state-invariant predicate [se_preserves] and
      the postcondition predicate [m ⤳ Q] with their rules, the tactics
      [se_unfold], [se_preserves_auto], [se_post_auto] and [by_decide],
      and generic lemmas on lists of ids ([max_id]).
    - [PyValue]: the Python values the views handle: JSON bodies
      ([json]), truthiness ([truthy]), [data[k]] ([py_getitem]),
      [data.get(k)] ([py_dict_get]), [int(s)] ([py_int]: blanks,
      sign, underscores), [str(n)] ([py_str_int]) and the exceptions the
      views can raise ([exn]); [int(str(n)) = n] is proved.
    - [Credentials]: the two libraries the login flow relies on, as type
      classes with their laws: [PasswordHasher] (werkzeug's
      [generate_password_hash]/[check_password_hash]) and [JwtCodec]
      (PyJWT's signature layer); PyJWT's claim check ([jwt_decode], the
      [exp] test) and the lifetime [timedelta(minutes=3600)] on top of
      them; HMAC's key block ([hmac_key_block]: a key of at most 64
      bytes padded with zero bytes), through which the signature laws
      compare keys; a concrete instance of each class, so that the laws
      are satisfiable and the witnesses compute.
    - [Security]: werkzeug 1.x's [security.py] ([gen_salt],
      [_hash_internal], [generate_password_hash], [check_password_hash])
      over an interface to [hashlib]/[hmac] ([Hashlib]), and
      [werkzeug_hasher], the [sha256] scheme of the views as a
      [PasswordHasher].
    - [Base64]: PyJWT's [base64url_encode]/[base64url_decode] over
      CPython's [binascii.b2a_base64] and non-strict [a2b_base64], written
      as the C bit-buffer loops on bytes with [Z.shiftl], [Z.shiftr],
      [Z.land], [Z.lor]; the reference encoder by groups of three bytes.
    - [Jws]: PyJWT 2's HS256 compact tokens ([jwt.encode]: [json.dumps]
      with compact separators and [ensure_ascii], the three base64url
      segments; [jwt.decode]: [_load], [_verify_signature],
      [json.loads] of the payload, [_validate_exp]) over the interfaces
      [Hmac] and [JsonLoads], and [pyjwt_codec], PyJWT as a [JwtCodec].
    - [Store]: the two tables as lists of rows in rowid order, SQLite's
      rowid allocation (max + 1), the column conversions (TEXT affinity,
      SQLAlchemy's strict Boolean, 64-bit integer parameters, NUMERIC
      affinity of a text parameter, with SQLite's reading of real
      literals such as ['1.0'] and ['1e0']), the session (pending changes, commit
      with the UNIQUE check on [public_id] and rollback, the log of
      statements), the store invariant [wf_db] and its preservation,
      atomicity ([atomic]: a run that raises leaves the database as it
      was), and the reuse of the largest rowid after a delete.
    - [Http]: requests, responses, [jsonify], [make_response], header
      lookup as werkzeug's development server files headers in the WSGI
      environ (case and [-]/[_] folded, repeated headers joined with a
      comma), [request.authorization] parsed
      from the [Authorization] header as werkzeug does
      ([parse_authorization_header]: [split(None, 1)], the lowercased
      scheme, [base64.b64decode] through [Base64], the split at the
      first colon), the status codes of [settings.py],
      the configuration ([SECRET_KEY], possibly [None]) and the shape of
      a response body ([single_key_body]).
    - [Startup]: api.py 14-20: [load_dotenv('secrete.env')] (python-dotenv
      without override) and [getenv("SECRET_KEY")], giving the
      configuration [app_config].
    - [Auth]: [login] and [token_required], over any instances of the
      two classes.
    - [Users]: the five user views.  [Todos]: the five todo views.
    - [App]: the URL rules, Flask's dispatch (automatic [HEAD] and
      [OPTIONS], 404 and 405), [serve] (one request to a response and the
      new database; an uncaught exception gives the 500 view and the
      session is discarded), the relation [reachable] of databases
      reachable from the empty one by any sequence of requests, and the
      spec's login-then-list scenario.
    - [Deploy]: the application with werkzeug's scheme as its
      [PasswordHasher].

    ** What is proved
    - Authentication (Auth, Startup): the missing-token answer, that a
      login token resolves to the user who logged in, the exact validity
      window of a token (60 hours), rejection of expired tokens and of
      tokens signed with a key of another HMAC block, acceptance of a
      token signed with [SECRET_KEY] followed by a zero byte (HMAC pads
      short keys with zeros), that a deleted user's token still passes, that login raises
      only without a key and reads only the first user with a name; where
      [SECRET_KEY] comes from, and that without it no one gets in.
    - Views (Users, Todos): the effect of every view on each branch, the
      error paths (which exception, and that nothing is committed), that
      the admin and complete flags can never be cleared, that todos are
      addressed by owner id, that password hashes are exposed.
    - Every view preserves [wf_db] and is atomic; hence (App) every
      reachable database satisfies [wf_db], and a request that fails
      leaves the database unchanged.  Every view writes only passwords
      produced by [generate_password_hash] (an invariant of the database
      and of the pending changes, [sess_pred]); hence no reachable
      database holds a plaintext password.
    - Routing (App): the 405 and missing-token answers of [serve], that
      every answer has a
      one-key JSON body or a text body (a postcondition proved view by
      view), that any token lets its holder grant admin rights, and that
      an account created through the API can log in (create, login and
      token check composed); that when the user with the largest id is
      deleted and a user is created next, the new user gets the deleted
      user's id and its todos (rowid reuse of Store, and [delete_user]
      leaving the todos).
    - Libraries (Security, Base64, Jws, Deploy): werkzeug's
      [check_password_hash] accepts what [generate_password_hash] wrote,
      raises on an unknown method and is [False] on a plaintext; a
      [sha256] hash has [72 + n] characters for an [n]-character salt,
      exactly the 80 of the column with werkzeug 1.x's salt; the views'
      [PasswordHasher] is that scheme (refinement), and on every
      reachable database the check [login] calls never raises.
      base64url decoding inverts encoding on every byte string (the two
      CPython loops agree bit for bit), and skips characters outside
      the alphabet.  PyJWT's [jwt.decode] gives back the payload of a
      token [jwt.encode] wrote until it expires; the class-level
      [jwt_decode] of the views accepts exactly the tokens PyJWT
      accepts, with the same claims (refinement); and a token is not the
      only string PyJWT accepts for its claims.  The Basic header a
      client builds is parsed back to its name and password when the
      name has no colon (Http); since werkzeug splits at the first
      colon, [login] answers the same with every account whose name has
      a colon removed: such an account can never log in (Auth).
    - Scenario (App), computed with the concrete instances: the spec's
      login-then-list scenario.
    Each property with hypotheses has a witness ([..._witness]) that
    applies it to concrete data.

    ** Modelling choices, bounds
    - Randomness and clocks are inputs: a request is served in an
      environment [env] that fixes the wall clock (whole seconds, as
      PyJWT truncates [exp] and [now] to seconds), the [uuid4()] value
      and the password salt.
    - Rows are kept in rowid order, the order in which SQLite returns
      them for the unindexed [filter_by] scans; [.first()] is the first
      matching row.
    - Column values are converted at flush, inside [commit], as
      SQLAlchemy does; an error there rolls the whole commit back.
    - Ids and parameters are unbounded integers ([Z]); the 64-bit bound
      is written out where the code meets it ([in_int64], [int_param]
      raising [OverflowError]).  Every recursion of the model is
      structural and every view is a finite composition, so every view
      terminates by construction; no fuel is needed.  SQLite's exponents
      beyond 19 are decided without computing the power ([dec_to_int]).

    ** Not modelled
    - the [.env] parser of python-dotenv and its [${VAR}] interpolation
      (the file is given parsed), [SQLALCHEMY_DATABASE_URI],
      [SQLAlchemy(app)], and [app.run(debug=True)] (api.py 271-272):
      werkzeug's threaded development server with its reloader and
      interactive debugger.  One request is [serve], with the production
      error path (the 500 view) instead of the debugger page, and a
      sequence of requests is the relation [reachable];
    - the digest algorithms (SHA-256, HMAC, PBKDF2) and the JSON parser
      [json.loads]: they are interfaces ([Hashlib], [Hmac], [JsonLoads])
      whose laws are what the libraries need (SHA-256 is available and
      has 64 hex digits; a key of at most 64 bytes acts only through
      its zero-padded block, and keys of different blocks have different
      MACs, the idealisation of HMAC as a pseudo-random function behind
      the law [jwt_verify_other_key]; keys longer than 64 bytes, which
      HMAC first hashes, are not constrained; [json.loads] reads back what
      [json.dumps] writes); PyJWT's [iat], [nbf] and [aud] checks (the
      application never signs those claims), the PEM-key guard of
      [prepare_key], and payloads whose [public_id] is not a string,
      which the claims cannot represent.  The versions are those the
      code is written for: PyJWT 2, whose [jwt.encode] returns a [str]
      ([jsonify] of the bytes PyJWT 1 returned would raise, and every
      successful login would answer 500), and werkzeug 1.x, which still
      accepts [method='sha256'], draws a salt of 8 characters (the
      width of the column fits it exactly) and hashes a [None] password
      as the empty message;
    - the status-code constants of [settings.py], which is not under
      src/: they are taken from the spec (section 6);
    - werkzeug's URL converters beyond one path segment, HTTP headers
      other than the token and [Authorization], Digest credentials (which
      have no password, so [login] treats them as none), JSON floats and
      non-ASCII digits in [int()], and SQLite's rounding of a real
      literal with more than 15 significant digits to a double (the
      model compares the literal's exact value);
    - concurrency: requests are served one after the other, although
      [app.run] starts a threaded server; the interleaving of two
      requests' sessions over SQLite (where, say, an update whose row was
      deleted meanwhile fails with SQLAlchemy's [StaleDataError]) is not
      modelled, following the spec (section 5). *)

From stdpp Require Export base list strings pretty sorting gmap.
From Stdlib Require Export Ascii ZArith Lia Sorted.
Open Scope Z_scope.

Declare Scope api_scope.
Delimit Scope api_scope with api.
Open Scope api_scope.

Create HintDb api discriminated.
Create Rewrite HintDb se_simpl.
Create Rewrite HintDb str_simpl.

(** ** The state-and-exception monad

    [SE S E A] threads a state [S] and may raise an exception of type
    [E].  The state reached when the exception is raised is kept, as in
    Python, where effects done before a [raise] stay done; the caller
    decides whether to roll them back. *)

Definition SE (S E A : Type) : Type := S -> (E + A) * S.

#[export] Instance SE_ret {S E} : MRet (SE S E) :=
  fun A a s => (inr a, s).

#[export] Instance SE_bind {S E} : MBind (SE S E) :=
  fun A B f m s =>
    match m s with
    | (inl e, s') => (inl e, s')
    | (inr a, s') => f a s'
    end.

#[export] Instance SE_throw {S E} : MThrow E (SE S E) :=
  fun A e s => (inl e, s).

Section SEOps.
Context {S E : Type}.

Definition se_get : SE S E S := fun s => (inr s, s).
Definition se_put (s : S) : SE S E unit := fun _ => (inr tt, s).
Definition se_modify (f : S -> S) : SE S E unit := fun s => (inr tt, f s).

(** [try: m except <p>: h] : exceptions satisfying [p] are handled by
    [h], the others propagate. *)
Definition se_try_except {A} (p : E -> bool) (m : SE S E A)
    (h : E -> SE S E A) : SE S E A :=
  fun s =>
    match m s with
    | (inl e, s') => if p e then h e s' else (inl e, s')
    | r => r
    end.

(** [try: m except Exception: h] *)
Definition se_catch {A} (m : SE S E A) (h : E -> SE S E A) : SE S E A :=
  se_try_except (fun _ => true) m h.

(** Raise [e] when the option is [None] (an attribute read on [None]). *)
Definition se_of_option {A} (e : E) (o : option A) : SE S E A :=
  match o with Some a => mret a | None => mthrow e end.

Definition se_of_sum {A} (r : E + A) : SE S E A :=
  fun s => (r, s).
End SEOps.

Notation "'raise' e" := (mthrow e) (at level 10, e at level 9) : api_scope.
(** [try: m except p: pass] *)
Notation "'except_pass' p m" := (se_try_except p m (fun _ => mret tt))
  (at level 10, p at level 9, m at level 9) : api_scope.

(** The run of a monadic term on a state, one bind at a time. *)
Section SELaws.
Context {S E : Type}.

Lemma se_run_ret {A} (a : A) (s : S) : (mret a : SE S E A) s = (inr a, s).
Proof. reflexivity. Qed.

Lemma se_run_throw {A} (e : E) (s : S) : (mthrow e : SE S E A) s = (inl e, s).
Proof. reflexivity. Qed.

Lemma se_run_bind {A B} (m : SE S E A) (f : A -> SE S E B) (s : S) :
  (m ≫= f) s = match m s with
               | (inl e, s') => (inl e, s')
               | (inr a, s') => f a s'
               end.
Proof. reflexivity. Qed.

Lemma se_bind_ret_l {A B} (a : A) (f : A -> SE S E B) (s : S) :
  (mret a ≫= f) s = f a s.
Proof. reflexivity. Qed.

Lemma se_bind_assoc {A B C} (m : SE S E A) (f : A -> SE S E B)
    (g : B -> SE S E C) (s : S) :
  ((m ≫= f) ≫= g) s = (m ≫= fun x => f x ≫= g) s.
Proof. unfold mbind, SE_bind. by destruct (m s) as [[e|a] s']. Qed.

(** A state predicate preserved by a computation, whatever its
    outcome. *)
Definition se_preserves {A} (P : S -> Prop) (m : SE S E A) : Prop :=
  forall s, P s -> P (snd (m s)).

Lemma se_preserves_ret {A} P (a : A) : se_preserves P (mret a : SE S E A).
Proof. by intros s Hs. Qed.

Lemma se_preserves_throw {A} P (e : E) : se_preserves P (mthrow e : SE S E A).
Proof. by intros s Hs. Qed.

Lemma se_preserves_bind {A B} P (m : SE S E A) (f : A -> SE S E B) :
  se_preserves P m -> (forall a, se_preserves P (f a)) ->
  se_preserves P (m ≫= f).
Proof.
  intros Hm Hf s Hs. unfold mbind, SE_bind. specialize (Hm s Hs).
  destruct (m s) as [[e|a] s'] eqn:E1; [done|]. by apply Hf.
Qed.

Lemma se_preserves_try_except {A} P p (m : SE S E A) h :
  se_preserves P m -> (forall e, se_preserves P (h e)) ->
  se_preserves P (se_try_except p m h).
Proof.
  intros Hm Hh s Hs. unfold se_try_except. specialize (Hm s Hs).
  destruct (m s) as [[e|a] s']; [|done]. destruct (p e); [by apply Hh|done].
Qed.

Lemma se_preserves_of_option {A} P e (o : option A) :
  se_preserves P (se_of_option e o : SE S E A).
Proof. destruct o; by intros s Hs. Qed.

Lemma se_preserves_of_sum {A} P (r : E + A) :
  se_preserves P (se_of_sum r : SE S E A).
Proof. by intros s Hs. Qed.

Lemma se_preserves_if {A} P (b : bool) (m1 m2 : SE S E A) :
  se_preserves P m1 -> se_preserves P m2 ->
  se_preserves P (if b then m1 else m2).
Proof. by destruct b. Qed.
End SELaws.

#[export] Hint Rewrite @se_run_ret @se_run_throw @se_run_bind @se_bind_ret_l
  : se_simpl.
#[export] Hint Resolve se_preserves_ret se_preserves_throw se_preserves_bind
  se_preserves_try_except se_preserves_of_option se_preserves_of_sum
  se_preserves_if : api.

(** [se_preserves] goals: split the computation along its binds and
    close the pieces with the component lemmas in [api]. *)
Ltac se_preserves_auto :=
  repeat match goal with
  | |- se_preserves _ (match ?x with _ => _ end) => destruct x
  | |- se_preserves _ (_ ≫= _) => apply se_preserves_bind; [|intros ?]
  | |- se_preserves _ (se_try_except _ _ _) =>
      apply se_preserves_try_except; [|intros ?]
  | |- se_preserves _ (if _ then _ else _) => apply se_preserves_if
  end; eauto with api.

(** ** Postconditions

    [m ⤳ Q]: every value [m] returns satisfies [Q], from any state (an
    exception satisfies every postcondition), as ITree's [has_post]. *)
Definition se_post {S E A} (m : SE S E A) (Q : A -> Prop) : Prop :=
  forall s, match fst (m s) with inr a => Q a | inl _ => True end.

Notation "m ⤳ Q" := (se_post m Q) (at level 70) : api_scope.

Section SEPost.
Context {S E : Type}.

Lemma se_post_ret {A} (Q : A -> Prop) a : Q a -> (mret a : SE S E A) ⤳ Q.
Proof. by intros Ha s. Qed.

Lemma se_post_throw {A} (Q : A -> Prop) (e : E) : (mthrow e : SE S E A) ⤳ Q.
Proof. by intros s. Qed.

(** The cut rule, and its weak form for a prefix whose value does not
    matter. *)
Lemma se_post_bind {A B} (R : A -> Prop) (Q : B -> Prop) (m : SE S E A) f :
  m ⤳ R -> (forall a, R a -> f a ⤳ Q) -> (m ≫= f) ⤳ Q.
Proof.
  intros Hm Hf s. specialize (Hm s). unfold mbind, SE_bind.
  destruct (m s) as [[e|a] s']; [done|]. by apply Hf.
Qed.

Lemma se_post_bind_weak {A B} (Q : B -> Prop) (m : SE S E A) f :
  (forall a, f a ⤳ Q) -> (m ≫= f) ⤳ Q.
Proof. intros Hf. apply (se_post_bind (fun _ => True)); [by intros s; destruct (fst (m s))|auto]. Qed.

Lemma se_post_try_except {A} (Q : A -> Prop) p (m : SE S E A) h :
  m ⤳ Q -> (forall e, h e ⤳ Q) -> se_try_except p m h ⤳ Q.
Proof.
  intros Hm Hh s. specialize (Hm s). unfold se_try_except.
  destruct (m s) as [[e|a] s']; [|done]. destruct (p e); [apply Hh|done].
Qed.

Lemma se_post_if {A} (Q : A -> Prop) (b : bool) (m1 m2 : SE S E A) :
  m1 ⤳ Q -> m2 ⤳ Q -> (if b then m1 else m2) ⤳ Q.
Proof. by destruct b. Qed.

Lemma se_post_weaken {A} (Q Q' : A -> Prop) (m : SE S E A) :
  m ⤳ Q -> (forall a, Q a -> Q' a) -> m ⤳ Q'.
Proof. intros Hm HQ s. specialize (Hm s). destruct (fst (m s)); auto. Qed.
End SEPost.

#[export] Hint Resolve se_post_ret se_post_throw se_post_bind_weak se_post_try_except
  se_post_if : api.

(** A state invariant through a bind whose continuation needs a fact
    about the value the prefix returned. *)
Lemma se_preserves_bind_post {S E A B} (P : S -> Prop) (R : A -> Prop)
    (m : SE S E A) (f : A -> SE S E B) :
  m ⤳ R -> se_preserves P m -> (forall a, R a -> se_preserves P (f a)) ->
  se_preserves P (m ≫= f).
Proof.
  intros Hpost Hm Hf s Hs. specialize (Hpost s). specialize (Hm s Hs).
  unfold mbind, SE_bind. destruct (m s) as [[e|a] s']; [done|]. by apply Hf.
Qed.

Lemma se_post_of_sum {S E A} (r : E + A) : (se_of_sum r : SE S E A) ⤳ (fun a => r = inr a).
Proof. intros s. by destruct r. Qed.

(** [⤳] goals whose result is built by the last [mret]: split along the
    binds, ignoring the values of the prefixes. *)
Ltac se_post_auto :=
  repeat match goal with
  | |- se_post (match ?x with _ => _ end) _ => destruct x
  | |- se_post (_ ≫= _) _ => apply se_post_bind_weak; intros ?
  | |- se_post (se_try_except _ _ _) _ => apply se_post_try_except; [|intros ?]
  | |- se_post (if _ then _ else _) _ => apply se_post_if
  end; eauto with api.

(** ** Lists of row ids *)

(** The largest id of a list, 0 for the empty list: SQLite's
    [max(rowid)] with its empty-table default. *)
Definition max_id (l : list Z) : Z := fold_right Z.max 0%Z l.

Lemma max_id_ge (l : list Z) (x : Z) : x ∈ l -> x <= max_id l.
Proof.
  unfold max_id. induction l as [|y l IH]; cbn; [by intros ?%elem_of_nil|].
  intros [->|Hx]%elem_of_cons; [lia|]. specialize (IH Hx). lia.
Qed.

Lemma max_id_nonneg (l : list Z) : 0 <= max_id l.
Proof. unfold max_id. induction l; cbn; lia. Qed.

Lemma max_id_app (l1 l2 : list Z) : max_id (l1 ++ l2) = Z.max (max_id l1) (max_id l2).
Proof.
  pose proof (max_id_nonneg l2). unfold max_id in *.
  induction l1 as [|y l IH]; cbn; [lia|]. rewrite IH; lia.
Qed.

Lemma max_id_le (l : list Z) (b : Z) :
  Forall (fun y => y <= b) l -> 0 <= b -> max_id l <= b.
Proof. unfold max_id. induction 1; cbn; lia. Qed.

Lemma max_id_last (l : list Z) (x : Z) :
  Forall (fun y => y <= x) l -> 0 <= x -> max_id (l ++ [x]) = x.
Proof.
  intros Hl Hx. rewrite max_id_app. pose proof (max_id_le l x Hl Hx). cbn. lia.
Qed.

#[export] Hint Resolve max_id_ge max_id_nonneg : api.

Lemma StronglySorted_snoc (xs : list Z) (n : Z) :
  StronglySorted Z.lt xs -> Forall (fun y => y < n) xs ->
  StronglySorted Z.lt (xs ++ [n]).
Proof.
  induction 1 as [|y l Hs IH Hy]; cbn; [repeat constructor|].
  intros [Hyn Hl]%Forall_cons. constructor; [by apply IH|].
  apply Forall_app; split; [done|by constructor].
Qed.

(** Filtering by a stricter predicate first makes a looser filter
    before it redundant. *)
Lemma filter_filter_sub {A} (f g : A -> bool) (l : list A) :
  (forall x, f x = true -> g x = true) -> List.filter f (List.filter g l) = List.filter f l.
Proof.
  intros Hfg. induction l as [|x l IH]; [done|]. cbn.
  destruct (f x) eqn:Hf; [rewrite (Hfg x Hf); cbn; rewrite Hf; by f_equal|].
  destruct (g x); cbn; [rewrite Hf|]; done.
Qed.

(** ** Strings *)

Lemma str_app_cons (c : ascii) (s t : string) : String c s +:+ t = String c (s +:+ t).
Proof. reflexivity. Qed.

Lemma str_app_nil_l (s : string) : "" +:+ s = s.
Proof. reflexivity. Qed.

Lemma str_app_assoc (s t u : string) : s +:+ (t +:+ u) = (s +:+ t) +:+ u.
Proof. induction s as [|c s IH]; [done|]. rewrite !str_app_cons. by rewrite IH. Qed.

#[export] Hint Rewrite str_app_cons str_app_nil_l : str_simpl.

(** Unfold the monad's operations and reduce the plumbing, leaving the
    component operations (queries, commit, views) folded. *)
Ltac se_unfold :=
  cbv [mbind SE_bind mret SE_ret mthrow SE_throw se_of_sum se_of_option
       se_catch se_try_except se_get se_put se_modify];
  cbv beta iota zeta.

(** Close a decidable proposition on concrete data by computation. *)
Ltac by_decide := apply (bool_decide_unpack _); vm_compute; reflexivity.
