(* ===== verification/PyValue.v ===== *)
(** * Python values and exceptions used by the views of src/api.py

    The request bodies ([request.get_json()]) are JSON values; the views
    index them with [data['k']] (raising [KeyError] or [TypeError]) or
    [data.get('k')] (raising [AttributeError] on a non-dict), test them
    with Python truthiness, and convert path segments with [int()].
    This file models those Python built-ins, [str()] on integers, and the
    exceptions the views can raise, with the round trip
    [int(str(n)) = n]. *)

From S2P Require Import Prelude.

(** ** JSON values as [json.loads] returns them *)

#[warnings="-register-all"]
Inductive json : Type :=
| JNull
| JBool (b : bool)
| JInt (z : Z)
| JStr (s : string)
| JList (l : list json)
| JObj (kvs : list (string * json)).

(** The exceptions raised by the views, by the libraries they call and
    by the database layer.  All of them end in the 500 view when they
    escape a view; [token_required] catches every one of them. *)
Inductive exn : Type :=
| KeyError (k : string)       (** [data['k']] on a dict without [k] *)
| TypeError                   (** subscript of a non-dict, hashing a non-str *)
| AttributeError              (** attribute of [None], [.get] of a non-dict *)
| ValueError                  (** [int('abc')] *)
| OverflowError               (** sqlite3 binding an int outside 64 bits *)
| IntegrityError              (** UNIQUE constraint failed at commit *)
| StatementError              (** a value the column type cannot bind *)
| UnmappedInstanceError       (** [db.session.delete(None)] *)
| DecodeError                 (** PyJWT: malformed token or bad signature *)
| ExpiredSignatureError.      (** PyJWT: [exp] is in the past *)

#[export] Instance exn_eq_dec : EqDecision exn.
Proof. solve_decision. Defined.

Definition is_key_error (e : exn) : bool :=
  match e with KeyError _ => true | _ => false end.

(** Python's [bool(v)] on a JSON value. *)
Definition truthy (v : json) : bool :=
  match v with
  | JNull => false
  | JBool b => b
  | JInt z => negb (Z.eqb z 0)
  | JStr s => negb (String.eqb s "")
  | JList l => negb (bool_decide (l = []))
  | JObj kvs => negb (bool_decide (kvs = []))
  end.

(** Lookup in the dict built by [json.loads]: a key given twice keeps its
    last value. *)
Fixpoint dict_lookup (k : string) (kvs : list (string * json)) : option json :=
  match kvs with
  | [] => None
  | (k', v) :: rest =>
      match dict_lookup k rest with
      | Some w => Some w
      | None => if String.eqb k k' then Some v else None
      end
  end.

(** [data[k]] *)
Definition py_getitem (d : json) (k : string) : exn + json :=
  match d with
  | JObj kvs =>
      match dict_lookup k kvs with
      | Some v => inr v
      | None => inl (KeyError k)
      end
  | _ => inl TypeError
  end.

(** [data.get(k)] *)
Definition py_dict_get (d : json) (k : string) : exn + json :=
  match d with
  | JObj kvs => inr (default JNull (dict_lookup k kvs))
  | _ => inl AttributeError
  end.

(** ** [str(n)] and [int(s)] on base-10 integers *)

(** [str(n)]: stdpp's decimal printer has Python's format (a leading
    [-], no leading zeros, ["0"] for zero). *)
Definition py_str_int (z : Z) : string := pretty z.

(** The characters [int()] strips on either side (the ASCII ones:
    [\t\n\v\f\r], the separators 0x1c-0x1f, and the space). *)
Definition py_isspace (c : Ascii.ascii) : bool :=
  Ascii.is_space c ||
  (Nat.leb 28 (Ascii.nat_of_ascii c) && Nat.leb (Ascii.nat_of_ascii c) 31).

Fixpoint str_lstrip (p : Ascii.ascii -> bool) (s : string) : string :=
  match s with
  | EmptyString => EmptyString
  | String c r => if p c then str_lstrip p r else s
  end.

Fixpoint str_rstrip (p : Ascii.ascii -> bool) (s : string) : string :=
  match s with
  | EmptyString => EmptyString
  | String c r =>
      match str_rstrip p r with
      | EmptyString => if p c then EmptyString else String c EmptyString
      | r' => String c r'
      end
  end.

Definition str_strip (p : Ascii.ascii -> bool) (s : string) : string :=
  str_lstrip p (str_rstrip p s).

(** The digits after the first one; [us] allows single underscores
    between digits, as [int()] does and SQLite does not. *)
Fixpoint digits_go (us : bool) (acc : Z) (s : string) : option Z :=
  match s with
  | EmptyString => Some acc
  | String c r =>
      match Ascii.is_nat c with
      | Some d => digits_go us (10 * acc + Z.of_nat d) r
      | None =>
          if us && Ascii.eqb c "_"%char then
            match r with
            | String c2 r2 =>
                match Ascii.is_nat c2 with
                | Some d => digits_go us (10 * acc + Z.of_nat d) r2
                | None => None
                end
            | EmptyString => None
            end
          else None
      end
  end.

(** A non-empty run of digits that starts with a digit. *)
Definition parse_digits (us : bool) (s : string) : option Z :=
  match s with
  | String c _ =>
      match Ascii.is_nat c with
      | Some _ => digits_go us 0 s
      | None => None
      end
  | EmptyString => None
  end.

Definition parse_signed (us : bool) (s : string) : option Z :=
  match s with
  | String c r =>
      if Ascii.eqb c "-"%char then Z.opp <$> parse_digits us r
      else if Ascii.eqb c "+"%char then parse_digits us r
      else parse_digits us s
  | EmptyString => None
  end.

(** [int(s)] for a [str] argument in base 10: [None] is [ValueError]. *)
Definition py_int (s : string) : option Z :=
  parse_signed true (str_strip py_isspace s).

(** [int(s)] as a statement that raises. *)
Definition py_int_exn (s : string) : exn + Z :=
  match py_int s with Some z => inr z | None => inl ValueError end.

(** ** [str] methods the libraries call on ASCII strings *)

(** The whitespace of [bytes.split()]: space, [\t\n\r], 0x0b, 0x0c. *)
Definition bytes_isspace (c : Ascii.ascii) : bool :=
  let n := Ascii.nat_of_ascii c in
  Nat.eqb n 32 || (Nat.leb 9 n && Nat.leb n 13).

(** [s.count(c)] for a one-character [c]. *)
Fixpoint str_count (c : Ascii.ascii) (s : string) : nat :=
  match s with
  | EmptyString => 0
  | String x r => (if Ascii.eqb x c then 1 else 0) + str_count c r
  end.

(** [s.partition(c)]: the text before the first [c] and, when there is
    one, the text after it. *)
Fixpoint str_partition (c : Ascii.ascii) (s : string) : string * option string :=
  match s with
  | EmptyString => (EmptyString, None)
  | String x r =>
      if Ascii.eqb x c then (EmptyString, Some r)
      else let '(a, b) := str_partition c r in (String x a, b)
  end.

(** [s.split(c)]: the pieces between the occurrences of [c]. *)
Fixpoint py_split (c : Ascii.ascii) (s : string) : list string :=
  match s with
  | EmptyString => [EmptyString]
  | String x r =>
      match py_split c r with
      | w :: ws => if Ascii.eqb x c then EmptyString :: w :: ws else String x w :: ws
      | [] => [String x EmptyString]
      end
  end.

(** [s.startswith(p)]. *)
Fixpoint str_prefixb (p s : string) : bool :=
  match p, s with
  | EmptyString, _ => true
  | String c p', String c' s' => Ascii.eqb c c' && str_prefixb p' s'
  | String _ _, EmptyString => false
  end.

(** [s[n:]]. *)
Fixpoint str_drop (n : nat) (s : string) : string :=
  match n, s with
  | O, _ => s
  | S n', String _ r => str_drop n' r
  | S _, EmptyString => EmptyString
  end.

(** ** Lemmas *)

Lemma py_getitem_obj_Some kvs k v :
  dict_lookup k kvs = Some v -> py_getitem (JObj kvs) k = inr v.
Proof. cbn. by intros ->. Qed.

Lemma py_getitem_obj_None kvs k :
  dict_lookup k kvs = None -> py_getitem (JObj kvs) k = inl (KeyError k).
Proof. cbn. by intros ->. Qed.

Lemma py_getitem_not_obj d k :
  (forall kvs, d <> JObj kvs) -> py_getitem d k = inl TypeError.
Proof. destruct d; naive_solver. Qed.

Lemma pretty_N_char_is_nat (x : N) :
  (x < 10)%N -> Ascii.is_nat (pretty_N_char x) = Some (N.to_nat x).
Proof.
  intros Hx.
  assert (x = 0 \/ x = 1 \/ x = 2 \/ x = 3 \/ x = 4 \/ x = 5 \/ x = 6
          \/ x = 7 \/ x = 8 \/ x = 9)%N as Hc by lia.
  by repeat destruct Hc as [->|Hc]; [..|subst].
Qed.

(** Reading the digits printed by [pretty_N_go] multiplies the
    accumulator by a power of ten and adds the printed number. *)
Lemma digits_go_pretty_N_go us (x : N) :
  forall acc s, exists k : nat,
    digits_go us acc (pretty_N_go x s) =
    digits_go us (acc * 10 ^ Z.of_nat k + Z.of_N x) s.
Proof.
  induction (N.lt_wf_0 x) as [x _ IH]; intros acc s.
  destruct (decide (x = 0)%N) as [->|Hx].
  { exists 0%nat. rewrite pretty_N_go_0. f_equal. lia. }
  rewrite pretty_N_go_step by lia.
  destruct (IH (x `div` 10)%N ltac:(apply N.div_lt; lia) acc
              (String (pretty_N_char (x `mod` 10)) s)) as [k ->].
  exists (S k). cbn [digits_go].
  rewrite pretty_N_char_is_nat by (apply N.mod_lt; lia).
  f_equal. rewrite Nat2Z.inj_succ, Z.pow_succ_r by lia.
  rewrite N_nat_Z, N2Z.inj_div, N2Z.inj_mod.
  pose proof (Z.div_mod (Z.of_N x) 10 ltac:(lia)). lia.
Qed.

Lemma pretty_N_go_head (x : N) :
  forall s, (0 < x)%N -> exists c r,
    pretty_N_go x s = String c r /\ is_Some (Ascii.is_nat c).
Proof.
  induction (N.lt_wf_0 x) as [x _ IH]; intros s Hx.
  rewrite pretty_N_go_step by lia.
  destruct (decide (x `div` 10 = 0)%N) as [E|E].
  - rewrite E, pretty_N_go_0. eexists _, _. split; [done|].
    rewrite pretty_N_char_is_nat by (apply N.mod_lt; lia). by eexists.
  - apply IH; [apply N.div_lt; lia|destruct (x `div` 10)%N; [done|lia]].
Qed.

Lemma parse_digits_pretty_N us (x : N) :
  parse_digits us (pretty x) = Some (Z.of_N x).
Proof.
  unfold pretty, pretty_N. case_decide as Hx; [by subst|].
  destruct (pretty_N_go_head x "" ltac:(lia)) as (c & r & Hcr & [d Hd]).
  unfold parse_digits. rewrite Hcr, Hd, <- Hcr.
  destruct (digits_go_pretty_N_go us x 0 "") as [k ->]. cbn; f_equal; lia.
Qed.

Lemma is_nat_not_space c d : Ascii.is_nat c = Some d -> py_isspace c = false.
Proof. by destruct c as [[] [] [] [] [] [] [] []]. Qed.

Lemma is_nat_not_ascii_space c d : Ascii.is_nat c = Some d -> Ascii.is_space c = false.
Proof. by destruct c as [[] [] [] [] [] [] [] []]. Qed.

Lemma is_nat_not_sign c d :
  Ascii.is_nat c = Some d -> Ascii.eqb c "-" = false /\ Ascii.eqb c "+" = false.
Proof. by destruct c as [[] [] [] [] [] [] [] []]. Qed.

Lemma str_rstrip_cons p c s :
  str_rstrip p s = s -> s <> EmptyString -> str_rstrip p (String c s) = String c s.
Proof. intros H Hne. cbn [str_rstrip]. rewrite H. by destruct s. Qed.

(** Printing then reading back, for any set of stripped characters that
    holds neither a digit nor the minus sign. *)
Section PrintParse.
Context (sp : ascii -> bool).
Hypothesis sp_digit : forall c d, Ascii.is_nat c = Some d -> sp c = false.
Hypothesis sp_dash : sp "-" = false.

Lemma str_rstrip_pretty_N_go (x : N) :
  forall s, str_rstrip sp s = s -> str_rstrip sp (pretty_N_go x s) = pretty_N_go x s.
Proof.
  induction (N.lt_wf_0 x) as [x _ IH]; intros s Hs.
  destruct (decide (x = 0)%N) as [->|Hx]; [by rewrite !pretty_N_go_0|].
  rewrite pretty_N_go_step by lia. apply IH; [apply N.div_lt; lia|].
  cbn [str_rstrip]. rewrite Hs.
  rewrite (sp_digit _ _ (pretty_N_char_is_nat _ (N.mod_lt x 10 ltac:(done)))).
  by destruct s.
Qed.

Lemma pretty_Npos_shape (p : positive) :
  exists c r, pretty (Npos p) = String c r /\ is_Some (Ascii.is_nat c) /\
    str_rstrip sp (String c r) = String c r.
Proof.
  unfold pretty, pretty_N. rewrite decide_False by done.
  pose proof (str_rstrip_pretty_N_go (Npos p) "" eq_refl) as Hr.
  destruct (pretty_N_go_head (Npos p) "" ltac:(lia)) as (c & r & Hcr & Hd).
  rewrite Hcr in Hr. eauto.
Qed.

Lemma parse_signed_pretty us (z : Z) : parse_signed us (str_strip sp (pretty z)) = Some z.
Proof.
  destruct z as [|p|p].
  - unfold str_strip. cbn. rewrite (sp_digit "0" 0 eq_refl). cbn.
    rewrite (sp_digit "0" 0 eq_refl). reflexivity.
  - change (pretty (Zpos p)) with (pretty (Npos p)).
    pose proof (parse_digits_pretty_N us (Npos p)) as Hp.
    destruct (pretty_Npos_shape p) as (c & r & E & [d Hd] & Hr).
    rewrite E in Hp |- *. unfold str_strip. rewrite Hr. cbn [str_lstrip].
    rewrite (sp_digit _ _ Hd). unfold parse_signed.
    by destruct (is_nat_not_sign c d Hd) as [-> ->].
  - change (pretty (Zneg p)) with (String "-" (pretty (Npos p))).
    pose proof (parse_digits_pretty_N us (Npos p)) as Hp.
    destruct (pretty_Npos_shape p) as (c & r & E & [d Hd] & Hr).
    rewrite E in Hp |- *. unfold str_strip.
    rewrite (str_rstrip_cons _ _ _ Hr) by done. cbn [str_lstrip]. rewrite sp_dash.
    unfold parse_signed. change ("-" =? "-")%char with true. cbv iota. by rewrite Hp.
Qed.
End PrintParse.

(** Round trip: [int(str(n)) == n] for every Python integer [n]. *)
Lemma py_int_py_str_int (z : Z) : py_int (py_str_int z) = Some z.
Proof. apply parse_signed_pretty; [apply is_nat_not_space|done]. Qed.

(** ** Lemmas on the [str] methods *)

Lemma str_prefixb_app p s : str_prefixb p (p +:+ s) = true.
Proof.
  induction p as [|c p IH]; [by destruct s|].
  change (String c p +:+ s) with (String c (p +:+ s)). cbn [str_prefixb].
  by rewrite Ascii.eqb_refl, IH.
Qed.

Lemma str_count_app c s t : str_count c (s +:+ t) = (str_count c s + str_count c t)%nat.
Proof. induction s as [|x s IH]; [done|]. rewrite str_app_cons. cbn [str_count]. rewrite IH. lia. Qed.

(** The characters of a string: none of them is [c]. *)
Definition str_free (c : Ascii.ascii) (s : string) : Prop := str_count c s = 0%nat.

Lemma str_partition_free_app c s t : str_free c s ->
  str_partition c (s +:+ String c t) = (s, Some t).
Proof.
  unfold str_free. induction s as [|x s IH]; rewrite ?str_app_nil_l, ?str_app_cons; cbn [str_partition str_count]; [by rewrite Ascii.eqb_refl|].
  destruct (Ascii.eqb x c); [done|]. intros Hs. by rewrite IH.
Qed.

(** What [s.partition(c)] puts before the separator has no [c]. *)
Lemma str_partition_fst_free c s : str_free c (str_partition c s).1.
Proof.
  unfold str_free. induction s as [|x s IH]; cbn [str_partition]; [done|].
  destruct (Ascii.eqb x c) eqn:E; [done|].
  destruct (str_partition c s) as [a b]. cbn in *. by rewrite E, IH.
Qed.

Lemma str_partition_free c s : str_free c s -> str_partition c s = (s, None).
Proof.
  unfold str_free. induction s as [|x s IH]; rewrite ?str_app_nil_l, ?str_app_cons; cbn [str_partition str_count]; [done|].
  destruct (Ascii.eqb x c); [done|]. intros Hs. by rewrite IH.
Qed.

Lemma str_length_app s t : String.length (s +:+ t) = (String.length s + String.length t)%nat.
Proof. induction s as [|c s IH]; [done|]. rewrite str_app_cons. cbn. by rewrite IH. Qed.

#[export] Hint Rewrite str_count_app str_length_app : str_simpl.
