(* ===== verification/Credentials.v ===== *)
(** * Password hashing and JWT: the library interfaces of the login flow

    [login] (src/api.py 45-67) calls werkzeug's [check_password_hash] and
    PyJWT's [jwt.encode]; [token_required] (api.py 70-86) calls
    [jwt.decode]; [create_new_user] and [update_user] call
    [generate_password_hash].  Each library is a type class whose laws
    are what the views rely on; the views are proved against the
    classes.  On top of the signature layer, [jwt_decode] models what
    PyJWT's [decode] does with the claims (the [exp] test), and
    [login_claims] the payload the login view builds.  The libraries
    themselves are modelled in [Security] (werkzeug) and [Jws] (PyJWT),
    whose instances discharge the laws; the toy instances here are
    executable, so that witnesses compute.  The signature laws are
    those of HMAC-SHA256 as PyJWT uses it: verification inverts
    encoding, a token verifies only to the claims it carries, and keys
    of at most 64 bytes act through their HMAC key block (the key padded
    with zero bytes), so that keys with the same block sign alike and
    keys with different blocks are told apart.  Longer keys, which HMAC
    first replaces by their digest, are left unconstrained.  PyJWT also
    accepts more strings than the tokens it writes ([Jws]). *)

From S2P Require Import Prelude PyValue.

(** The payload of a token: the claims the views read.  [None] is a
    payload without that key. *)
Record jwt_claims : Type := JwtClaims {
  jc_public_id : option string;
  jc_exp : option Z
}.

#[export] Instance jwt_claims_eq_dec : EqDecision jwt_claims.
Proof. solve_decision. Defined.

(** werkzeug.security: [generate_password_hash(password, salt)] (the salt
    is drawn at random by werkzeug; here it is an input) and
    [check_password_hash(pwhash, password)]. *)
Class PasswordHasher : Type := {
  generate_password_hash : string -> string -> string;
  check_password_hash : string -> string -> bool;
  check_generate : forall pw salt,
    check_password_hash (generate_password_hash pw salt) pw = true
}.

(** HMAC's key block [K0] (RFC 2104): a key of at most 64 bytes, the
    block size of SHA-256, is padded with zero bytes to 64; a longer
    key is first replaced by its digest. *)
Definition hmac_short_key (key : string) : Prop := (String.length key <= 64)%nat.

Definition hmac_key_block (key : string) : string :=
  key +:+ String.string_of_list_ascii (repeat "000"%char (64 - String.length key)).

(** PyJWT's HS256 signature layer: [jwt_encode claims key] is
    [jwt.encode(payload, key)]; [jwt_verify key token] is the part of
    [jwt.decode(token, key, algorithms=["HS256"])] that parses the
    token and checks its signature, before any claim is looked at. *)
Class JwtCodec : Type := {
  jwt_encode : jwt_claims -> string -> string;
  jwt_verify : string -> string -> option jwt_claims;
  jwt_verify_encode : forall c key, jwt_verify key (jwt_encode c key) = Some c;
  jwt_verify_claims : forall c c' key key',
    jwt_verify key (jwt_encode c key') = Some c' -> c' = c;
  jwt_verify_same_block : forall tok key key',
    hmac_short_key key -> hmac_short_key key' -> hmac_key_block key = hmac_key_block key' ->
    jwt_verify key tok = jwt_verify key' tok;
  jwt_verify_other_key : forall c key key',
    hmac_short_key key -> hmac_short_key key' -> hmac_key_block key <> hmac_key_block key' ->
    jwt_verify key (jwt_encode c key') = None
}.

(** [datetime.timedelta(minutes=3600)] in seconds (api.py 61). *)
Definition token_lifetime : Z := 3600 * 60.

(** The payload built by [login] at time [now] (api.py 60-61). *)
Definition login_claims (public_id : string) (now : Z) : jwt_claims :=
  {| jc_public_id := Some public_id; jc_exp := Some (now + token_lifetime) |}.

Section Jwt.
Context `{JwtCodec}.

(** [jwt.decode(token, key, algorithms=["HS256"])] at time [now]:
    PyJWT raises [TypeError] when the key is [None] (it cannot prepare
    an HMAC key from it), [DecodeError] when the signature does not
    verify, and [ExpiredSignatureError] when [exp <= now]. *)
Definition jwt_decode (tok : string) (key : option string) (now : Z) : exn + jwt_claims :=
  match key with
  | None => inl TypeError
  | Some k =>
      match jwt_verify k tok with
      | None => inl DecodeError
      | Some c =>
          match jc_exp c with
          | Some e => if Z.leb e now then inl ExpiredSignatureError else inr c
          | None => inr c
          end
      end
  end.

(** What [token_required] extracts from a token: [data['public_id']]
    after [jwt.decode] (api.py 81-82); every exception is caught by the
    view and becomes "Token is invalid!". *)
Definition token_public_id (tok : string) (key : option string) (now : Z) : exn + string :=
  match jwt_decode tok key now with
  | inl e => inl e
  | inr c =>
      match jc_public_id c with
      | Some p => inr p
      | None => inl (KeyError "public_id")
      end
  end.

(** A key and the same key followed by a zero byte have the same block,
    while the key is shorter than the block. *)
Lemma hmac_key_block_nul k : (String.length k < 64)%nat ->
  hmac_key_block (k +:+ String "000" EmptyString) = hmac_key_block k.
Proof.
  intros Hk. unfold hmac_key_block. rewrite str_length_app, <- str_app_assoc. cbn [String.length].
  f_equal. replace (64 - String.length k)%nat with (S (64 - (String.length k + 1)))%nat by lia.
  reflexivity.
Qed.

Lemma hmac_short_key_nul k : (String.length k < 64)%nat ->
  hmac_short_key (k +:+ String "000" EmptyString).
Proof. unfold hmac_short_key. rewrite str_length_app. cbn. lia. Qed.

Lemma jwt_decode_encode_fresh c key now :
  (forall e, jc_exp c = Some e -> now < e) ->
  jwt_decode (jwt_encode c key) (Some key) now = inr c.
Proof.
  intros Hexp. unfold jwt_decode. rewrite jwt_verify_encode.
  destruct (jc_exp c) as [e|] eqn:E; [|done].
  specialize (Hexp e eq_refl). by rewrite (proj2 (Z.leb_gt e now) Hexp).
Qed.

Lemma jwt_decode_encode_expired c key now e :
  jc_exp c = Some e -> e <= now ->
  jwt_decode (jwt_encode c key) (Some key) now = inl ExpiredSignatureError.
Proof.
  intros He Hle. unfold jwt_decode. rewrite jwt_verify_encode, He.
  by rewrite (proj2 (Z.leb_le e now) Hle).
Qed.
End Jwt.

(** ** Instances

    [toy_hasher] stores [password ++ "$" ++ salt] and checks the prefix;
    [toy_jwt] writes the three fields (key, public id, exp) escaped and
    separated by dots, and verifies a token by parsing it and comparing
    it with the re-encoding of what it parsed, the way an HMAC is checked
    by recomputing it.  Neither is secure: they only show that the class
    laws are consistent and make the model executable. *)

Definition toy_hash (pw salt : string) : string := pw +:+ String "$" salt.
Definition toy_check (h pw : string) : bool := str_prefixb (pw +:+ "$") h.

Lemma toy_check_hash pw salt : toy_check (toy_hash pw salt) pw = true.
Proof.
  unfold toy_check, toy_hash.
  replace (pw +:+ String "$" salt) with ((pw +:+ "$") +:+ salt)
    by (by rewrite <- str_app_assoc).
  apply str_prefixb_app.
Qed.

#[local] Instance toy_hasher : PasswordHasher :=
  {| generate_password_hash := toy_hash; check_password_hash := toy_check;
     check_generate := toy_check_hash |}.

(** Fields of a toy token: [.] and [\] are escaped by a backslash. *)
Definition is_sep (c : ascii) : bool := Ascii.eqb c "." || Ascii.eqb c "\".

Fixpoint esc (s : string) : string :=
  match s with
  | EmptyString => EmptyString
  | String c r => if is_sep c then String "\" (String c (esc r)) else String c (esc r)
  end.

(** The first field of a token and what follows its dot ([None]: no
    dot, the field runs to the end). *)
Fixpoint split_field (s : string) : string * option string :=
  match s with
  | EmptyString => (EmptyString, None)
  | String c r =>
      if Ascii.eqb c "\" then
        match r with
        | String c2 r2 => let '(f, rest) := split_field r2 in (String c2 f, rest)
        | EmptyString => (EmptyString, None)
        end
      else if Ascii.eqb c "." then (EmptyString, Some r)
      else let '(f, rest) := split_field r in (String c f, rest)
  end.

Definition opt_field {A} (print : A -> string) (o : option A) : string :=
  match o with Some a => String "s" (print a) | None => "n" end.

Definition parse_opt_field {A} (parse : string -> option A) (s : string)
    : option (option A) :=
  match s with
  | String c r =>
      if Ascii.eqb c "s" then Some <$> parse r
      else if Ascii.eqb c "n" then (match r with EmptyString => Some None | _ => None end)
      else None
  | EmptyString => None
  end.

(** The toy token carries the key block in clear. *)
Definition toy_jwt_sign (c : jwt_claims) (block : string) : string :=
  esc block +:+ "." +:+ esc (opt_field id (jc_public_id c)) +:+ "." +:+
  esc (opt_field py_str_int (jc_exp c)).

Definition toy_jwt_parse (tok : string) : option (string * jwt_claims) :=
  match split_field tok with
  | (k, Some r1) =>
      match split_field r1 with
      | (f2, Some r2) =>
          match split_field r2 with
          | (f3, None) =>
              pid ← parse_opt_field Some f2;
              e ← parse_opt_field py_int f3;
              Some (k, JwtClaims pid e)
          | _ => None
          end
      | _ => None
      end
  | _ => None
  end.

Definition toy_jwt_encode (c : jwt_claims) (key : string) : string :=
  toy_jwt_sign c (hmac_key_block key).

Definition toy_jwt_check (block tok : string) : option jwt_claims :=
  match toy_jwt_parse tok with
  | Some (b, c) =>
      if String.eqb b block && String.eqb (toy_jwt_sign c block) tok then Some c else None
  | None => None
  end.

Definition toy_jwt_verify (key tok : string) : option jwt_claims :=
  toy_jwt_check (hmac_key_block key) tok.

Lemma split_field_esc_dot f r : split_field (esc f +:+ String "." r) = (f, Some r).
Proof.
  induction f as [|c f IH]; [done|]. cbn [esc].
  destruct (is_sep c) eqn:Hc; autorewrite with str_simpl; cbn [split_field].
  - by rewrite IH.
  - unfold is_sep in Hc. apply orb_false_iff in Hc as [-> ->]. by rewrite IH.
Qed.

Lemma split_field_esc f : split_field (esc f) = (f, None).
Proof.
  induction f as [|c f IH]; [done|]. cbn [esc].
  destruct (is_sep c) eqn:Hc; cbn [split_field].
  - by rewrite IH.
  - unfold is_sep in Hc. apply orb_false_iff in Hc as [-> ->]. by rewrite IH.
Qed.

Lemma parse_opt_field_roundtrip {A} (print : A -> string) parse o :
  (forall a, parse (print a) = Some a) ->
  parse_opt_field parse (opt_field print o) = Some o.
Proof. intros Hp. destruct o as [a|]; [|done]. cbn. by rewrite Hp. Qed.

Lemma toy_jwt_parse_encode c key :
  toy_jwt_parse (toy_jwt_sign c key) = Some (key, c).
Proof.
  unfold toy_jwt_parse, toy_jwt_sign. autorewrite with str_simpl.
  rewrite !split_field_esc_dot, split_field_esc.
  rewrite (parse_opt_field_roundtrip id Some) by done.
  rewrite (parse_opt_field_roundtrip py_str_int py_int) by apply py_int_py_str_int.
  by destruct c.
Qed.

Lemma toy_jwt_verify_encode c key : toy_jwt_verify key (toy_jwt_encode c key) = Some c.
Proof.
  unfold toy_jwt_verify, toy_jwt_check, toy_jwt_encode. rewrite toy_jwt_parse_encode.
  by rewrite !String.eqb_refl.
Qed.

Lemma toy_jwt_verify_claims c c' key key' :
  toy_jwt_verify key (toy_jwt_encode c key') = Some c' -> c' = c.
Proof.
  unfold toy_jwt_verify, toy_jwt_check, toy_jwt_encode. rewrite toy_jwt_parse_encode.
  destruct (_ && _); congruence.
Qed.

Lemma toy_jwt_verify_same_block tok key key' :
  hmac_short_key key -> hmac_short_key key' -> hmac_key_block key = hmac_key_block key' ->
  toy_jwt_verify key tok = toy_jwt_verify key' tok.
Proof. unfold toy_jwt_verify. by intros _ _ ->. Qed.

Lemma toy_jwt_verify_other_key c key key' :
  hmac_short_key key -> hmac_short_key key' -> hmac_key_block key <> hmac_key_block key' ->
  toy_jwt_verify key (toy_jwt_encode c key') = None.
Proof.
  intros _ _ Hne. unfold toy_jwt_verify, toy_jwt_check, toy_jwt_encode. rewrite toy_jwt_parse_encode.
  by rewrite (proj2 (String.eqb_neq _ _) (not_eq_sym Hne)).
Qed.

#[local] Instance toy_jwt : JwtCodec :=
  {| jwt_encode := toy_jwt_encode; jwt_verify := toy_jwt_verify;
     jwt_verify_encode := toy_jwt_verify_encode;
     jwt_verify_claims := toy_jwt_verify_claims;
     jwt_verify_same_block := toy_jwt_verify_same_block;
     jwt_verify_other_key := toy_jwt_verify_other_key |}.
