(* ===== verification/Security.v ===== *)
(** * werkzeug.security: the password hashes of the user views

    [create_new_user] and [update_user] (src/api.py 150, 177) store
    [generate_password_hash(data['password'], method='sha256')] and
    [login] (api.py 58) calls [check_password_hash(user.password,
    auth.password)].  This file models the two functions of werkzeug 1.x
    ([security.py]: [gen_salt], [_hash_internal],
    [generate_password_hash], [check_password_hash]) over an interface
    to [hashlib] and [hmac], the class [Hashlib], whose only laws are
    that SHA-256 is available and that its hex digest has 64 characters.
    The salt of werkzeug 1.x has 8 characters, so a [sha256] hash has
    exactly the 80 characters of the column [db.String(80)] (api.py 33).
    The instance [werkzeug_hasher] of [PasswordHasher] is the [sha256]
    scheme the views use; its check agrees with werkzeug's
    [check_password_hash] on every hash it generates. *)

From S2P Require Import Prelude PyValue Credentials.

(** [hashlib] and [hmac] as werkzeug calls them.  [None] is the
    [ValueError] of an unsupported hash name. *)
Class Hashlib : Type := {
  (** [hmac.new(key, msg, digestmod).hexdigest()] *)
  hmac_hexdigest : string -> string -> string -> option string;
  (** [hashlib.new(name, data).hexdigest()] *)
  hash_hexdigest : string -> string -> option string;
  (** [hashlib.pbkdf2_hmac(name, data, salt, iterations)], in hex *)
  pbkdf2_hexdigest : string -> string -> string -> Z -> option string;
  (** HMAC-SHA256 in hex, for a key and a message *)
  hmac_sha256 : string -> string -> string;
  hmac_hexdigest_sha256 : forall key msg,
    hmac_hexdigest "sha256" key msg = Some (hmac_sha256 key msg);
  hmac_sha256_length : forall key msg, String.length (hmac_sha256 key msg) = 64%nat
}.

(** The width of the [password] column: [db.Column(db.String(80))]. *)
Definition password_column_width : nat := 80.

(** The string of the characters [f i], [f (i+1)], ..., [n] of them. *)
Fixpoint str_tabulate (f : nat -> Ascii.ascii) (i n : nat) : string :=
  match n with
  | O => EmptyString
  | S n' => String (f i) (str_tabulate f (S i) n')
  end.

Module Werkzeug.

(** [SALT_CHARS] *)
Definition SALT_CHARS : string :=
  "abcdefghijklmnopqrstuvwxyzABCDEFGHIJKLMNOPQRSTUVWXYZ0123456789".

(** [DEFAULT_PBKDF2_ITERATIONS] of werkzeug 1.0. *)
Definition DEFAULT_PBKDF2_ITERATIONS : Z := 150000.

(** The [i]-th [_sys_rng.choice(SALT_CHARS)]: the index the generator
    draws is read from the random input [draws] (the code of its [i]-th
    character modulo 62, 0 past its end). *)
Definition salt_choice (draws : string) (i : nat) : Ascii.ascii :=
  let k := match String.get i draws with Some c => Ascii.nat_of_ascii c | None => 0%nat end in
  match String.get (k mod 62) SALT_CHARS with Some c => c | None => "a"%char end.

(** [length] characters drawn one after the other. *)
Definition salt_chars (draws : string) (i length : nat) : string :=
  str_tabulate (salt_choice draws) i length.

(** [gen_salt(length)] *)
Definition gen_salt (length : Z) (draws : string) : exn + string :=
  if Z.leb length 0 then inl ValueError
  else inr (salt_chars draws 0 (Z.to_nat length)).

(** The arguments of a [pbkdf2:<hash>[:<iterations>]] method:
    [args = method[7:].split(":")], at most two of them, and
    [iterations = args and int(args[0] or 0) or DEFAULT_PBKDF2_ITERATIONS]
    after the hash name is popped. *)
Definition pbkdf2_args (method : string) : exn + (string * Z) :=
  match py_split ":" (str_drop 7 method) with
  | [m] => inr (m, DEFAULT_PBKDF2_ITERATIONS)
  | [m; it] =>
      match (if String.eqb it "" then inr 0%Z else py_int_exn it) with
      | inl ex => inl ex
      | inr n => inr (m, if Z.eqb n 0 then DEFAULT_PBKDF2_ITERATIONS else n)
      end
  | _ => inl ValueError
  end.

Section Hashing.
Context `{Hashlib}.

(** [_hash_internal(method, salt, password)]: the digest and the method
    written in the hash. *)
Definition hash_internal (method salt password : string) : exn + (string * string) :=
  if String.eqb method "plain" then inr (password, method)
  else if str_prefixb "pbkdf2:" method then
    match pbkdf2_args method with
    | inl ex => inl ex
    | inr (m, iterations) =>
        if String.eqb salt "" then inl ValueError
        else
          match pbkdf2_hexdigest m password salt iterations with
          | Some rv => inr (rv, "pbkdf2:" +:+ m +:+ ":" +:+ py_str_int iterations)
          | None => inl ValueError
          end
    end
  else if negb (String.eqb salt "") then
    match hmac_hexdigest method salt password with
    | Some rv => inr (rv, method)
    | None => inl ValueError
    end
  else
    match hash_hexdigest method password with
    | Some rv => inr (rv, method)
    | None => inl ValueError
    end.

(** [generate_password_hash(password, method, salt_length)], the salt
    drawn from [draws]. *)
Definition generate_password_hash (password method : string) (salt_length : Z)
    (draws : string) : exn + string :=
  match (if String.eqb method "plain" then inr "" else gen_salt salt_length draws) with
  | inl ex => inl ex
  | inr salt =>
      match hash_internal method salt password with
      | inl ex => inl ex
      | inr (h, actual_method) => inr (actual_method +:+ "$" +:+ salt +:+ "$" +:+ h)
      end
  end.

(** [check_password_hash(pwhash, password)]: [False] for a string with
    fewer than two [$]; otherwise [pwhash.split("$", 2)] unpacked into
    three (a [ValueError] with fewer parts, which the guard rules out)
    and the digest recomputed with the method and salt it names
    ([safe_str_cmp]). *)
Definition check_password_hash (pwhash password : string) : exn + bool :=
  if Nat.ltb (str_count "$" pwhash) 2 then inr false
  else
    match str_partition "$" pwhash with
    | (method, Some r) =>
        match str_partition "$" r with
        | (salt, Some hashval) =>
            match hash_internal method salt password with
            | inl ex => inl ex
            | inr (h, _) => inr (String.eqb h hashval)
            end
        | (_, None) => inl ValueError
        end
    | (_, None) => inl ValueError
    end.

(** The scheme of the views, [method='sha256'] with the default salt
    length 8, in closed form. *)
Definition sha256_hash (password salt : string) : string :=
  "sha256$" +:+ salt +:+ "$" +:+ hmac_sha256 salt password.

Definition sha256_salt (draws : string) : string := salt_chars draws 0 8.

End Hashing.
End Werkzeug.

Import Werkzeug.

(** The [PasswordHasher] the views see: [generate_password_hash(pw,
    method='sha256')], and werkzeug's check with its exception read as a
    failed check (it never raises on a hash of this scheme:
    [werkzeug_check_refines]). *)
Definition werkzeug_check `{Hashlib} (pwhash password : string) : bool :=
  match check_password_hash pwhash password with inr b => b | inl _ => false end.

(** ** Lemmas *)

Lemma str_get_count n s c : String.get n s = Some c -> (0 < str_count c s)%nat.
Proof.
  revert n. induction s as [|x s IH]; intros [|n]; cbn; [done..| |].
  - intros [= ->]. rewrite Ascii.eqb_refl. lia.
  - intros Hn. specialize (IH n Hn). lia.
Qed.

Lemma salt_choice_not_dollar draws i : salt_choice draws i <> "$"%char.
Proof.
  unfold salt_choice. destruct (String.get _ SALT_CHARS) as [c|] eqn:Hc; [|done].
  intros ->. apply str_get_count in Hc. vm_compute in Hc. lia.
Qed.

Lemma str_tabulate_length f i n : String.length (str_tabulate f i n) = n.
Proof. revert i. induction n; intros i; cbn; by f_equal. Qed.

Lemma str_tabulate_free c f i n : (forall j, f j <> c) -> str_free c (str_tabulate f i n).
Proof.
  unfold str_free. intros Hf. revert i. induction n as [|n IH]; intros i; [done|].
  cbn [str_tabulate str_count]. rewrite IH. by destruct (Ascii.eqb_spec (f i) c) as [?%Hf|].
Qed.

Lemma salt_chars_free draws i n : str_free "$" (salt_chars draws i n).
Proof. apply str_tabulate_free, salt_choice_not_dollar. Qed.

Lemma salt_chars_length draws i n : String.length (salt_chars draws i n) = n.
Proof. apply str_tabulate_length. Qed.

#[export] Hint Rewrite salt_chars_length : str_simpl.

Section HashingLemmas.
Context `{Hashlib}.

(** [_hash_internal] on a salted hash name that is neither [plain] nor
    a PBKDF2 method: the HMAC of the password under the salt. *)
Lemma hash_internal_hmac method salt pw :
  method <> "plain" -> str_prefixb "pbkdf2:" method = false -> salt <> "" ->
  hash_internal method salt pw =
  match hmac_hexdigest method salt pw with Some rv => inr (rv, method) | None => inl ValueError end.
Proof.
  intros Hp Hk Hs. unfold hash_internal.
  rewrite (proj2 (String.eqb_neq _ _) Hp), Hk, (proj2 (String.eqb_neq _ _) Hs). done.
Qed.

Lemma hash_internal_sha256 salt pw :
  salt <> "" -> hash_internal "sha256" salt pw = inr (hmac_sha256 salt pw, "sha256").
Proof. intros Hs. rewrite hash_internal_hmac by done. by rewrite hmac_hexdigest_sha256. Qed.

(** [generate_password_hash(pw, method='sha256', salt_length=n)]. *)
Lemma generate_password_hash_sha256 pw (n : Z) draws :
  (0 < n)%Z ->
  generate_password_hash pw "sha256" n draws =
  inr (sha256_hash pw (salt_chars draws 0 (Z.to_nat n))).
Proof.
  intros Hn. unfold generate_password_hash, gen_salt. cbn [String.eqb Ascii.eqb Bool.eqb andb].
  rewrite (proj2 (Z.leb_gt n 0) Hn), hash_internal_sha256; [done|].
  unfold salt_chars. destruct (Z.to_nat n) eqn:E; [lia|done].
Qed.

(** [check_password_hash] on a [sha256] hash: the HMAC of the candidate
    under the salt it names, compared with the stored digest. *)
Lemma check_password_hash_sha256 pw salt pw' :
  str_free "$" salt -> salt <> "" ->
  check_password_hash (sha256_hash pw salt) pw' =
  inr (String.eqb (hmac_sha256 salt pw') (hmac_sha256 salt pw)).
Proof.
  intros Hfree Hs. unfold check_password_hash, sha256_hash. simpl.
  autorewrite with str_simpl. rewrite str_partition_free_app, hash_internal_sha256 by done.
  unfold str_free in Hfree. rewrite Hfree. cbn [str_count Ascii.eqb Bool.eqb].
  by rewrite (proj2 (Nat.ltb_ge _ _)) by lia.
Qed.
End HashingLemmas.

(** ** The [sha256] scheme as the views' [PasswordHasher] *)

Section Scheme.
Context `{Hashlib}.

Lemma sha256_salt_free draws : str_free "$" (sha256_salt draws).
Proof. apply salt_chars_free. Qed.

Lemma sha256_salt_nonempty draws : sha256_salt draws <> "".
Proof. by unfold sha256_salt, salt_chars. Qed.

#[local] Hint Resolve sha256_salt_free sha256_salt_nonempty : api.

(** [generate_password_hash(pw, method='sha256')], the views' call. *)
Lemma generate_password_hash_default pw draws :
  Werkzeug.generate_password_hash pw "sha256" 8 draws = inr (sha256_hash pw (sha256_salt draws)).
Proof. by apply generate_password_hash_sha256. Qed.

Lemma werkzeug_check_generate pw draws :
  werkzeug_check (sha256_hash pw (sha256_salt draws)) pw = true.
Proof.
  unfold werkzeug_check. rewrite check_password_hash_sha256 by auto with api.
  apply String.eqb_refl.
Qed.

(** Werkzeug's check on a hash of the scheme is the views' check. *)
Lemma check_password_hash_scheme pw draws pw' :
  Werkzeug.check_password_hash (sha256_hash pw (sha256_salt draws)) pw' =
  inr (werkzeug_check (sha256_hash pw (sha256_salt draws)) pw').
Proof. unfold werkzeug_check. by rewrite !check_password_hash_sha256 by auto with api. Qed.

Definition werkzeug_hasher : PasswordHasher :=
  {| Credentials.generate_password_hash := fun pw draws => sha256_hash pw (sha256_salt draws);
     Credentials.check_password_hash := werkzeug_check;
     check_generate := werkzeug_check_generate |}.

(** C18: round trip: with [method='sha256'] and the default salt length,
    [generate_password_hash] returns a hash (it does not raise) and
    [check_password_hash] of that hash and the same password is
    [True]. *)
Theorem check_password_hash_generate pw draws :
  exists h, Werkzeug.generate_password_hash pw "sha256" 8 draws = inr h /\
            Werkzeug.check_password_hash h pw = inr true.
Proof.
  rewrite generate_password_hash_default. eexists. split; [done|].
  rewrite check_password_hash_sha256 by auto with api. by rewrite String.eqb_refl.
Qed.

(** C19: the length of a [sha256] hash: [6 + 1 + n + 1 + 64] characters
    for a salt of [n] characters, so it fits the column
    [db.String(80)] exactly when [n <= 8]: werkzeug 1.x's default salt
    (8) fills the 80 characters, the 16 of werkzeug 2.x would not fit. *)
Theorem generate_password_hash_length pw (n : Z) draws :
  (0 < n)%Z ->
  exists h, Werkzeug.generate_password_hash pw "sha256" n draws = inr h /\
            String.length h = (72 + Z.to_nat n)%nat /\
            ((String.length h <= password_column_width)%nat <-> (n <= 8)%Z).
Proof.
  intros Hn. eexists. split; [by apply generate_password_hash_sha256|].
  unfold sha256_hash, password_column_width. cbn [String.length String.append].
  autorewrite with str_simpl. cbn [String.length]. rewrite hmac_sha256_length.
  split; [lia|]. lia.
Qed.

(** C20: the error paths of [check_password_hash]: a string with fewer
    than two [$] (a plaintext password, say) is [False], and a hash
    whose method [hmac] does not know raises [ValueError]. *)
Theorem check_password_hash_errors :
  (forall h pw, (str_count "$" h < 2)%nat -> Werkzeug.check_password_hash h pw = inr false) /\
  (forall method salt hv pw,
     str_free "$" method -> str_free "$" salt -> method <> "plain" ->
     str_prefixb "pbkdf2:" method = false -> salt <> "" ->
     hmac_hexdigest method salt pw = None ->
     Werkzeug.check_password_hash (method +:+ "$" +:+ salt +:+ "$" +:+ hv) pw = inl ValueError).
Proof.
  split.
  - intros h pw Hc. unfold check_password_hash. by rewrite (proj2 (Nat.ltb_lt _ _) Hc).
  - intros m salt hv pw Hm Hs Hp Hk Hne Hnone. unfold check_password_hash.
    autorewrite with str_simpl. rewrite !str_partition_free_app by done.
    rewrite hash_internal_hmac, Hnone by done.
    unfold str_free in Hm, Hs. rewrite Hm, Hs. cbn [str_count Ascii.eqb Bool.eqb].
    by rewrite (proj2 (Nat.ltb_ge _ _)) by lia.
Qed.

(** C17: refinement: the [PasswordHasher] of the views is werkzeug's
    scheme: its [generate_password_hash] is what
    [generate_password_hash(pw, method='sha256')] returns, and on every
    hash it generates werkzeug's [check_password_hash] does not raise and
    answers what its [check_password_hash] answers. *)
Theorem werkzeug_hasher_refines pw draws pw' :
  Werkzeug.generate_password_hash pw "sha256" 8 draws =
    inr (@Credentials.generate_password_hash werkzeug_hasher pw draws) /\
  Werkzeug.check_password_hash (@Credentials.generate_password_hash werkzeug_hasher pw draws) pw' =
    inr (@Credentials.check_password_hash werkzeug_hasher
           (@Credentials.generate_password_hash werkzeug_hasher pw draws) pw').
Proof.
  split; [apply generate_password_hash_default|].
  cbn [Credentials.generate_password_hash Credentials.check_password_hash werkzeug_hasher].
  apply check_password_hash_scheme.
Qed.
End Scheme.

(** ** A concrete [Hashlib], for the witnesses

    [toy_hmac_sha256] writes 64 hex digits that depend on the key and
    the message (it is no HMAC); only [sha256] is known. *)

Fixpoint str_code_sum (s : string) : nat :=
  match s with
  | EmptyString => 0
  | String c r => Ascii.nat_of_ascii c + str_code_sum r
  end.

Definition hex_digit (n : nat) : Ascii.ascii :=
  match String.get (n mod 16) "0123456789abcdef" with Some c => c | None => "0"%char end.

Definition toy_hmac_sha256 (key msg : string) : string :=
  str_tabulate (fun i => hex_digit (31 * str_code_sum key + str_code_sum msg + i)) 0 64.

Definition toy_hmac_hexdigest (name key msg : string) : option string :=
  if String.eqb name "sha256" then Some (toy_hmac_sha256 key msg) else None.

Lemma toy_hmac_hexdigest_sha256 key msg :
  toy_hmac_hexdigest "sha256" key msg = Some (toy_hmac_sha256 key msg).
Proof. done. Qed.

Lemma toy_hmac_sha256_length key msg : String.length (toy_hmac_sha256 key msg) = 64%nat.
Proof. apply str_tabulate_length. Qed.

#[local] Instance toy_hashlib : Hashlib :=
  {| hmac_hexdigest := toy_hmac_hexdigest;
     hash_hexdigest := fun _ _ => None;
     pbkdf2_hexdigest := fun _ _ _ _ => None;
     hmac_sha256 := toy_hmac_sha256;
     hmac_hexdigest_sha256 := toy_hmac_hexdigest_sha256;
     hmac_sha256_length := toy_hmac_sha256_length |}.

Lemma generate_password_hash_length_witness :
  (0 < 16)%Z /\
  exists h, Werkzeug.generate_password_hash "pw" "sha256" 16 "random-draws-16b" = inr h /\
            String.length h = 88%nat /\
            ((String.length h <= password_column_width)%nat <-> (16 <= 8)%Z).
Proof. split; [lia|]. apply (generate_password_hash_length "pw" 16 "random-draws-16b"). lia. Defined.
