(* ===== verification/Base64.v ===== *)
(** * base64url, as PyJWT writes and reads the three segments of a token

    PyJWT's [utils.base64url_encode] is
    [base64.urlsafe_b64encode(input).replace(b"=", b"")] and its
    [base64url_decode] pads the input with [=] to a multiple of four and
    calls [base64.urlsafe_b64decode].  Both end in CPython's [binascii]
    module: [b2a_base64] (newline off) and the non-strict [a2b_base64],
    written in C as loops over a bit buffer.  They are modelled here as
    those loops, on bytes as integers [0 <= b < 256], with [Z.shiftl],
    [Z.shiftr], [Z.land] and [Z.lor].  The decoder skips every character
    outside the alphabet and stops at the first complete padding, as
    CPython (3.7 and later) does.  The theorems: decoding inverts
    encoding on every byte string, and decoding is not injective: a
    string with characters outside the alphabet decodes to the same
    bytes as the string without them. *)

From S2P Require Import Prelude PyValue.
From Stdlib Require Import Btauto.

(** A byte, as the C code holds it in an [unsigned char]. *)
Definition is_byte (b : Z) : Prop := 0 <= b < 256.
Definition bytes (bs : list Z) : Prop := Forall is_byte bs.

(** The bytes of a Python [bytes] object written as a string of 8-bit
    characters, and back. *)
Definition str_bytes (s : string) : list Z :=
  map (fun c => Z.of_nat (Ascii.nat_of_ascii c)) (String.list_ascii_of_string s).
Definition bytes_str (bs : list Z) : string :=
  String.string_of_list_ascii (map (fun b => Ascii.ascii_of_nat (Z.to_nat b)) bs).

(** [table_b2a_base64], and [table_a2b_base64] its inverse ([None]: the
    entries 64 and above, characters outside the alphabet). *)
Definition b64_alphabet : string :=
  "ABCDEFGHIJKLMNOPQRSTUVWXYZabcdefghijklmnopqrstuvwxyz0123456789+/".

Definition table_b2a (v : Z) : Ascii.ascii :=
  match String.get (Z.to_nat v) b64_alphabet with Some c => c | None => "="%char end.

Fixpoint str_index (c : Ascii.ascii) (s : string) : option nat :=
  match s with
  | EmptyString => None
  | String x r => if Ascii.eqb x c then Some 0%nat else S <$> str_index c r
  end.

Definition table_a2b (c : Ascii.ascii) : option Z := Z.of_nat <$> str_index c b64_alphabet.

(** ** [binascii.b2a_base64] *)

(** [while (leftbits >= 6) { this_ch = (leftchar >> (leftbits-6)) & 0x3f;
    leftbits -= 6; ... }]: [n] rounds, [n = leftbits / 6]. *)
Fixpoint b2a_drain (n : nat) (leftchar leftbits : Z) : list Z * Z :=
  match n with
  | O => ([], leftbits)
  | S n' =>
      let this_ch := Z.land (Z.shiftr leftchar (leftbits - 6)) 63 in
      let '(out, lb) := b2a_drain n' leftchar (leftbits - 6) in (this_ch :: out, lb)
  end.

(** The loop over the input: [leftchar = (leftchar << 8) | *bin_data;
    leftbits += 8;] then the drain.  ([leftchar] is an [unsigned int];
    only its low [leftbits <= 14] bits are ever read, so its wrap-around
    at 32 bits changes nothing and is not written.) *)
Fixpoint b2a_loop (leftchar leftbits : Z) (bs : list Z) : list Z * (Z * Z) :=
  match bs with
  | [] => ([], (leftchar, leftbits))
  | b :: bs' =>
      let lc := Z.lor (Z.shiftl leftchar 8) b in
      let '(out, lb) := b2a_drain (Z.to_nat ((leftbits + 8) / 6)) lc (leftbits + 8) in
      let '(out', st) := b2a_loop lc lb bs' in (out ++ out', st)
  end.

(** After the loop: the last 2 or 4 bits shifted up, and the padding. *)
Definition b2a_finish (leftchar leftbits : Z) : list Ascii.ascii :=
  if Z.eqb leftbits 2 then [table_b2a (Z.shiftl (Z.land leftchar 3) 4); "="; "="]%char
  else if Z.eqb leftbits 4 then [table_b2a (Z.shiftl (Z.land leftchar 15) 2); "="]%char
  else [].

(** [b2a_base64(data, newline=False)]. *)
Definition b2a_base64 (bs : list Z) : string :=
  let '(out, (leftchar, leftbits)) := b2a_loop 0 0 bs in
  String.string_of_list_ascii (map table_b2a out ++ b2a_finish leftchar leftbits).

(** ** [binascii.a2b_base64], non-strict *)

(** The loop: [quad_pos] counts the sextets of the current quad,
    [leftchar] holds its unused bits, [pads] the [=] seen; a [=] after
    two or three sextets that completes the quad ends the input ([goto
    done]); a character outside the alphabet is skipped.  Each byte
    stored has [6 + 2], [4 + 4] or [2 + 6] bits. *)
Fixpoint a2b_loop (quad_pos leftchar pads : Z) (acc : list Z) (s : list Ascii.ascii) : option (list Z) :=
  match s with
  | [] => if Z.eqb quad_pos 0 then Some (rev acc) else None
  | c :: r =>
      if Ascii.eqb c "=" then
        if Z.leb 2 quad_pos then
          if Z.leb 4 (quad_pos + (pads + 1)) then Some (rev acc)
          else a2b_loop quad_pos leftchar (pads + 1) acc r
        else a2b_loop quad_pos leftchar pads acc r
      else
        match table_a2b c with
        | None => a2b_loop quad_pos leftchar pads acc r
        | Some v =>
            if Z.eqb quad_pos 0 then a2b_loop 1 v 0 acc r
            else if Z.eqb quad_pos 1 then
              a2b_loop 2 (Z.land v 15) 0 (Z.lor (Z.shiftl leftchar 2) (Z.shiftr v 4) :: acc) r
            else if Z.eqb quad_pos 2 then
              a2b_loop 3 (Z.land v 3) 0 (Z.lor (Z.shiftl leftchar 4) (Z.shiftr v 2) :: acc) r
            else a2b_loop 0 0 0 (Z.lor (Z.shiftl leftchar 6) v :: acc) r
        end
  end.

(** [a2b_base64(data)]; [None] is [binascii.Error] (a quad left with
    one sextet, or incorrect padding). *)
Definition a2b_base64 (s : string) : option (list Z) :=
  a2b_loop 0 0 0 [] (String.list_ascii_of_string s).

(** ** The reference: base64 by groups of three bytes

    Three bytes give four sextets; a last group of one or two bytes is
    completed with zero bytes and gives two or three sextets, followed
    by [==] or [=]. *)

Definition sextets3 (b0 b1 b2 : Z) : list Z :=
  [Z.shiftr b0 2; Z.lor (Z.shiftl (Z.land b0 3) 4) (Z.shiftr b1 4);
   Z.lor (Z.shiftl (Z.land b1 15) 2) (Z.shiftr b2 6); Z.land b2 63].

Fixpoint b64_sextets (bs : list Z) : list Z :=
  match bs with
  | b0 :: b1 :: b2 :: rest => sextets3 b0 b1 b2 ++ b64_sextets rest
  | [b0; b1] => take 3 (sextets3 b0 b1 0)
  | [b0] => take 2 (sextets3 b0 0 0)
  | [] => []
  end.

(** The padding after [n mod 3] bytes of a last group. *)
Definition b64_pad (r : nat) : list Ascii.ascii :=
  match r with 1%nat => ["="; "="]%char | 2%nat => ["="]%char | _ => [] end.

(** ** PyJWT's [base64url_encode] and [base64url_decode] *)

Definition str_map (f : Ascii.ascii -> Ascii.ascii) (s : string) : string :=
  String.string_of_list_ascii (map f (String.list_ascii_of_string s)).

(** [s.replace(c, "")] for a one-character [c]. *)
Definition str_remove (c : Ascii.ascii) (s : string) : string :=
  String.string_of_list_ascii (List.filter (fun x => negb (Ascii.eqb x c)) (String.list_ascii_of_string s)).

(** [_urlsafe_encode_translation] and [_urlsafe_decode_translation]. *)
Definition urlsafe_encode_char (c : Ascii.ascii) : Ascii.ascii :=
  if Ascii.eqb c "+" then "-"%char else if Ascii.eqb c "/" then "_"%char else c.
Definition urlsafe_decode_char (c : Ascii.ascii) : Ascii.ascii :=
  if Ascii.eqb c "-" then "+"%char else if Ascii.eqb c "_" then "/"%char else c.

Definition base64url_encode (bs : list Z) : string :=
  str_remove "=" (str_map urlsafe_encode_char (b2a_base64 bs)).

(** [rem = len(input) % 4; if rem > 0: input += b"=" * (4 - rem)], then
    [urlsafe_b64decode]. *)
Definition base64url_decode (s : string) : option (list Z) :=
  let rem := (String.length s mod 4)%nat in
  let padded := if Nat.ltb 0 rem then s +:+ String.concat "" (repeat "=" (4 - rem)) else s in
  a2b_base64 (str_map urlsafe_decode_char padded).

(** ** Lemmas *)

(** Byte arithmetic: shifts and masks as products, quotients and
    remainders by powers of two, [|] of disjoint bit ranges as [+]. *)
Lemma lor_shift_add x y k : 0 <= k -> 0 <= y < 2 ^ k -> Z.lor (x * 2 ^ k) y = x * 2 ^ k + y.
Proof.
  intros Hk Hy. rewrite <- Z.shiftl_mul_pow2 by done.
  assert (Hd : Z.land (Z.shiftl x k) y = 0).
  { apply Z.bits_inj'. intros i Hi. rewrite Z.land_spec, Z.bits_0, Z.shiftl_spec by done.
    destruct (Z.lt_ge_cases i k).
    - by rewrite Z.testbit_neg_r by lia.
    - rewrite <-(Z.mod_small y (2^k)) by done. rewrite Z.mod_pow2_bits_high by lia. btauto. }
  rewrite <- Z.lxor_lor, <- Z.add_nocarry_lxor by done. done.
Qed.

Ltac zpow :=
  change (2 ^ 0) with 1 in *; change (2 ^ 2) with 4 in *; change (2 ^ 4) with 16 in *;
  change (2 ^ 6) with 64 in *; change (2 ^ 8) with 256 in *.

Ltac zarith :=
  unfold is_byte in *;
  change 63 with (Z.ones 6) in *; change 15 with (Z.ones 4) in *; change 3 with (Z.ones 2) in *;
  rewrite ?Z.land_ones, ?Z.shiftr_div_pow2, ?Z.shiftl_mul_pow2 by lia;
  repeat match goal with
  | |- context [Z.lor (?x * 2 ^ ?k) ?y] =>
      rewrite (lor_shift_add x y k) by (zpow; Z.div_mod_to_equations; lia)
  end;
  zpow; Z.div_mod_to_equations; lia.

Lemma is_byte_0 : is_byte 0.
Proof. unfold is_byte. lia. Qed.
#[local] Hint Resolve is_byte_0 : core.

(** The alphabet, checked on its 64 entries: [table_a2b] inverts
    [table_b2a], no entry is [=], and the URL-safe translations undo
    each other. *)
Definition table_ok (v : Z) : bool :=
  bool_decide (table_a2b (table_b2a v) = Some v) &&
  negb (Ascii.eqb (table_b2a v) "=") &&
  negb (Ascii.eqb (urlsafe_encode_char (table_b2a v)) "=") &&
  negb (Ascii.eqb (urlsafe_encode_char (table_b2a v)) ".") &&
  negb (bytes_isspace (table_b2a v)) &&
  bool_decide (urlsafe_decode_char (urlsafe_encode_char (table_b2a v)) = table_b2a v).

Lemma table_ok_sextets v : 0 <= v < 64 -> table_ok v = true.
Proof.
  intros Hv. assert (Hall : forallb table_ok (map Z.of_nat (seq 0 64)) = true)
    by (vm_compute; reflexivity).
  rewrite forallb_forall in Hall. apply Hall, in_map_iff. exists (Z.to_nat v).
  split; [lia|]. apply in_seq. lia.
Qed.

Lemma sextet_range x : Z.land x 63 = x -> 0 <= x < 64.
Proof. intros <-. change 63 with (Z.ones 6). rewrite Z.land_ones by lia. apply Z.mod_pos_bound. lia. Qed.

(** *** The encoder loop computes the reference *)

Lemma b2a_loop_cons lc lb b bs :
  b2a_loop lc lb (b :: bs) =
  let lc' := Z.lor (Z.shiftl lc 8) b in
  let '(out, lb') := b2a_drain (Z.to_nat ((lb + 8) / 6)) lc' (lb + 8) in
  let '(out', st) := b2a_loop lc' lb' bs in (out ++ out', st).
Proof. reflexivity. Qed.

(** The drain after the first, second and third byte of a group. *)
Lemma b2a_drain_0 lc : b2a_drain (Z.to_nat ((0 + 8) / 6)) lc (0 + 8) = ([Z.land (Z.shiftr lc 2) 63], 2).
Proof. reflexivity. Qed.
Lemma b2a_drain_2 lc : b2a_drain (Z.to_nat ((2 + 8) / 6)) lc (2 + 8) = ([Z.land (Z.shiftr lc 4) 63], 4).
Proof. reflexivity. Qed.
Lemma b2a_drain_4 lc :
  b2a_drain (Z.to_nat ((4 + 8) / 6)) lc (4 + 8) =
  ([Z.land (Z.shiftr lc 6) 63; Z.land (Z.shiftr lc 0) 63], 0).
Proof. reflexivity. Qed.

Ltac b2a_step lemma :=
  rewrite b2a_loop_cons; cbv zeta; rewrite lemma; cbv beta iota zeta.

(** What the buffer gives, whatever bits it held before the group. *)
Lemma b2a_sx0 lc b0 : is_byte b0 ->
  Z.land (Z.shiftr (Z.lor (Z.shiftl lc 8) b0) 2) 63 = Z.shiftr b0 2.
Proof. intros. zarith. Qed.
Lemma b2a_sx1 lc b0 b1 : is_byte b0 -> is_byte b1 ->
  Z.land (Z.shiftr (Z.lor (Z.shiftl (Z.lor (Z.shiftl lc 8) b0) 8) b1) 4) 63 =
  Z.lor (Z.shiftl (Z.land b0 3) 4) (Z.shiftr b1 4).
Proof. intros. zarith. Qed.
Lemma b2a_sx2 lc b0 b1 b2 : is_byte b0 -> is_byte b1 -> is_byte b2 ->
  Z.land (Z.shiftr (Z.lor (Z.shiftl (Z.lor (Z.shiftl (Z.lor (Z.shiftl lc 8) b0) 8) b1) 8) b2) 6) 63 =
  Z.lor (Z.shiftl (Z.land b1 15) 2) (Z.shiftr b2 6).
Proof. intros. zarith. Qed.
Lemma b2a_sx3 lc b0 b1 b2 : is_byte b0 -> is_byte b1 -> is_byte b2 ->
  Z.land (Z.shiftr (Z.lor (Z.shiftl (Z.lor (Z.shiftl (Z.lor (Z.shiftl lc 8) b0) 8) b1) 8) b2) 0) 63 =
  Z.land b2 63.
Proof. intros. zarith. Qed.
Lemma b2a_tail1 lc b0 : is_byte b0 ->
  Z.shiftl (Z.land (Z.lor (Z.shiftl lc 8) b0) 3) 4 = Z.lor (Z.shiftl (Z.land b0 3) 4) (Z.shiftr 0 4).
Proof. intros. zarith. Qed.
Lemma b2a_tail2 lc b0 b1 : is_byte b0 -> is_byte b1 ->
  Z.shiftl (Z.land (Z.lor (Z.shiftl (Z.lor (Z.shiftl lc 8) b0) 8) b1) 15) 2 =
  Z.lor (Z.shiftl (Z.land b1 15) 2) (Z.shiftr 0 6).
Proof. intros. zarith. Qed.

Lemma mod3_step n : (S (S (S n)) mod 3 = n mod 3)%nat.
Proof. replace (S (S (S n))) with (n + 1 * 3)%nat by lia. apply Nat.Div0.mod_add. Qed.

(** The bit-buffer loop of [b2a_base64] and the reference by groups
    agree on every byte string. *)
Lemma b2a_loop_sextets : forall bs lc, bytes bs ->
  (let '(out, (lc', lb)) := b2a_loop lc 0 bs in map table_b2a out ++ b2a_finish lc' lb) =
  map table_b2a (b64_sextets bs) ++ b64_pad (length bs mod 3).
Proof.
  fix IH 1. intros [|b0 [|b1 [|b2 rest]]] lc Hbs; [done| | |].
  - apply Forall_cons_1 in Hbs as [H0 _].
    b2a_step b2a_drain_0. cbn [b2a_loop]. unfold b2a_finish. cbn -[Z.shiftl Z.land Z.shiftr Z.lor].
    by rewrite b2a_sx0, b2a_tail1.
  - apply Forall_cons_1 in Hbs as [H0 [H1 _]%Forall_cons_1].
    b2a_step b2a_drain_0. b2a_step b2a_drain_2. cbn [b2a_loop]. unfold b2a_finish.
    cbn -[Z.shiftl Z.land Z.shiftr Z.lor]. by rewrite b2a_sx0, b2a_sx1, b2a_tail2.
  - apply Forall_cons_1 in Hbs as [H0 [H1 [H2 Hrest]%Forall_cons_1]%Forall_cons_1].
    b2a_step b2a_drain_0. b2a_step b2a_drain_2. b2a_step b2a_drain_4.
    rewrite b2a_sx0, b2a_sx1, b2a_sx2, b2a_sx3 by done.
    specialize (IH rest (Z.lor (Z.shiftl (Z.lor (Z.shiftl (Z.lor (Z.shiftl lc 8) b0) 8) b1) 8) b2) Hrest).
    destruct (b2a_loop _ 0 rest) as [out [lc' lb]].
    cbn [b64_sextets length sextets3 app map]. rewrite mod3_step, IH. done.
Qed.

(** *** Every sextet is below 64, so it has a character of the alphabet *)

Definition sextet (v : Z) : Prop := 0 <= v < 64.

Lemma sextet_of_mask x : Z.land x 63 = x -> sextet x.
Proof. intros <-. change 63 with (Z.ones 6). rewrite Z.land_ones by lia. apply Z.mod_pos_bound. lia. Qed.

Ltac sextet_tac := apply sextet_of_mask; zarith.

Lemma sextets3_range b0 b1 b2 : is_byte b0 -> is_byte b1 -> is_byte b2 ->
  Forall sextet (sextets3 b0 b1 b2).
Proof. intros. repeat constructor; sextet_tac. Qed.

Lemma b64_sextets_range : forall bs, bytes bs -> Forall sextet (b64_sextets bs).
Proof.
  fix IH 1. intros [|b0 [|b1 [|b2 rest]]] Hbs; [constructor| | |]; unfold bytes in Hbs;
    repeat match goal with H : Forall is_byte (_ :: _) |- _ => apply Forall_cons_1 in H as [? ?] end.
  - apply Forall_take, sextets3_range; auto.
  - apply Forall_take, sextets3_range; auto.
  - apply Forall_app. split; [by apply sextets3_range|]. by apply IH.
Qed.

Lemma b64_sextets_length : forall bs,
  length (b64_sextets bs) = (4 * (length bs / 3) + [0; 2; 3] !!! (length bs mod 3))%nat.
Proof.
  fix IH 1. intros [|b0 [|b1 [|b2 rest]]]; [done..|].
  cbn [b64_sextets length]. rewrite length_app, IH. cbn [sextets3 length].
  rewrite mod3_step. replace (S (S (S (length rest))) / 3)%nat with (S (length rest / 3)).
  - lia.
  - replace (S (S (S (length rest)))) with (length rest + 1 * 3)%nat by lia.
    rewrite Nat.div_add by lia. lia.
Qed.

Lemma table_facts v : sextet v ->
  table_a2b (table_b2a v) = Some v /\ Ascii.eqb (table_b2a v) "=" = false /\
  Ascii.eqb (urlsafe_encode_char (table_b2a v)) "=" = false /\
  Ascii.eqb (urlsafe_encode_char (table_b2a v)) "." = false /\
  bytes_isspace (table_b2a v) = false /\
  urlsafe_decode_char (urlsafe_encode_char (table_b2a v)) = table_b2a v.
Proof.
  intros Hv%table_ok_sextets. unfold table_ok in Hv. rewrite !andb_true_iff in Hv.
  destruct Hv as [[[[[H1 H2] H3] H5] H6] H4]. rewrite bool_decide_eq_true in H1, H4.
  rewrite negb_true_iff in H2, H3, H5, H6. done.
Qed.

Lemma table_a2b_b2a v : sextet v -> table_a2b (table_b2a v) = Some v.
Proof. apply table_facts. Qed.
Lemma table_b2a_not_pad v : sextet v -> Ascii.eqb (table_b2a v) "=" = false.
Proof. apply table_facts. Qed.

Lemma filter_all_true {A} (f : A -> bool) l : (forall x, In x l -> f x = true) -> List.filter f l = l.
Proof. induction l as [|x l IH]; intros Hl; [done|]. cbn. rewrite Hl by by left. f_equal. auto with datatypes. Qed.

(** PyJWT's [base64url_encode]: the URL-safe characters of the
    sextets, without padding. *)
Lemma base64url_encode_sextets bs : bytes bs ->
  base64url_encode bs =
  String.string_of_list_ascii (map (fun v => urlsafe_encode_char (table_b2a v)) (b64_sextets bs)).
Proof.
  intros Hbs. unfold base64url_encode, b2a_base64.
  pose proof (b2a_loop_sextets bs 0 Hbs) as E. destruct (b2a_loop 0 0 bs) as [out [lc lb]].
  rewrite E. unfold str_remove, str_map. rewrite !String.list_ascii_of_string_of_list_ascii.
  rewrite map_app, List.filter_app. f_equal.
  replace (List.filter _ (map urlsafe_encode_char (b64_pad _))) with (@nil Ascii.ascii)
    by (destruct (length bs mod 3)%nat as [|[|[|]]]; done).
  rewrite app_nil_r, map_map. apply filter_all_true.
  intros c (v & <- & Hv)%in_map_iff.
  apply (proj1 (List.Forall_forall _ _) (b64_sextets_range bs Hbs)) in Hv.
  by rewrite (proj1 (proj2 (proj2 (table_facts v Hv)))).
Qed.

(** *** The decoder loop inverts the reference *)

Lemma a2b_byte0 b0 b1 : is_byte b0 -> is_byte b1 ->
  Z.lor (Z.shiftl (Z.shiftr b0 2) 2) (Z.shiftr (Z.lor (Z.shiftl (Z.land b0 3) 4) (Z.shiftr b1 4)) 4) = b0.
Proof. intros. zarith. Qed.
Lemma a2b_byte1 b0 b1 b2 : is_byte b0 -> is_byte b1 -> is_byte b2 ->
  Z.lor (Z.shiftl (Z.land (Z.lor (Z.shiftl (Z.land b0 3) 4) (Z.shiftr b1 4)) 15) 4)
        (Z.shiftr (Z.lor (Z.shiftl (Z.land b1 15) 2) (Z.shiftr b2 6)) 2) = b1.
Proof. intros. zarith. Qed.
Lemma a2b_byte2 b1 b2 : is_byte b1 -> is_byte b2 ->
  Z.lor (Z.shiftl (Z.land (Z.lor (Z.shiftl (Z.land b1 15) 2) (Z.shiftr b2 6)) 3) 6) (Z.land b2 63) = b2.
Proof. intros. zarith. Qed.

Ltac a2b_chars :=
  cbn [a2b_loop];
  rewrite ?table_b2a_not_pad, ?table_a2b_b2a by sextet_tac;
  cbn -[Z.lor Z.shiftl Z.shiftr Z.land table_b2a];
  rewrite ?a2b_byte0, ?a2b_byte1, ?a2b_byte2 by auto.

(** One quad: three bytes, and the loop back at the start of a quad. *)
Lemma a2b_loop_group lc acc b0 b1 b2 r : is_byte b0 -> is_byte b1 -> is_byte b2 ->
  a2b_loop 0 lc 0 acc (map table_b2a (sextets3 b0 b1 b2) ++ r) =
  a2b_loop 0 0 0 (b2 :: b1 :: b0 :: acc) r.
Proof. intros. cbn [sextets3 map app a2b_loop]. by a2b_chars. Qed.

Lemma a2b_loop_sextets : forall bs lc acc, bytes bs ->
  a2b_loop 0 lc 0 acc (map table_b2a (b64_sextets bs) ++ b64_pad (length bs mod 3)) =
  Some (rev acc ++ bs).
Proof.
  fix IH 1. intros [|b0 [|b1 [|b2 rest]]] lc acc Hbs; unfold bytes in Hbs;
    repeat match goal with H : Forall is_byte (_ :: _) |- _ => apply Forall_cons_1 in H as [? ?] end.
  - cbn. by rewrite app_nil_r.
  - cbn [b64_sextets sextets3 take map app length]. a2b_chars. rewrite <- ?app_assoc. reflexivity.
  - cbn [b64_sextets sextets3 take map app length]. a2b_chars. rewrite <- ?app_assoc. reflexivity.
  - cbn [b64_sextets length]. rewrite mod3_step, map_app, <- app_assoc, a2b_loop_group by done.
    rewrite IH by done. cbn. by rewrite <- !app_assoc.
Qed.

(** *** Round trip *)

Lemma str_bytes_bytes s : bytes (str_bytes s).
Proof.
  unfold bytes, str_bytes. apply List.Forall_forall. intros b (c & <- & _)%in_map_iff.
  pose proof (Ascii.nat_ascii_bounded c). unfold is_byte. lia.
Qed.

Lemma bytes_str_bytes s : bytes_str (str_bytes s) = s.
Proof.
  unfold bytes_str, str_bytes. rewrite map_map.
  erewrite map_ext; [by rewrite map_id, String.string_of_list_ascii_of_string|].
  intros c. by rewrite Nat2Z.id, Ascii.ascii_nat_embedding.
Qed.

Lemma str_bytes_inj s t : str_bytes s = str_bytes t -> s = t.
Proof. intros E. by rewrite <- (bytes_str_bytes s), E, bytes_str_bytes. Qed.

#[export] Hint Resolve str_bytes_bytes : core.

Lemma str_length_of_list l : String.length (String.string_of_list_ascii l) = length l.
Proof. induction l; cbn; auto. Qed.

Lemma list_of_str_app s t :
  String.list_ascii_of_string (s +:+ t) = String.list_ascii_of_string s ++ String.list_ascii_of_string t.
Proof. induction s as [|c s IH]; [done|]. rewrite str_app_cons. cbn. by rewrite IH. Qed.

(** What PyJWT's padding appends to the encoding of [n] bytes. *)
Lemma base64url_padding (l : list Ascii.ascii) n :
  length l = (4 * (n / 3) + [0; 2; 3] !!! (n mod 3))%nat ->
  String.list_ascii_of_string
    (let rem := (String.length (String.string_of_list_ascii l) mod 4)%nat in
     if Nat.ltb 0 rem then String.string_of_list_ascii l +:+ String.concat "" (repeat "=" (4 - rem))
     else String.string_of_list_ascii l) = l ++ b64_pad (n mod 3).
Proof.
  intros Hl. rewrite str_length_of_list, Hl.
  assert (Hn : (n mod 3 < 3)%nat) by (apply Nat.mod_upper_bound; lia).
  destruct (n mod 3)%nat as [|[|[|k]]]; [..|lia]; cbn [lookup_total list_lookup_total b64_pad];
    rewrite Nat.mul_comm, Nat.add_comm, Nat.Div0.mod_add; cbn;
    rewrite ?list_of_str_app, ?String.list_ascii_of_string_of_list_ascii; by rewrite ?app_nil_r.
Qed.

Lemma base64url_decode_encode bs : bytes bs -> base64url_decode (base64url_encode bs) = Some bs.
Proof.
  intros Hbs. rewrite base64url_encode_sextets by done. unfold base64url_decode, str_map, a2b_base64.
  rewrite base64url_padding with (n := length bs) by (rewrite length_map; apply b64_sextets_length).
  rewrite String.list_ascii_of_string_of_list_ascii, map_app, map_map.
  replace (map urlsafe_decode_char (b64_pad _)) with (b64_pad (length bs mod 3))
    by (destruct (length bs mod 3)%nat as [|[|[|]]]; done).
  rewrite (map_ext_in _ table_b2a).
  - apply (a2b_loop_sextets bs 0 []), Hbs.
  - intros v Hv. apply (proj1 (List.Forall_forall _ _) (b64_sextets_range bs Hbs)) in Hv.
    apply table_facts, Hv.
Qed.

(** No dot in a segment: the token's separator stays unambiguous. *)
Lemma base64url_encode_no_dot bs : bytes bs -> str_free "." (base64url_encode bs).
Proof.
  intros Hbs. rewrite base64url_encode_sextets by done. unfold str_free.
  pose proof (b64_sextets_range bs Hbs) as Hr. induction Hr as [|v l Hv _ IH]; [done|].
  cbn [map String.string_of_list_ascii str_count]. rewrite IH.
  by rewrite (proj1 (proj2 (proj2 (proj2 (table_facts v Hv))))).
Qed.

(** [base64.b64decode(base64.b64encode(data))]: the standard alphabet,
    with its padding. *)
Lemma a2b_base64_b2a bs : bytes bs -> a2b_base64 (b2a_base64 bs) = Some bs.
Proof.
  intros Hbs. unfold a2b_base64, b2a_base64.
  pose proof (b2a_loop_sextets bs 0 Hbs) as E. destruct (b2a_loop 0 0 bs) as [out [lc lb]].
  rewrite E, String.list_ascii_of_string_of_list_ascii. apply (a2b_loop_sextets bs 0 []), Hbs.
Qed.

(** The encoding of a non-empty byte string starts with a character of
    the alphabet, which is not whitespace. *)
Lemma b2a_base64_head bs : bytes bs -> bs <> [] ->
  exists c r, b2a_base64 bs = String c r /\ bytes_isspace c = false.
Proof.
  intros Hbs Hne. unfold b2a_base64.
  pose proof (b2a_loop_sextets bs 0 Hbs) as E. destruct (b2a_loop 0 0 bs) as [out [lc lb]].
  rewrite E. pose proof (b64_sextets_range bs Hbs) as Hr.
  destruct bs as [|b0 [|b1 [|b2 rest]]]; [done| | |];
    cbn [b64_sextets sextets3 take app map String.string_of_list_ascii] in Hr |- *;
    inversion Hr as [|v l Hv]; subst; do 2 eexists; split; try reflexivity; apply table_facts, Hv.
Qed.

(** *** Decoding is not injective *)

(** A character that is neither [=] nor in the alphabet is skipped. *)
Lemma a2b_loop_skip qp lc pads acc c r :
  Ascii.eqb c "=" = false -> table_a2b c = None ->
  a2b_loop qp lc pads acc (c :: r) = a2b_loop qp lc pads acc r.
Proof. intros Hc Ht. cbn [a2b_loop]. by rewrite Hc, Ht. Qed.

(** Four characters outside the alphabet in front of a segment change
    neither its padding nor its bytes. *)
Lemma base64url_decode_junk s : base64url_decode ("!!!!" +:+ s) = base64url_decode s.
Proof.
  unfold base64url_decode, a2b_base64, str_map.
  change (String.length ("!!!!" +:+ s)) with (4 + String.length s)%nat.
  replace ((4 + String.length s) mod 4)%nat with (String.length s mod 4)%nat
    by (rewrite Nat.add_comm, <- (Nat.mul_1_l 4), Nat.Div0.mod_add; done).
  destruct (Nat.ltb 0 _); rewrite ?list_of_str_app, ?String.list_ascii_of_string_of_list_ascii;
    cbn [String.list_ascii_of_string String.append map];
    rewrite <- ?app_assoc; cbn [app map]; by rewrite !a2b_loop_skip by reflexivity.
Qed.

(** C15: round trip: PyJWT's [base64url_decode] gives back every byte
    string that its [base64url_encode] wrote, through CPython's two
    bit-buffer loops. *)
Theorem base64url_roundtrip bs : bytes bs -> base64url_decode (base64url_encode bs) = Some bs.
Proof. apply base64url_decode_encode. Qed.

(** ** Witness *)

Lemma base64url_roundtrip_witness :
  bytes [104; 105; 0; 255] /\ base64url_decode (base64url_encode [104; 105; 0; 255]) = Some [104; 105; 0; 255].
Proof.
  assert (Hb : bytes [104; 105; 0; 255]) by (repeat constructor; unfold is_byte; lia).
  split; [exact Hb|]. apply (base64url_roundtrip _ Hb).
Defined.
