(* ===== verification/Jws.v ===== *)
(** * PyJWT 2: the HS256 tokens of [login] and [token_required]

    [login] (src/api.py 60-61) calls [jwt.encode({'public_id': ...,
    'exp': ...}, SECRET_KEY)] and [token_required] (api.py 81) calls
    [jwt.decode(token, SECRET_KEY, algorithms=["HS256"])].  This file
    models PyJWT's compact serialization ([api_jwt.encode] and
    [api_jws.encode]; [api_jws._load], [_verify_signature],
    [api_jwt.decode_complete] and [_validate_exp]) over two interfaces:
    [Hmac], HMAC-SHA256 on bytes (a key of at most 64 bytes acts only
    through its zero-padded block [hmac_pad]), and [JsonLoads], [json.loads] with the
    law that it reads back what [json.dumps] writes.  [json.dumps] itself
    (compact separators, [ensure_ascii]) and base64url ([Base64]) are
    modelled.  [pyjwt_codec] is the instance of [JwtCodec] the views see.
    The theorems: an issued token decodes to its payload until it
    expires; the class-level [jwt_decode] accepts exactly the tokens
    PyJWT accepts, with the same claims; keys of one block verify alike;
    and a token is not the only string that verifies to its claims. *)

From S2P Require Import Prelude PyValue Credentials Base64.

(** ** [json.dumps(obj, separators=(",", ":"))] *)

Definition dquote_char : Ascii.ascii := Ascii.ascii_of_nat 34.
Definition backslash : Ascii.ascii := Ascii.ascii_of_nat 92.

Definition hex_char (n : nat) : Ascii.ascii :=
  match String.get (n mod 16) "0123456789abcdef" with Some c => c | None => "0"%char end.

(** The escape of one character: a backslash before a double quote or
    a backslash, the five short escapes, and [\u00XX] for the other
    control characters and, with [ensure_ascii], for every character
    above 0x7f. *)
Definition json_escape_char (c : Ascii.ascii) : list Ascii.ascii :=
  let n := Ascii.nat_of_ascii c in
  if Nat.eqb n 34 then [backslash; dquote_char]
  else if Nat.eqb n 92 then [backslash; backslash]
  else if Nat.eqb n 8 then [backslash; "b"%char]
  else if Nat.eqb n 12 then [backslash; "f"%char]
  else if Nat.eqb n 10 then [backslash; "n"%char]
  else if Nat.eqb n 13 then [backslash; "r"%char]
  else if Nat.eqb n 9 then [backslash; "t"%char]
  else if Nat.ltb n 32 || Nat.ltb 127 n then
    [backslash; "u"%char; "0"%char; "0"%char; hex_char (n / 16); hex_char n]
  else [c].

Definition json_str (s : string) : string :=
  String dquote_char
    (String.string_of_list_ascii (List.concat (map json_escape_char (String.list_ascii_of_string s)))
     +:+ String dquote_char EmptyString).

Definition str_join (sep : string) (l : list string) : string :=
  match l with
  | [] => ""
  | x :: xs => x +:+ String.concat "" (map (fun y => sep +:+ y) xs)
  end.

Fixpoint json_dumps (v : json) : string :=
  match v with
  | JNull => "null"
  | JBool true => "true"
  | JBool false => "false"
  | JInt z => py_str_int z
  | JStr s => json_str s
  | JList l => "[" +:+ str_join "," (map json_dumps l) +:+ "]"
  | JObj kvs => "{" +:+ str_join "," (map (fun '(k, x) => json_str k +:+ ":" +:+ json_dumps x) kvs) +:+ "}"
  end.

(** A JSON value [json.loads] can give back: no key twice in an object. *)
Fixpoint json_wf (v : json) : bool :=
  match v with
  | JList l => forallb json_wf l
  | JObj kvs => bool_decide (NoDup (map fst kvs)) && forallb (fun '(_, x) => json_wf x) kvs
  | _ => true
  end.

(** ** The two interfaces *)

(** HMAC's key block [K0] of a key of at most 64 bytes: the key padded
    with zero bytes to the block size of SHA-256. *)
Definition hmac_pad (key : list Z) : list Z := key ++ repeat 0 (64 - length key).

(** [hmac.new(key, msg, hashlib.sha256).digest()]: bytes.  A key of at
    most 64 bytes acts only through its block [K0] (RFC 2104), and
    byte keys with different blocks have different MACs: the
    idealisation of HMAC as a keyed pseudo-random function that
    [JwtCodec] relies on.  Longer keys, hashed first, are not
    constrained. *)
Class Hmac : Type := {
  hmac_digest : list Z -> list Z -> list Z;
  hmac_digest_bytes : forall key msg, bytes (hmac_digest key msg);
  hmac_digest_pad : forall key key' msg, (length key <= 64)%nat -> (length key' <= 64)%nat ->
    hmac_pad key = hmac_pad key' -> hmac_digest key msg = hmac_digest key' msg;
  hmac_key_injective : forall key key' msg, bytes key -> bytes key' ->
    (length key <= 64)%nat -> (length key' <= 64)%nat ->
    hmac_digest key msg = hmac_digest key' msg -> hmac_pad key = hmac_pad key'
}.

(** [json.loads] on a [str]: [None] is the [ValueError] of a malformed
    document. *)
Class JsonLoads : Type := {
  json_loads : string -> option json;
  json_loads_dumps : forall v, json_wf v = true -> json_loads (json_dumps v) = Some v
}.

(** ** Strings *)

(** [s.rsplit(c, 1)] unpacked into two: the text before the last [c] and
    the text after it; [None] is the [ValueError] when there is no [c]. *)
Fixpoint str_rpartition (c : Ascii.ascii) (s : string) : option (string * string) :=
  match s with
  | EmptyString => None
  | String x r =>
      match str_rpartition c r with
      | Some (a, b) => Some (String x a, b)
      | None => if Ascii.eqb x c then Some (EmptyString, r) else None
      end
  end.

(** The bytes of a key and of its HMAC block. *)
Lemma str_bytes_app s t : str_bytes (s +:+ t) = str_bytes s ++ str_bytes t.
Proof. unfold str_bytes. by rewrite list_of_str_app, map_app. Qed.

Lemma str_bytes_length s : length (str_bytes s) = String.length s.
Proof. unfold str_bytes. rewrite length_map. induction s as [|c s IH]; cbn; auto. Qed.

Lemma str_bytes_key_block k : str_bytes (hmac_key_block k) = hmac_pad (str_bytes k).
Proof.
  unfold hmac_key_block, hmac_pad. rewrite str_bytes_app, str_bytes_length. f_equal.
  unfold str_bytes. rewrite String.list_ascii_of_string_of_list_ascii.
  induction (64 - String.length k)%nat as [|n IH]; cbn; [done|]. by rewrite IH.
Qed.

Lemma hmac_key_block_bytes k k' :
  hmac_key_block k = hmac_key_block k' <-> hmac_pad (str_bytes k) = hmac_pad (str_bytes k').
Proof. rewrite <- !str_bytes_key_block. split; [by intros ->|apply str_bytes_inj]. Qed.

(** [exn + A] as [option A]: an exception is a failed decode. *)
Definition to_option {A} (r : exn + A) : option A :=
  match r with inr a => Some a | inl _ => None end.

Definition of_option {A} (e : exn) (o : option A) : exn + A :=
  match o with Some a => inr a | None => inl e end.

Section PyJWT.
Context `{Hmac} `{JsonLoads}.

(** ** Encoding *)

(** The header of [api_jws.encode], keys sorted. *)
Definition jws_header : json := JObj [("alg", JStr "HS256"); ("typ", JStr "JWT")].

(** The payload [login] builds, with [exp] already an integer
    ([timegm(exp.utctimetuple())]). *)
Definition claims_payload (c : jwt_claims) : json :=
  JObj ((match jc_public_id c with Some p => [("public_id", JStr p)] | None => [] end) ++
        (match jc_exp c with Some e => [("exp", JInt e)] | None => [] end)).

(** [base64url_encode(json.dumps(...).encode())] *)
Definition json_segment (v : json) : string := base64url_encode (str_bytes (json_dumps v)).

(** [jwt.encode(payload, key)]: header, payload and the HMAC of both
    under [key.encode("utf-8")], base64url-encoded, joined by dots. *)
Definition pyjwt_encode (c : jwt_claims) (key : string) : string :=
  let signing_input := json_segment jws_header +:+ "." +:+ json_segment (claims_payload c) in
  signing_input +:+ "." +:+ base64url_encode (hmac_digest (str_bytes key) (str_bytes signing_input)).

(** ** Decoding *)

(** [api_jws._load]: the payload bytes, the signing input, the header
    and the signature. *)
Definition jws_load (tok : string) : exn + (list Z * string * json * list Z) :=
  match str_rpartition "." tok with
  | None => inl DecodeError
  | Some (signing_input, crypto_segment) =>
      match str_partition "." signing_input with
      | (_, None) => inl DecodeError
      | (header_segment, Some payload_segment) =>
          match base64url_decode header_segment with
          | None => inl DecodeError
          | Some header_data =>
              match json_loads (bytes_str header_data) with
              | Some (JObj header) =>
                  match base64url_decode payload_segment, base64url_decode crypto_segment with
                  | Some payload, Some signature => inr (payload, signing_input, JObj header, signature)
                  | _, _ => inl DecodeError
                  end
              | _ => inl DecodeError
              end
          end
      end
  end.

(** [alg = header.get("alg")]; [alg in ["HS256"]]. *)
Definition alg_allowed (header : list (string * json)) : bool :=
  match dict_lookup "alg" header with Some (JStr a) => String.eqb a "HS256" | _ => false end.

(** [_verify_signature] with [algorithms=["HS256"]]: the header's
    [alg] must be [HS256] ([InvalidAlgorithmError]), the key a string
    ([prepare_key]: [TypeError] on [None]), and the signature the HMAC
    of the signing input ([InvalidSignatureError]).  Both PyJWT errors
    are [DecodeError] here. *)
Definition jws_verify_signature (signing_input : string) (header : json) (signature : list Z)
    (key : option string) : exn + unit :=
  match header with
  | JObj h =>
      if alg_allowed h then
        match key with
        | None => inl TypeError
        | Some k =>
            if bool_decide (signature = hmac_digest (str_bytes k) (str_bytes signing_input))
            then inr tt else inl DecodeError
        end
      else inl DecodeError
  | _ => inl DecodeError
  end.

(** [decode_complete] up to the claims: load, verify, [json.loads] of
    the payload, which must be an object. *)
Definition pyjwt_decode_payload (tok : string) (key : option string) : exn + json :=
  match jws_load tok with
  | inl e => inl e
  | inr (payload, signing_input, header, signature) =>
      match jws_verify_signature signing_input header signature key with
      | inl e => inl e
      | inr _ =>
          match json_loads (bytes_str payload) with
          | Some (JObj p) => inr (JObj p)
          | _ => inl DecodeError
          end
      end
  end.

(** [int(payload["exp"])]: an integer, a [bool], or a [str] that [int()]
    reads; [ValueError] (PyJWT: [DecodeError]) for another [str],
    [TypeError] for anything else. *)
Definition exp_int (v : json) : exn + Z :=
  match v with
  | JInt z => inr z
  | JBool b => inr (if b then 1 else 0)
  | JStr s => of_option DecodeError (py_int s)
  | _ => inl TypeError
  end.

(** [_validate_exp]: [ExpiredSignatureError] when [exp <= now]. *)
Definition validate_exp (payload : json) (now : Z) : exn + unit :=
  match payload with
  | JObj p =>
      match dict_lookup "exp" p with
      | None => inr tt
      | Some v =>
          match exp_int v with
          | inl e => inl e
          | inr e => if Z.leb e now then inl ExpiredSignatureError else inr tt
          end
      end
  | _ => inr tt
  end.

(** [jwt.decode(token, key, algorithms=["HS256"])] at time [now]: the
    payload, as a JSON object. *)
Definition pyjwt_decode (tok : string) (key : option string) (now : Z) : exn + json :=
  match pyjwt_decode_payload tok key with
  | inl e => inl e
  | inr p => match validate_exp p now with inl e => inl e | inr _ => inr p end
  end.

(** The claims the views read from a payload: [public_id] a [str] and
    [exp] an integer in the sense of [int()], each possibly absent;
    [None] for a payload the claims cannot represent (the application
    never signs one). *)
Definition claims_of (payload : json) : option jwt_claims :=
  match payload with
  | JObj p =>
      pid ← (match dict_lookup "public_id" p with
             | None => Some None
             | Some (JStr s) => Some (Some s)
             | Some _ => None
             end);
      e ← (match dict_lookup "exp" p with
           | None => Some None
           | Some v => Some <$> to_option (exp_int v)
           end);
      Some (JwtClaims pid e)
  | _ => None
  end.

(** The signature layer of [JwtCodec]. *)
Definition pyjwt_verify (key tok : string) : option jwt_claims :=
  to_option (pyjwt_decode_payload tok (Some key)) ≫= claims_of.

End PyJWT.

(** ** Lemmas *)

#[local] Hint Resolve str_bytes_bytes hmac_digest_bytes : core.

Lemma str_rpartition_free c t : str_free c t -> str_rpartition c t = None.
Proof.
  unfold str_free. induction t as [|y t IH]; [done|]. cbn [str_count str_rpartition].
  destruct (Ascii.eqb y c); [lia|]. intros Ht. by rewrite IH.
Qed.

Lemma str_rpartition_free_app c s t : str_free c t ->
  str_rpartition c (s +:+ String c t) = Some (s, t).
Proof.
  intros Ht. induction s as [|x s IH].
  - rewrite str_app_nil_l. cbn [str_rpartition]. by rewrite str_rpartition_free, Ascii.eqb_refl.
  - rewrite str_app_cons. cbn [str_rpartition]. by rewrite IH.
Qed.

Section Props.
Context `{Hmac} `{JsonLoads}.

Lemma json_wf_header : json_wf jws_header = true.
Proof. reflexivity. Qed.

Lemma json_wf_claims c : json_wf (claims_payload c) = true.
Proof. by destruct c as [[p|] [e|]]. Qed.

Lemma json_loads_segment v : json_wf v = true ->
  base64url_decode (json_segment v) ≫= (fun d => json_loads (bytes_str d)) = Some v.
Proof.
  intros Hv. unfold json_segment. rewrite base64url_decode_encode by auto. cbn.
  by rewrite bytes_str_bytes, json_loads_dumps.
Qed.

(** The three segments of a token and what [_load] reads from them. *)
Lemma jws_load_segments h p sg header payload signature :
  str_free "." h -> str_free "." p -> str_free "." sg ->
  (base64url_decode h ≫= fun d => json_loads (bytes_str d)) = Some (JObj header) ->
  base64url_decode p = Some payload -> base64url_decode sg = Some signature ->
  jws_load (h +:+ "." +:+ p +:+ "." +:+ sg) = inr (payload, h +:+ "." +:+ p, JObj header, signature).
Proof.
  intros Hh Hp Hsg Hhd Hpd Hsd. unfold jws_load.
  rewrite (str_app_assoc "." p), (str_app_assoc h).
  change ("." +:+ sg) with (String "." sg). rewrite str_rpartition_free_app by done.
  change ("." +:+ p) with (String "." p). rewrite str_partition_free_app by done.
  destruct (base64url_decode h) as [hd|]; [|done]. cbn in Hhd. rewrite Hhd, Hpd, Hsd. done.
Qed.

(** A token in segments: header, payload, signature. *)
Lemma pyjwt_encode_segments c key :
  let hs := json_segment jws_header in
  let ps := json_segment (claims_payload c) in
  pyjwt_encode c key =
  hs +:+ "." +:+ ps +:+ "." +:+
  base64url_encode (hmac_digest (str_bytes key) (str_bytes (hs +:+ "." +:+ ps))).
Proof. cbv zeta. unfold pyjwt_encode. by rewrite <- !str_app_assoc. Qed.

Lemma jws_load_encode c key :
  jws_load (pyjwt_encode c key) =
  inr (str_bytes (json_dumps (claims_payload c)),
       json_segment jws_header +:+ "." +:+ json_segment (claims_payload c),
       jws_header, hmac_digest (str_bytes key)
         (str_bytes (json_segment jws_header +:+ "." +:+ json_segment (claims_payload c)))).
Proof.
  rewrite pyjwt_encode_segments. cbv zeta. unfold jws_header at 2.
  apply jws_load_segments;
    try (apply base64url_encode_no_dot; auto); try (apply base64url_decode_encode; auto).
  by apply json_loads_segment.
Qed.

Lemma claims_of_payload c : claims_of (claims_payload c) = Some c.
Proof. by destruct c as [[p|] [e|]]. Qed.

(** [jwt.decode] up to the claims, with the key of the token. *)
Lemma pyjwt_decode_payload_encode c key :
  pyjwt_decode_payload (pyjwt_encode c key) (Some key) = inr (claims_payload c).
Proof.
  unfold pyjwt_decode_payload. rewrite jws_load_encode. cbn [jws_verify_signature jws_header].
  rewrite bool_decide_true by done. cbn -[hmac_digest str_bytes json_segment json_dumps claims_payload].
  rewrite bytes_str_bytes, json_loads_dumps by apply json_wf_claims. by destruct c as [[p|] [e|]].
Qed.

(** With any key, what [jwt.decode] returns of a token [jwt.encode]
    wrote is the payload it was given. *)
Lemma pyjwt_decode_payload_encode_any c key key' p :
  pyjwt_decode_payload (pyjwt_encode c key') (Some key) = inr p -> p = claims_payload c.
Proof.
  unfold pyjwt_decode_payload. rewrite jws_load_encode. cbn [jws_verify_signature jws_header].
  case_bool_decide; [|done]. cbn -[hmac_digest str_bytes json_segment json_dumps claims_payload].
  rewrite bytes_str_bytes, json_loads_dumps by apply json_wf_claims.
  by destruct c as [[pid|] [e|]]; cbn; intros [= <-].
Qed.

(** ... with a short key of another block, the signature does not match. *)
Lemma pyjwt_decode_payload_other_key c key key' :
  hmac_short_key key -> hmac_short_key key' -> hmac_key_block key <> hmac_key_block key' ->
  pyjwt_decode_payload (pyjwt_encode c key') (Some key) = inl DecodeError.
Proof.
  intros Hk Hk' Hne. unfold pyjwt_decode_payload. rewrite jws_load_encode. cbn [jws_verify_signature jws_header].
  rewrite bool_decide_false; [done|].
  intros E%hmac_key_injective; rewrite ?str_bytes_length; auto.
  apply Hne. symmetry. by apply hmac_key_block_bytes.
Qed.

(** ... and a short key decodes every string as any key of its block. *)
Lemma pyjwt_decode_payload_same_block tok key key' :
  hmac_short_key key -> hmac_short_key key' -> hmac_key_block key = hmac_key_block key' ->
  pyjwt_decode_payload tok (Some key) = pyjwt_decode_payload tok (Some key').
Proof.
  intros Hk Hk' Hb.
  assert (Hd : forall m, hmac_digest (str_bytes key) m = hmac_digest (str_bytes key') m).
  { intros m. apply hmac_digest_pad; rewrite ?str_bytes_length; [done|done|].
    by apply hmac_key_block_bytes. }
  unfold pyjwt_decode_payload, jws_verify_signature.
  destruct (jws_load tok) as [|[[[p si] h] sg]]; [done|]. by rewrite Hd.
Qed.
End Props.

(** ** The instance, and the theorems *)

Section Codec.
Context `{Hmac} `{JsonLoads}.

Lemma pyjwt_verify_encode c key : pyjwt_verify key (pyjwt_encode c key) = Some c.
Proof. unfold pyjwt_verify. rewrite pyjwt_decode_payload_encode. apply claims_of_payload. Qed.

Lemma pyjwt_verify_claims c c' key key' :
  pyjwt_verify key (pyjwt_encode c key') = Some c' -> c' = c.
Proof.
  unfold pyjwt_verify. destruct (pyjwt_decode_payload _ _) as [|p] eqn:E; [done|].
  apply pyjwt_decode_payload_encode_any in E as ->.
  change (claims_of (claims_payload c) = Some c' -> c' = c). rewrite claims_of_payload. congruence.
Qed.

Lemma pyjwt_verify_same_block tok key key' :
  hmac_short_key key -> hmac_short_key key' -> hmac_key_block key = hmac_key_block key' ->
  pyjwt_verify key tok = pyjwt_verify key' tok.
Proof. intros Hk Hk' Hb. unfold pyjwt_verify. by rewrite (pyjwt_decode_payload_same_block tok key key'). Qed.

Lemma pyjwt_verify_other_key c key key' :
  hmac_short_key key -> hmac_short_key key' -> hmac_key_block key <> hmac_key_block key' ->
  pyjwt_verify key (pyjwt_encode c key') = None.
Proof. intros Hk Hk' Hne. unfold pyjwt_verify. by rewrite pyjwt_decode_payload_other_key. Qed.

(** PyJWT as the [JwtCodec] of the views. *)
Definition pyjwt_codec : JwtCodec :=
  {| jwt_encode := pyjwt_encode; jwt_verify := pyjwt_verify;
     jwt_verify_encode := pyjwt_verify_encode; jwt_verify_claims := pyjwt_verify_claims;
     jwt_verify_same_block := pyjwt_verify_same_block;
     jwt_verify_other_key := pyjwt_verify_other_key |}.

(** Without a key, [jwt.decode] always raises. *)
Lemma pyjwt_decode_payload_no_key tok : exists e, pyjwt_decode_payload tok None = inl e.
Proof.
  unfold pyjwt_decode_payload. destruct (jws_load tok) as [e|[[[payload si] header] sg]]; [eauto|].
  unfold jws_verify_signature. destruct header; try by eexists. destruct (alg_allowed _); by eexists.
Qed.

(** [_validate_exp] on a payload the claims represent. *)
Lemma validate_exp_claims p c now : claims_of p = Some c ->
  validate_exp p now =
  match jc_exp c with
  | Some e => if Z.leb e now then inl ExpiredSignatureError else inr tt
  | None => inr tt
  end.
Proof.
  destruct p as [| | | | |kvs]; try discriminate. unfold claims_of. cbn [validate_exp].
  destruct (dict_lookup "exp" kvs) as [v|];
    destruct (dict_lookup "public_id" kvs) as [[]|]; cbn; try done;
    try (destruct (exp_int v) as [ex|e]; cbn; [done|]); by intros [= <-].
Qed.
(** C13: round trip: [jwt.decode] of a token [jwt.encode] wrote, with
    the same key, is the payload that was encoded while [exp] is in the
    future, and [ExpiredSignatureError] from the second [exp] on. *)
Theorem pyjwt_decode_encode c key now :
  pyjwt_decode (pyjwt_encode c key) (Some key) now =
  match jc_exp c with
  | Some e => if Z.leb e now then inl ExpiredSignatureError else inr (claims_payload c)
  | None => inr (claims_payload c)
  end.
Proof.
  unfold pyjwt_decode. rewrite pyjwt_decode_payload_encode.
  rewrite (validate_exp_claims _ c) by apply claims_of_payload.
  destruct (jc_exp c) as [e|]; [|done]. by destruct (Z.leb e now).
Qed.

(** C12: refinement: with PyJWT as the codec, the [jwt_decode] the
    views use accepts a token exactly when [jwt.decode(token, key,
    algorithms=["HS256"])] returns, and it returns the claims of that
    payload; a key that is [None], a bad signature, a malformed token
    or an expired one fail in both. *)
Theorem jwt_decode_refines_pyjwt tok key now :
  to_option (@jwt_decode pyjwt_codec tok key now) = to_option (pyjwt_decode tok key now) ≫= claims_of.
Proof.
  destruct key as [k|].
  - cbn [jwt_decode jwt_verify pyjwt_codec]. unfold pyjwt_verify, pyjwt_decode.
    destruct (pyjwt_decode_payload tok (Some k)) as [e|p]; [done|]. cbn [to_option mbind option_bind].
    destruct (claims_of p) as [c|] eqn:Hc.
    + rewrite (validate_exp_claims p c) by done.
      destruct (jc_exp c) as [e|]; [destruct (Z.leb e now)|]; cbn; by rewrite ?Hc.
    + destruct (validate_exp p now); cbn; by rewrite ?Hc.
  - cbn [jwt_decode]. unfold pyjwt_decode. by destruct (pyjwt_decode_payload_no_key tok) as [e ->].
Qed.
(** C14: a token is not the only string that PyJWT accepts for its
    claims: the token with four characters outside the base64url
    alphabet in front of its signature is a different string, and
    [jwt.decode] answers the same on it at every time, because
    [binascii.a2b_base64] skips those characters. *)
Theorem pyjwt_token_malleable c key :
  exists tok, tok <> pyjwt_encode c key /\
    forall now, pyjwt_decode tok (Some key) now = pyjwt_decode (pyjwt_encode c key) (Some key) now.
Proof.
  pose (hs := json_segment jws_header). pose (ps := json_segment (claims_payload c)).
  pose (sg := base64url_encode (hmac_digest (str_bytes key) (str_bytes (hs +:+ "." +:+ ps)))).
  exists (hs +:+ "." +:+ ps +:+ "." +:+ ("!!!!" +:+ sg)). split.
  - rewrite pyjwt_encode_segments. intros E%(f_equal String.length).
    subst hs ps sg. autorewrite with str_simpl in E. cbn [String.length] in E. lia.
  - intros now. unfold pyjwt_decode, pyjwt_decode_payload. rewrite jws_load_encode.
    erewrite (jws_load_segments _ _ _ (match jws_header with JObj h => h | _ => [] end));
      [done|..];
      first [ by apply json_loads_segment
            | apply base64url_decode_encode; by auto
            | rewrite base64url_decode_junk; apply base64url_decode_encode; by auto
            | apply base64url_encode_no_dot; by auto
            | unfold str_free; autorewrite with str_simpl; apply base64url_encode_no_dot; by auto ].
Qed.
End Codec.

