(* ===== verification/Store.v ===== *)
(** * The database and the SQLAlchemy session of src/api.py

    The two tables [User] (api.py 29-34) and [Todo] (api.py 37-41) are
    lists of rows in rowid order.  The ids are SQLite rowids: an
    [INTEGER PRIMARY KEY] column without AUTOINCREMENT gets
    [max(rowid) + 1] on insert, so the id of a deleted last row is given
    again.  [public_id] carries a UNIQUE constraint.

    The views talk to the database through the session: queries
    ([User.query.filter_by(...).first()], [.all()]), [db.session.add],
    [db.session.delete] and [db.session.commit].  The session state
    [sess] holds the committed database, the pending changes and a log of
    the statements sent to the database; views are computations of the
    monad [M] over it.  [commit] applies the pending changes atomically:
    on an integrity error nothing is written and the exception is raised.
    The invariant [wf_db] (ids strictly increasing in each table, public
    ids unique) holds of every database [commit] produces. *)

From S2P Require Import Prelude PyValue.

(** ** Rows *)

(** [class User(db.Model)].  The columns are nullable in the schema;
    the views only ever write a string to [public_id] and [password]. *)
Record user_row : Type := User {
  u_id : Z;
  u_public_id : string;
  u_name : option string;
  u_password : string;
  u_admin : option bool
}.

(** [class Todo(db.Model)] *)
Record todo_row : Type := Todo {
  t_id : Z;
  t_user_id : Z;
  t_description : option string;
  t_complete : option bool
}.

Record db : Type := DB {
  db_users : list user_row;
  db_todos : list todo_row
}.

#[export] Instance user_row_eq_dec : EqDecision user_row.
Proof. solve_decision. Defined.
#[export] Instance todo_row_eq_dec : EqDecision todo_row.
Proof. solve_decision. Defined.
#[export] Instance db_eq_dec : EqDecision db.
Proof. solve_decision. Defined.

Definition empty_db : db := DB [] [].

(** ** Tables as lists in rowid order *)

Section Table.
Context {R : Type} (rid : R -> Z).

(** SQLite's choice of a new rowid. *)
Definition next_id (l : list R) : Z := max_id (map rid l) + 1.

(** INSERT of a row built from its new id. *)
Definition tbl_insert (mk : Z -> R) (l : list R) : list R := l ++ [mk (next_id l)].

(** UPDATE ... SET <the columns [f] writes> WHERE id = i *)
Definition tbl_modify (i : Z) (f : R -> R) (l : list R) : list R :=
  map (fun x => if Z.eqb (rid x) i then f x else x) l.

(** DELETE ... WHERE id = rid r *)
Definition tbl_delete (r : R) (l : list R) : list R :=
  List.filter (fun x => negb (Z.eqb (rid x) (rid r))) l.

(** The table invariant: ids strictly increasing. *)
Definition ids_sorted (l : list R) : Prop := StronglySorted Z.lt (map rid l).

Lemma next_id_gt l x : x ∈ map rid l -> x < next_id l.
Proof. intros Hx. unfold next_id. pose proof (max_id_ge _ _ Hx). lia. Qed.

Lemma next_id_pos l : 0 < next_id l.
Proof. unfold next_id. pose proof (max_id_nonneg (map rid l)). lia. Qed.

Lemma tbl_insert_sorted mk l :
  rid (mk (next_id l)) = next_id l -> ids_sorted l -> ids_sorted (tbl_insert mk l).
Proof.
  unfold ids_sorted, tbl_insert. intros Hmk Hs. rewrite map_app. cbn. rewrite Hmk.
  assert (Forall (fun y => y < next_id l) (map rid l)) as Hlt.
  { apply Forall_forall. intros x Hx. by apply next_id_gt. }
  by apply StronglySorted_snoc.
Qed.

Lemma map_tbl_modify {B} (g : R -> B) i f l :
  (forall x, g (f x) = g x) -> map g (tbl_modify i f l) = map g l.
Proof.
  intros Hf. unfold tbl_modify. induction l as [|x l IH]; [done|]. cbn.
  rewrite IH. f_equal. by destruct (Z.eqb (rid x) i).
Qed.

Lemma tbl_modify_sorted i f l :
  (forall x, rid (f x) = rid x) -> ids_sorted l -> ids_sorted (tbl_modify i f l).
Proof. intros Hf. unfold ids_sorted. by rewrite map_tbl_modify. Qed.

Lemma map_filter_NoDup {B} (g : R -> B) (p : R -> bool) l :
  NoDup (map g l) -> NoDup (map g (List.filter p l)).
Proof.
  induction l as [|x l IH]; cbn [List.filter map]; [done|].
  intros [Hx Hl]%NoDup_cons. destruct (p x); [|by apply IH].
  constructor; [|by apply IH]. intros Hin. apply Hx.
  apply list_elem_of_In in Hin. apply list_elem_of_In.
  apply in_map_iff in Hin as (y & <- & Hy). apply in_map.
  by apply filter_In in Hy as [Hy _].
Qed.

Lemma map_filter_sorted (f : R -> bool) l :
  ids_sorted l -> ids_sorted (List.filter f l).
Proof.
  unfold ids_sorted. induction l as [|x l IH]; cbn [List.filter map]; [done|].
  intros Hs. apply StronglySorted_inv in Hs as [Hs Hx].
  destruct (f x); cbn [map]; [|by apply IH]. constructor; [by apply IH|].
  rewrite Forall_forall in Hx |- *. intros z Hz. apply Hx.
  apply list_elem_of_In in Hz. apply list_elem_of_In.
  apply in_map_iff in Hz as (y & <- & Hy). apply in_map.
  by apply filter_In in Hy as [Hy _].
Qed.

Lemma tbl_delete_sorted r l : ids_sorted l -> ids_sorted (tbl_delete r l).
Proof. apply map_filter_sorted. Qed.
End Table.

#[export] Hint Resolve tbl_insert_sorted tbl_modify_sorted tbl_delete_sorted : api.

(** ** Column values

    What SQLite stores for a Python value bound to a column: a TEXT
    column ([db.String]) stores integers and booleans as their decimal
    text; a [db.Boolean] column accepts only [None], [True], [False] and
    the integers 0 and 1 (SQLAlchemy's strict boolean check); sqlite3
    refuses integers outside 64 bits. *)

Definition in_int64 (z : Z) : bool := Z.leb (- 2 ^ 63) z && Z.ltb z (2 ^ 63).

Definition text_column (v : json) : exn + option string :=
  match v with
  | JNull => inr None
  | JStr s => inr (Some s)
  | JInt z => if in_int64 z then inr (Some (py_str_int z)) else inl OverflowError
  | JBool b => inr (Some (if b then "1" else "0"))
  | JList _ | JObj _ => inl StatementError
  end.

Definition bool_column (v : json) : exn + option bool :=
  match v with
  | JNull => inr None
  | JBool b => inr (Some b)
  | JInt 0 => inr (Some false)
  | JInt 1 => inr (Some true)
  | _ => inl StatementError
  end.

(** An integer query parameter, bound by sqlite3. *)
Definition int_param (z : Z) : exn + Z :=
  if in_int64 z then inr z else inl OverflowError.

(** The exponent part of a real literal: the text before the first [e]
    or [E], and the text after it. *)
Fixpoint sql_split_exp (s : string) : string * option string :=
  match s with
  | EmptyString => (EmptyString, None)
  | String c r =>
      if Ascii.eqb c "e"%char || Ascii.eqb c "E"%char then (EmptyString, Some r)
      else let '(a, b) := sql_split_exp r in (String c a, b)
  end.

(** [sqlite3AtoF] on an unsigned literal: [D+], [D+.D*] or [.D+], then
    an optional exponent [(e|E)[+-]D+]; its value as [m * 10^e]. *)
Definition sql_unsigned_real (s : string) : option (Z * Z) :=
  let '(mant, ex) := sql_split_exp s in
  let '(ip, fp) := str_partition "." mant in
  let fp' := default EmptyString fp in
  if String.eqb ip "" && String.eqb fp' "" then None
  else
    i ← digits_go false 0 ip;
    f ← digits_go false 0 fp';
    e ← (match ex with None => Some 0 | Some x => parse_signed false x end);
    let k := Z.of_nat (String.length fp') in
    Some (i * 10 ^ k + f, e - k).

Definition sql_real (s : string) : option (Z * Z) :=
  match s with
  | String c r =>
      if Ascii.eqb c "-"%char then (fun '(m, e) => (- m, e)) <$> sql_unsigned_real r
      else if Ascii.eqb c "+"%char then sql_unsigned_real r
      else sql_unsigned_real s
  | EmptyString => None
  end.

(** The integer [m * 10^e], when it is one.  A non-zero [m] with
    [e > 19] is beyond 64 bits, and with [10^-e > |m|] not an integer:
    both are decided without computing the power. *)
Definition dec_to_int (m e : Z) : option Z :=
  if m =? 0 then Some 0
  else if 0 <=? e then (if 19 <? e then None else Some (m * 10 ^ e))
  else if Z.log2 (Z.abs m) <? - e then None
  else if m mod 10 ^ (- e) =? 0 then Some (m / 10 ^ (- e)) else None.

(** A text parameter compared with an INTEGER column: SQLite applies
    NUMERIC affinity to it ([applyNumericAffinity]).  A text that
    [sqlite3AtoF] reads whole, surrounding spaces allowed, becomes a
    number: an integer literal that fits 64 bits stays that INTEGER, and
    any other literal is compared by its value, so ['1.0'] and ['1e0']
    match the integer 1; any other text matches no integer. *)
Definition sqlite_int_affinity (s : string) : option Z :=
  let t := str_strip Ascii.is_space s in
  match parse_signed false t with
  | Some z => if in_int64 z then Some z else None
  | None =>
      match sql_real t with
      | Some (m, e) => match dec_to_int m e with
                       | Some z => if in_int64 z then Some z else None
                       | None => None
                       end
      | None => None
      end
  end.

(** ** The session *)

Inductive table : Type := TUser | TTodo.
Inductive event : Type := EvSelect (t : table) | EvCommit.

#[export] Instance table_eq_dec : EqDecision table.
Proof. solve_decision. Defined.
#[export] Instance event_eq_dec : EqDecision event.
Proof. solve_decision. Defined.

(** A pending change: a new object added to the session, the columns a
    view assigned on a loaded object ([None]: not assigned), flushed as
    an UPDATE of those columns, or an object passed to
    [db.session.delete].  Assigned values are the Python values of the
    view; they are converted to column values at flush. *)
Inductive change : Type :=
| AddUser (public_id : string) (name : json) (password : string) (admin : json)
| SetUser (id : Z) (name : option json) (password : option string) (admin : option json)
| DeleteUser (id : Z)
| AddTodo (user_id : Z) (description : json) (complete : json)
| SetTodo (id : Z) (description : option json) (complete : option json)
| DeleteTodo (id : Z).

Record sess : Type := Sess {
  s_db : db;
  s_pending : list change;
  s_log : list event
}.

(** The monad of the views. *)
Abbreviation M := (SE sess exn).

Definition log_event (e : event) : M unit :=
  se_modify (fun s => Sess (s_db s) (s_pending s) (s_log s ++ [e])).

(** [User.query.filter_by(...)] iterated: the matching rows. *)
Definition query_users (p : user_row -> bool) : M (list user_row) :=
  s ← se_get; log_event (EvSelect TUser);; mret (List.filter p (db_users (s_db s))).

(** [User.query.filter_by(...).first()] *)
Definition query_first_user (p : user_row -> bool) : M (option user_row) :=
  us ← query_users p; mret (head us).

Definition query_todos (p : todo_row -> bool) : M (list todo_row) :=
  s ← se_get; log_event (EvSelect TTodo);; mret (List.filter p (db_todos (s_db s))).

Definition query_first_todo (p : todo_row -> bool) : M (option todo_row) :=
  ts ← query_todos p; mret (head ts).

(** [db.session.add(obj)], and the tracking of an assigned object. *)
Definition session_add (c : change) : M unit :=
  se_modify (fun s => Sess (s_db s) (s_pending s ++ [c]) (s_log s)).

(** [db.session.delete(obj)]: [None] is not a mapped instance. *)
Definition session_delete_user (o : option user_row) : M unit :=
  match o with
  | Some u => session_add (DeleteUser (u_id u))
  | None => raise UnmappedInstanceError
  end.

Definition session_delete_todo (o : option todo_row) : M unit :=
  match o with
  | Some t => session_add (DeleteTodo (t_id t))
  | None => raise UnmappedInstanceError
  end.

(** The conversion of an assigned column; [inr None]: not assigned. *)
Definition assigned {A} (conv : json -> exn + A) (o : option json) : exn + option A :=
  match o with
  | None => inr None
  | Some v => match conv v with inl e => inl e | inr a => inr (Some a) end
  end.

(** The statements a flush sends for one change. *)
Definition apply_change (d : db) (c : change) : exn + db :=
  match c with
  | AddUser pid name pw adm =>
      match text_column name, bool_column adm with
      | inl e, _ | _, inl e => inl e
      | inr name', inr adm' =>
          if existsb (fun u => String.eqb (u_public_id u) pid) (db_users d)
          then inl IntegrityError
          else inr (DB (tbl_insert u_id (fun i => User i pid name' pw adm') (db_users d))
                       (db_todos d))
      end
  | SetUser i name pw adm =>
      match assigned text_column name, assigned bool_column adm with
      | inl e, _ | _, inl e => inl e
      | inr name', inr adm' =>
          inr (DB (tbl_modify u_id i
                     (fun u => User (u_id u) (u_public_id u) (default (u_name u) name')
                                 (default (u_password u) pw) (default (u_admin u) adm'))
                     (db_users d))
                  (db_todos d))
      end
  | DeleteUser i =>
      inr (DB (List.filter (fun u => negb (Z.eqb (u_id u) i)) (db_users d)) (db_todos d))
  | AddTodo uid desc comp =>
      match text_column desc, bool_column comp with
      | inl e, _ | _, inl e => inl e
      | inr desc', inr comp' =>
          inr (DB (db_users d) (tbl_insert t_id (fun i => Todo i uid desc' comp') (db_todos d)))
      end
  | SetTodo i desc comp =>
      match assigned text_column desc, assigned bool_column comp with
      | inl e, _ | _, inl e => inl e
      | inr desc', inr comp' =>
          inr (DB (db_users d)
                  (tbl_modify t_id i
                     (fun t => Todo (t_id t) (t_user_id t) (default (t_description t) desc')
                                 (default (t_complete t) comp'))
                     (db_todos d)))
      end
  | DeleteTodo i =>
      inr (DB (db_users d) (List.filter (fun t => negb (Z.eqb (t_id t) i)) (db_todos d)))
  end.

Fixpoint apply_changes (d : db) (cs : list change) : exn + db :=
  match cs with
  | [] => inr d
  | c :: cs' =>
      match apply_change d c with
      | inl e => inl e
      | inr d' => apply_changes d' cs'
      end
  end.

(** [db.session.commit()]: flush the pending changes in one transaction;
    on failure the transaction is rolled back and the error raised. *)
Definition commit : M unit :=
  fun s =>
    let log := s_log s ++ [EvCommit] in
    match apply_changes (s_db s) (s_pending s) with
    | inl e => (inl e, Sess (s_db s) [] log)
    | inr d => (inr tt, Sess d [] log)
    end.

(** ** The store invariant *)

Definition wf_db (d : db) : Prop :=
  ids_sorted u_id (db_users d) /\ NoDup (map u_public_id (db_users d)) /\
  ids_sorted t_id (db_todos d).

Lemma apply_change_wf d c d' : wf_db d -> apply_change d c = inr d' -> wf_db d'.
Proof.
  intros (Hu & Hp & Ht) Hc. destruct c; cbn in Hc;
    repeat match type of Hc with
    | context [match ?x with inl _ => _ | inr _ => _ end] => destruct x
    end; try done.
  - destruct (existsb _ _) eqn:Hex; [done|]. injection Hc as <-.
    split_and!; cbn; [by apply tbl_insert_sorted| |done].
    unfold tbl_insert. rewrite map_app. cbn. apply NoDup_app.
    split_and!; [done| |by apply NoDup_singleton].
    intros x Hx ->%list_elem_of_singleton.
    apply list_elem_of_In, in_map_iff in Hx as (u & Hu' & Hin).
    assert (existsb (fun u => String.eqb (u_public_id u) public_id) (db_users d) = true)
      as Hcontra by (apply existsb_exists; exists u; by rewrite Hu', String.eqb_refl).
    congruence.
  - injection Hc as <-. split_and!; cbn; [by apply tbl_modify_sorted| |done].
    by rewrite map_tbl_modify.
  - injection Hc as <-. split_and!; cbn; [by apply map_filter_sorted|
      by apply map_filter_NoDup|done].
  - injection Hc as <-. split_and!; cbn; [done|done|by apply tbl_insert_sorted].
  - injection Hc as <-. split_and!; cbn; [done|done|by apply tbl_modify_sorted].
  - injection Hc as <-. split_and!; cbn; [done|done|by apply map_filter_sorted].
Qed.

Lemma apply_changes_wf cs : forall d d', wf_db d -> apply_changes d cs = inr d' -> wf_db d'.
Proof.
  induction cs as [|c cs IH]; cbn; intros d d' Hd Hc; [congruence|].
  destruct (apply_change d c) as [e|d1] eqn:E; [done|].
  eapply IH; [|done]. by eapply apply_change_wf.
Qed.

(** [wf_db] of the committed database, and any property of it that the
    operations other than [commit] leave alone. *)
Definition db_pred (P : db -> Prop) (s : sess) : Prop := P (s_db s).

Lemma commit_wf : se_preserves (db_pred wf_db) commit.
Proof.
  intros s Hs. unfold commit, db_pred in *.
  destruct (apply_changes (s_db s) (s_pending s)) eqn:E; [done|].
  by eapply apply_changes_wf.
Qed.

Lemma log_event_pres P e : se_preserves (db_pred P) (log_event e).
Proof. by intros s Hs. Qed.

Lemma se_get_pres P : se_preserves (db_pred P) (se_get : M sess).
Proof. by intros s Hs. Qed.

Lemma session_add_pres P c : se_preserves (db_pred P) (session_add c).
Proof. by intros s Hs. Qed.

Lemma query_users_pres P p : se_preserves (db_pred P) (query_users p).
Proof. unfold query_users. se_preserves_auto; [apply se_get_pres|apply log_event_pres]. Qed.

Lemma query_first_user_pres P p : se_preserves (db_pred P) (query_first_user p).
Proof. unfold query_first_user. se_preserves_auto. apply query_users_pres. Qed.

Lemma query_todos_pres P p : se_preserves (db_pred P) (query_todos p).
Proof. unfold query_todos. se_preserves_auto; [apply se_get_pres|apply log_event_pres]. Qed.

Lemma query_first_todo_pres P p : se_preserves (db_pred P) (query_first_todo p).
Proof. unfold query_first_todo. se_preserves_auto. apply query_todos_pres. Qed.

Lemma session_delete_user_pres P o : se_preserves (db_pred P) (session_delete_user o).
Proof. unfold session_delete_user. se_preserves_auto. apply session_add_pres. Qed.

Lemma session_delete_todo_pres P o : se_preserves (db_pred P) (session_delete_todo o).
Proof. unfold session_delete_todo. se_preserves_auto. apply session_add_pres. Qed.

#[export] Hint Resolve commit_wf log_event_pres se_get_pres session_add_pres
  query_users_pres query_first_user_pres query_todos_pres query_first_todo_pres
  session_delete_user_pres session_delete_todo_pres : api.

(** ** Run equations of the session operations *)

Definition sess_log (s : sess) (e : event) : sess :=
  Sess (s_db s) (s_pending s) (s_log s ++ [e]).

Lemma run_query_users p s :
  query_users p s = (inr (List.filter p (db_users (s_db s))), sess_log s (EvSelect TUser)).
Proof. reflexivity. Qed.

Lemma run_query_first_user p s :
  query_first_user p s =
  (inr (head (List.filter p (db_users (s_db s)))), sess_log s (EvSelect TUser)).
Proof. reflexivity. Qed.

Lemma run_query_todos p s :
  query_todos p s = (inr (List.filter p (db_todos (s_db s))), sess_log s (EvSelect TTodo)).
Proof. reflexivity. Qed.

Lemma run_query_first_todo p s :
  query_first_todo p s =
  (inr (head (List.filter p (db_todos (s_db s)))), sess_log s (EvSelect TTodo)).
Proof. reflexivity. Qed.

#[export] Hint Rewrite run_query_users run_query_first_user run_query_todos
  run_query_first_todo : se_simpl.

(** In a table whose key [g] is unique, filtering on the key of a row
    finds that row first. *)
Lemma head_filter_unique {R} (g : R -> string) (l : list R) (u : R) :
  NoDup (map g l) -> u ∈ l ->
  head (List.filter (fun x => String.eqb (g x) (g u)) l) = Some u.
Proof.
  induction l as [|x l IH]; [by intros ? ?%elem_of_nil|].
  cbn [map List.filter]. intros [Hx Hl]%NoDup_cons [->|Hu]%elem_of_cons.
  - by rewrite String.eqb_refl.
  - destruct (String.eqb_spec (g x) (g u)) as [E|E]; [|by apply IH].
    exfalso. apply Hx. rewrite E. apply list_elem_of_In, in_map, list_elem_of_In, Hu.
Qed.

(** No row with that key: the filter is empty. *)
Lemma filter_none {R} (p : R -> bool) (l : list R) :
  (forall x, x ∈ l -> p x = false) -> List.filter p l = [].
Proof.
  induction l as [|x l IH]; [done|]. intros Hp. cbn.
  rewrite Hp by apply list_elem_of_here. apply IH. intros y Hy. apply Hp. by right.
Qed.

#[export] Instance wf_db_dec (d : db) : Decision (wf_db d).
Proof. unfold wf_db, ids_sorted. apply _. Defined.

(** The first row of [l ++ [x]] that satisfies [p] is [x] when no row
    of [l] does. *)
Lemma head_filter_snoc {R} (p : R -> bool) (l : list R) (x : R) :
  (forall y, y ∈ l -> p y = false) -> p x = true ->
  head (List.filter p (l ++ [x])) = Some x.
Proof. intros Hl Hx. rewrite List.filter_app, filter_none by done. cbn. by rewrite Hx. Qed.

Lemma run_commit s :
  commit s =
  match apply_changes (s_db s) (s_pending s) with
  | inl e => (inl e, Sess (s_db s) [] (s_log s ++ [EvCommit]))
  | inr d => (inr tt, Sess d [] (s_log s ++ [EvCommit]))
  end.
Proof. reflexivity. Qed.

Lemma run_session_add c s :
  session_add c s = (inr tt, Sess (s_db s) (s_pending s ++ [c]) (s_log s)).
Proof. reflexivity. Qed.

(** ** Invariants of the session

    [sess_pred P Q]: the database satisfies [P] and every pending change
    satisfies [Q].  Queries only log; [session_add] keeps it for a change
    satisfying [Q]; [commit] keeps it when applying a [Q]-change keeps
    [P]. *)
Section SessPred.
Variable P : db -> Prop.
Variable Q : change -> Prop.

Definition sess_pred (s : sess) : Prop := P (s_db s) /\ Forall Q (s_pending s).

Lemma query_users_spres p : se_preserves sess_pred (query_users p).
Proof. intros s Hs. by rewrite run_query_users. Qed.

Lemma query_first_user_spres p : se_preserves sess_pred (query_first_user p).
Proof. intros s Hs. by rewrite run_query_first_user. Qed.

Lemma query_todos_spres p : se_preserves sess_pred (query_todos p).
Proof. intros s Hs. by rewrite run_query_todos. Qed.

Lemma query_first_todo_spres p : se_preserves sess_pred (query_first_todo p).
Proof. intros s Hs. by rewrite run_query_first_todo. Qed.

Lemma session_add_spres c : Q c -> se_preserves sess_pred (session_add c).
Proof.
  intros Hc s [Hd Hp]. rewrite run_session_add. split; [done|].
  apply Forall_app; by auto.
Qed.

Lemma session_delete_user_spres o :
  (forall i, Q (DeleteUser i)) -> se_preserves sess_pred (session_delete_user o).
Proof. intros HQ. destruct o; cbn; [by apply session_add_spres|by intros s]. Qed.

Lemma session_delete_todo_spres o :
  (forall i, Q (DeleteTodo i)) -> se_preserves sess_pred (session_delete_todo o).
Proof. intros HQ. destruct o; cbn; [by apply session_add_spres|by intros s]. Qed.

Hypothesis apply_change_P : forall d c d', P d -> Q c -> apply_change d c = inr d' -> P d'.

Lemma apply_changes_P cs : forall d d', P d -> Forall Q cs -> apply_changes d cs = inr d' -> P d'.
Proof.
  induction cs as [|c cs IH]; cbn; intros d d' Hd Hcs Ha; [congruence|].
  apply Forall_cons in Hcs as [Hc Hcs].
  destruct (apply_change d c) as [e|d1] eqn:E; [done|]. eapply IH; [|done..]. by eapply apply_change_P.
Qed.

Lemma commit_spres : se_preserves sess_pred commit.
Proof.
  intros s [Hd Hp]. rewrite run_commit.
  destruct (apply_changes _ _) eqn:E; split; cbn; try done. by eapply apply_changes_P.
Qed.
End SessPred.

#[export] Hint Resolve query_users_spres query_first_user_spres query_todos_spres
  query_first_todo_spres session_add_spres session_delete_user_spres
  session_delete_todo_spres commit_spres : api.

Lemma existsb_public_id_fresh (l : list user_row) (p : string) :
  (forall u, u ∈ l -> u_public_id u <> p) ->
  existsb (fun u => String.eqb (u_public_id u) p) l = false.
Proof.
  intros Hf. apply not_true_iff_false. intros (u & Hu & Hp)%existsb_exists.
  apply String.eqb_eq in Hp. by apply (Hf u); [apply list_elem_of_In|].
Qed.

Lemma existsb_public_id_taken (l : list user_row) (u : user_row) (p : string) :
  u ∈ l -> u_public_id u = p ->
  existsb (fun u => String.eqb (u_public_id u) p) l = true.
Proof.
  intros Hu Hp. apply existsb_exists. exists u.
  split; [by apply list_elem_of_In|by apply String.eqb_eq].
Qed.

#[export] Hint Rewrite run_commit run_session_add : se_simpl.

Lemma elem_of_tbl_modify {R} (rid : R -> Z) i f l x' :
  x' ∈ tbl_modify rid i f l -> exists x, x ∈ l /\ (x' = x \/ (rid x = i /\ x' = f x)).
Proof.
  unfold tbl_modify. intros (x & -> & Hx)%list_elem_of_fmap. exists x. split; [done|].
  destruct (Z.eqb_spec (rid x) i); [right|left]; done.
Qed.

Lemma bool_column_truthy v b : truthy v = true -> bool_column v = inr b -> b = Some true.
Proof.
  destruct v as [| [] |[|[]|]| | |]; cbn; intros Ht Hb; try done; by injection Hb as <-.
Qed.

(** Filtering a table on a unique key gives at most one row. *)
Lemma filter_key_unique {R} (g : R -> string) (k : string) (l : list R) :
  NoDup (map g l) ->
  List.filter (fun x => String.eqb (g x) k) l =
  match head (List.filter (fun x => String.eqb (g x) k) l) with
  | Some u => [u]
  | None => []
  end.
Proof.
  induction l as [|x l IH]; [done|]. cbn [map]. intros [Hx Hl]%NoDup_cons.
  cbn [List.filter]. destruct (String.eqb_spec (g x) k) as [<-|Hne]; [|by apply IH].
  cbn. f_equal. apply filter_none. intros y Hy. apply String.eqb_neq. intros Hgy.
  apply Hx. rewrite <- Hgy. apply list_elem_of_In, in_map, list_elem_of_In, Hy.
Qed.

(** SQLite's reading of a few texts compared with an INTEGER column. *)
Example sqlite_int_affinity_literals :
  map sqlite_int_affinity [" 7 "; "1.0"; "1e0"; "10e-1"; ".5e1"; "-2.50e1"; "1.5"; "1e"; "0x10"; "1e999999999"; "abc"]
  = [Some 7; Some 1; Some 1; Some 1; Some 5; Some (-25); None; None; None; None; None].
Proof. vm_compute. reflexivity. Qed.

(** SQLite reads a printed 64-bit integer back as that integer. *)
Lemma sqlite_int_affinity_str (n : Z) :
  in_int64 n = true -> sqlite_int_affinity (py_str_int n) = Some n.
Proof.
  intros Hn. unfold sqlite_int_affinity, py_str_int.
  rewrite parse_signed_pretty; [by rewrite Hn|apply is_nat_not_ascii_space|done].
Qed.

Lemma elem_of_tbl_modify_2 {R} (rid : R -> Z) i f l x :
  x ∈ l -> rid x = i -> f x ∈ tbl_modify rid i f l.
Proof.
  intros Hx Hi. unfold tbl_modify. apply list_elem_of_fmap. exists x.
  split; [|done]. by rewrite Hi, Z.eqb_refl.
Qed.

(** ** Atomicity: a computation that raises leaves the database as it was *)

(** [m] never changes the committed database. *)
Definition db_pure {A} (m : M A) : Prop := forall d0, se_preserves (db_pred (eq d0)) m.

(** When [m] raises, the committed database is the one it started from. *)
Definition atomic {A} (m : M A) : Prop :=
  forall s ex s', m s = (inl ex, s') -> s_db s' = s_db s.

Lemma db_pure_atomic {A} (m : M A) : db_pure m -> atomic m.
Proof. intros Hm s ex s' Hs. specialize (Hm (s_db s) s eq_refl). by rewrite Hs in Hm. Qed.

Lemma atomic_bind {A B} (m : M A) (f : A -> M B) :
  db_pure m -> (forall a, atomic (f a)) -> atomic (m ≫= f).
Proof.
  intros Hm Hf s ex s'. unfold mbind, SE_bind.
  specialize (Hm (s_db s) s eq_refl). destruct (m s) as [[ex1|a] s1] eqn:E.
  - intros [= <- <-]. done.
  - intros Hs. unfold db_pred in Hm. cbn in Hm. rewrite Hm. by eapply Hf.
Qed.

Lemma atomic_commit_ret {A} (a : A) : atomic (commit ;; mret a).
Proof.
  intros s ex s'. unfold mbind, SE_bind. rewrite run_commit.
  destruct (apply_changes _ _); [by intros [= <- <-]|done].
Qed.

Lemma atomic_ret {A} (a : A) : atomic (mret a : M A).
Proof. by intros s ex s'. Qed.

Lemma atomic_throw {A} (e : exn) : atomic (mthrow e : M A).
Proof. by intros s ex s' [= <- <-]. Qed.

Lemma atomic_if {A} (b : bool) (m1 m2 : M A) : atomic m1 -> atomic m2 -> atomic (if b then m1 else m2).
Proof. by destruct b. Qed.

#[export] Hint Resolve atomic_commit_ret atomic_ret atomic_throw atomic_if : api.

(** [atomic] goals: peel off the database-pure prefix of binds. *)
Ltac atomic_auto :=
  repeat match goal with
  | |- atomic (match ?x with _ => _ end) => destruct x
  | |- atomic (commit ≫= _) => apply atomic_commit_ret
  | |- atomic (_ ≫= _) => apply atomic_bind; [intros ?d0; se_preserves_auto|intros ?]
  end; eauto with api.

(** ** Rowid reuse *)

Lemma filter_all_ne {R} (rid : R -> Z) (l : list R) (i : Z) :
  Forall (fun x => rid x < i) l -> List.filter (fun x => negb (Z.eqb (rid x) i)) l = l.
Proof.
  induction 1 as [|x l Hx Hl IH]; [done|]. cbn.
  rewrite (proj2 (Z.eqb_neq _ _)) by lia. cbn. by rewrite IH.
Qed.

(** SQLite gives a deleted last rowid again: when the user [u] with
    the largest id was the last one inserted, deleting it makes the next
    new user get [u]'s id, and with it every todo whose [user_id] still
    names [u]. *)
Theorem rowid_reused_after_delete_last (us : list user_row) (u : user_row) :
  ids_sorted u_id (us ++ [u]) -> u_id u = next_id u_id us ->
  next_id u_id (List.filter (fun x => negb (Z.eqb (u_id x) (u_id u))) (us ++ [u])) = u_id u.
Proof.
  intros Hs Hu. unfold ids_sorted in Hs. rewrite map_app in Hs.
  apply StronglySorted_app in Hs as (Hlt & _ & _).
  rewrite List.filter_app. cbn. rewrite Z.eqb_refl. cbn. rewrite app_nil_r.
  rewrite filter_all_ne; [done|]. apply Forall_forall. intros x Hx.
  apply Hlt; [by apply list_elem_of_fmap_2|by apply list_elem_of_singleton].
Qed.

Lemma rowid_reused_after_delete_last_witness :
  next_id u_id (List.filter (fun x => negb (Z.eqb (u_id x) 3))
                  [User 1 "a" None "h" None; User 2 "b" None "h" None; User 3 "c" None "h" None]) = 3.
Proof.
  apply (rowid_reused_after_delete_last [User 1 "a" None "h" None; User 2 "b" None "h" None]
           (User 3 "c" None "h" None)); [by_decide|reflexivity].
Defined.

