(* ===== verification/Http.v ===== *)
(** * Requests, responses and status codes

    The Flask objects the views of src/api.py read and build:
    [request.method], the path, [request.headers] (the header lines the
    client sent, looked up as werkzeug's development server files them:
    case and [-]/[_] folded, a repeated header joined with a comma), [request.authorization] (the HTTP
    Basic credentials werkzeug parses from the [Authorization] header,
    through base64) and [request.get_json()]; responses made by
    [jsonify(...)] (JSON body, status 200 unless a status is given) and
    [make_response(text, status, headers)].  The status constants come
    from [settings.py], which is not part of src/: their values are the
    ones the spec lists (section 6).  The environment [env] carries what
    the views draw from the outside world: the clock, [uuid.uuid4()] and
    the salt of [generate_password_hash]. *)

From S2P Require Import Prelude PyValue Base64.

(** ** Status codes ([settings.py]) *)

Definition STATUS_CODE_200_SUCCESS : Z := 200.
Definition STATUS_CODE_201_CREATE : Z := 201.
Definition STATUS_CODE_202_ACCEPT : Z := 202.
Definition STATUS_CODE_204_NOTCONTENT : Z := 204.
Definition STATUS_CODE_401_UNATHORIZATED : Z := 401.
Definition STATUS_CODE_404_NOTFOUND : Z := 404.
Definition STATUS_CODE_405_NOTALLOWED : Z := 405.
Definition STATUS_CODE_500_INTERNALERROR : Z := 500.

(** ** Responses *)

Inductive body : Type :=
| BJson (j : json)
| BText (s : string).

Record response : Type := Response {
  rs_body : body;
  rs_status : Z;
  rs_headers : list (string * string)
}.

(** [jsonify(j), status] *)
Definition jsonify (j : json) (status : Z) : response := Response (BJson j) status [].

(** [make_response(text, status, headers)] *)
Definition make_response (text : string) (status : Z)
    (headers : list (string * string)) : response :=
  Response (BText text) status headers.

(** A JSON object with one key, the shape of every body of api.py. *)
Definition jmsg (k : string) (v : json) : json := JObj [(k, v)].

(** ** Requests *)

Inductive http_method : Type := GET | POST | PUT | DELETE | HEAD | OPTIONS
  | OTHER (m : string).

#[export] Instance http_method_eq_dec : EqDecision http_method.
Proof. solve_decision. Defined.

(** [request.authorization]: werkzeug's parsed credentials. *)
Record authorization : Type := Authorization {
  auth_username : option string;
  auth_password : option string
}.

Record request : Type := Request {
  rq_method : http_method;
  rq_path : string;
  rq_headers : list (string * string);
  rq_json : json          (** [request.get_json()]; [JNull] is [None] *)
}.

(** The outside world of one request. *)
Record env : Type := Env {
  env_now : Z;            (** UTC wall clock, whole seconds *)
  env_uuid : string;      (** [str(uuid.uuid4())] *)
  env_salt : string       (** the salt werkzeug draws *)
}.

(** The application configuration: [app.config['SECRET_KEY']], which is
    [getenv("SECRET_KEY")] and so [None] when the variable is unset. *)
Record config : Type := Config { cfg_secret_key : option string }.

(** ** Header lookup *)

Definition ascii_lower (c : ascii) : ascii :=
  let n := Ascii.nat_of_ascii c in
  if Nat.leb 65 n && Nat.leb n 90 then Ascii.ascii_of_nat (n + 32) else c.

Fixpoint str_lower (s : string) : string :=
  match s with
  | EmptyString => EmptyString
  | String c r => String (ascii_lower c) (str_lower r)
  end.

Definition ascii_upper (c : ascii) : ascii :=
  let n := Ascii.nat_of_ascii c in
  if Nat.leb 97 n && Nat.leb n 122 then Ascii.ascii_of_nat (n - 32) else c.

(** [key.upper().replace("-", "_")]: the WSGI environ key of a header
    name, without its [HTTP_] prefix. *)
Definition environ_key (name : string) : string :=
  str_map (fun c => if Ascii.eqb c "-"%char then "_"%char else ascii_upper c) name.

(** [value.replace("\r\n", "")] *)
Fixpoint str_drop_crlf (s : string) : string :=
  match s with
  | EmptyString => EmptyString
  | String c r =>
      match r with
      | String c' r' =>
          if Ascii.eqb c "013"%char && Ascii.eqb c' "010"%char then str_drop_crlf r'
          else String c (str_drop_crlf r)
      | EmptyString => String c EmptyString
      end
  end.

(** [request.headers[name]] when [name in request.headers].  The
    headers are the lines the client sent, in order.  Werkzeug's
    development server ([WSGIRequestHandler.make_environ]) files each
    line under [HTTP_] plus [key.upper().replace("-", "_")], dropping
    CRLF from the value and joining a repeated header to the earlier
    value with a comma; [EnvironHeaders] looks a name up by the same
    key.  So [X-Access-Token], [x-access-token] and [X_Access_Token]
    are one header. *)
Definition header_lookup (name : string) (hs : list (string * string)) : option string :=
  match List.filter (fun '(k, _) => String.eqb (environ_key k) (environ_key name)) hs with
  | [] => None
  | (_, v) :: rest =>
      Some (fold_left (fun acc '(_, w) => acc +:+ "," +:+ str_drop_crlf w) rest (str_drop_crlf v))
  end.

(** ** [request.authorization]

    Werkzeug (1.x) parses the [Authorization] header with
    [parse_authorization_header]: [auth_type, auth_info =
    value.split(None, 1)]; for the [basic] scheme, [username, password =
    base64.b64decode(auth_info).split(b":", 1)]; any exception on the
    way gives [None].  A [Digest] header has no [password], so [login]
    treats it as no credentials; it is [None] here. *)

(** The longest prefix of characters satisfying [f], and the rest. *)
Fixpoint str_span (f : ascii -> bool) (s : string) : string * string :=
  match s with
  | EmptyString => (EmptyString, EmptyString)
  | String c r => if f c then let '(w, rest) := str_span f r in (String c w, rest) else (EmptyString, s)
  end.

(** [value.split(None, 1)] unpacked into two: the first word and what
    follows the whitespace after it; [None] is the [ValueError] of fewer
    than two words. *)
Definition split_word (s : string) : option (string * string) :=
  let '(w, rest) := str_span (fun c => negb (bytes_isspace c)) (str_lstrip bytes_isspace s) in
  let rest' := str_lstrip bytes_isspace rest in
  if String.eqb w "" || String.eqb rest' "" then None else Some (w, rest').

Definition parse_authorization_header (value : option string) : option authorization :=
  match value with
  | None => None
  | Some v =>
      match split_word v with
      | None => None
      | Some (auth_type, auth_info) =>
          if String.eqb (str_lower auth_type) "basic" then
            match a2b_base64 auth_info with
            | None => None
            | Some raw =>
                match str_partition ":" (bytes_str raw) with
                | (username, Some password) => Some (Authorization (Some username) (Some password))
                | (_, None) => None
                end
            end
          else None
      end
  end.

(** [request.authorization]: the parsed [HTTP_AUTHORIZATION] header. *)
Definition rq_authorization (rq : request) : option authorization :=
  parse_authorization_header (header_lookup "Authorization" (rq_headers rq)).

(** The header a client sends for HTTP Basic credentials. *)
Definition basic_header (username password : string) : string :=
  "Basic " +:+ b2a_base64 (str_bytes (username +:+ ":" +:+ password)).

(** Python truthiness of an optional [str] attribute. *)
Definition py_str_truthy (o : option string) : bool :=
  match o with Some s => negb (String.eqb s "") | None => false end.

(** ** The shape of a response body

    A JSON object with one key (the "single descriptive key" of the spec,
    section 6), or a text body. *)
Definition single_key_body (r : response) : bool :=
  match rs_body r with
  | BJson (JObj [_]) => true
  | BJson _ => false
  | BText _ => true
  end.

#[export] Hint Extern 1 (single_key_body _ = true) => reflexivity : api.

(** ** Parsing the Basic credentials a client sends *)

Lemma str_lstrip_keep (p : Ascii.ascii -> bool) c r : p c = false -> str_lstrip p (String c r) = String c r.
Proof. intros Hc. cbn. by rewrite Hc. Qed.

(** [split(None, 1)] of the header a client builds: the scheme and the
    encoded credentials. *)
Lemma split_word_basic c r : bytes_isspace c = false ->
  split_word ("Basic " +:+ String c r) = Some ("Basic", String c r).
Proof.
  intros Hc. unfold split_word.
  change (str_span _ (str_lstrip _ ("Basic " +:+ String c r))) with ("Basic", String " " (String c r)).
  cbv beta iota zeta. change (str_lstrip bytes_isspace (String " " (String c r))) with (str_lstrip bytes_isspace (String c r)).
  rewrite str_lstrip_keep by done. reflexivity.
Qed.

(** The user name werkzeug parses never holds a colon. *)
Lemma parse_authorization_username_free v u p :
  parse_authorization_header v = Some (Authorization (Some u) p) -> str_free ":" u.
Proof.
  unfold parse_authorization_header.
  destruct v as [v|]; [|done]. destruct (split_word v) as [[t i]|]; [|done].
  destruct (String.eqb _ _); [|done]. destruct (a2b_base64 i) as [raw|]; [|done].
  pose proof (str_partition_fst_free ":" (bytes_str raw)) as Hf.
  destruct (str_partition _ _) as [a [b|]]; [|done]. by intros [= <- _].
Qed.

(** C16: the credentials a client encodes in a Basic header are parsed
    back by werkzeug, as long as the user name has no colon. *)
Theorem basic_header_roundtrip u p : str_free ":" u ->
  parse_authorization_header (Some (basic_header u p)) = Some (Authorization (Some u) (Some p)).
Proof.
  intros Hu. unfold parse_authorization_header, basic_header.
  destruct (b2a_base64_head (str_bytes (u +:+ ":" +:+ p))) as (c & r & Hcr & Hc); [done| |].
  { intros Hnil. apply (f_equal bytes_str) in Hnil. rewrite bytes_str_bytes in Hnil.
    destruct u; discriminate. }
  rewrite Hcr, split_word_basic by done. cbn [str_lower String.eqb].
  rewrite <- Hcr, a2b_base64_b2a, bytes_str_bytes by done.
  change (":" +:+ p) with (String ":" p). by rewrite (str_partition_free_app ":" u p Hu).
Qed.

Lemma basic_header_roundtrip_witness :
  str_free ":" "alice" /\
  parse_authorization_header (Some (basic_header "alice" "pw-a"))
  = Some (Authorization (Some "alice") (Some "pw-a")).
Proof. split; [reflexivity|]. apply basic_header_roundtrip. reflexivity. Defined.

(** A colon in the user name moves the rest of it into the password. *)
Example basic_header_colon_name :
  parse_authorization_header (Some (basic_header "ann:x" "pw"))
  = Some (Authorization (Some "ann") (Some "x:pw")).
Proof. vm_compute. reflexivity. Qed.

(** Werkzeug's development server treats [-] and [_] alike and joins a
    repeated header. *)
Example header_lookup_environ :
  header_lookup "X-Access-Token" [("X_Access_Token", "a"); ("Accept", "*/*"); ("x-access-token", "b")]
  = Some "a,b".
Proof. vm_compute. reflexivity. Qed.
