(* ===== verification/Startup.v ===== *)
(** * Startup: where [SECRET_KEY] comes from (src/api.py 14-22)

    [load_dotenv('secrete.env')] copies the variables of the file into
    the process environment [os.environ], skipping every name the
    environment already has (python-dotenv's default [override=False])
    and every name written without a value; then
    [app.config['SECRET_KEY'] = getenv("SECRET_KEY")] reads the result,
    [None] when neither the environment nor the file sets it.  The file
    is given parsed, as its entries in order ([None] for a line [KEY]
    without [=]); a missing file changes nothing.  The parser of
    python-dotenv, its [${VAR}] interpolation and the database URI of
    [settings.py] are not modelled. *)

From S2P Require Import Prelude PyValue Http.

(** [os.environ] and the parsed [.env] file. *)
Definition environ : Type := list (string * string).
Definition dotenv : Type := list (string * option string).

(** [os.getenv(k)]: [None] when unset. *)
Fixpoint getenv (env : environ) (k : string) : option string :=
  match env with
  | [] => None
  | (k', v) :: rest => if String.eqb k' k then Some v else getenv rest k
  end.

(** [DotEnv.dict()[k]]: the file read into a dict, so a later line for a
    name replaces an earlier one; [None] when the name is absent. *)
Fixpoint dotenv_value (f : dotenv) (k : string) : option (option string) :=
  match f with
  | [] => None
  | (k', v) :: rest =>
      match dotenv_value rest k with
      | Some x => Some x
      | None => if String.eqb k' k then Some v else None
      end
  end.

(** The loop of [DotEnv.set_as_environment_variables] over the names
    [ks] of the dict: a name already in [os.environ] is skipped, one
    whose value is [None] is not set. *)
Fixpoint dotenv_exports (f : dotenv) (env : environ) (ks : list string) : environ :=
  match ks with
  | [] => []
  | k :: ks' =>
      match getenv env k, dotenv_value f k with
      | None, Some (Some v) => (k, v) :: dotenv_exports f env ks'
      | _, _ => dotenv_exports f env ks'
      end
  end.

(** [load_dotenv(path)]: the environment after the call. *)
Definition load_dotenv (file : option dotenv) (env : environ) : environ :=
  match file with
  | None => env
  | Some f => env ++ dotenv_exports f env (remove_dups (map fst f))
  end.

(** The module-level configuration of api.py. *)
Definition app_config (file : option dotenv) (env : environ) : config :=
  Config (getenv (load_dotenv file env) "SECRET_KEY").

(** ** Lemmas *)

Lemma getenv_app env l k :
  getenv (env ++ l) k = match getenv env k with Some v => Some v | None => getenv l k end.
Proof.
  induction env as [|[k' v] env IH]; [done|]. cbn. by destruct (String.eqb k' k).
Qed.

Lemma dotenv_value_absent f k : k ∉ map fst f -> dotenv_value f k = None.
Proof.
  induction f as [|[k' v] f IH]; [done|]. cbn [map fst]. intros Hk.
  rewrite elem_of_cons in Hk. cbn. rewrite IH by naive_solver.
  destruct (String.eqb_spec k' k); naive_solver.
Qed.

(** What the exported names give [getenv]: each name is exported at
    most once. *)
Lemma getenv_dotenv_exports f env ks k :
  NoDup ks ->
  getenv (dotenv_exports f env ks) k =
  if bool_decide (k ∈ ks) then
    match getenv env k, dotenv_value f k with None, Some (Some v) => Some v | _, _ => None end
  else None.
Proof.
  induction 1 as [|k' ks Hk' Hks IH]; [done|]. cbn [dotenv_exports].
  destruct (String.eqb_spec k' k) as [<-|Hne].
  - rewrite bool_decide_true by apply list_elem_of_here.
    rewrite bool_decide_false in IH by done.
    destruct (getenv env k'), (dotenv_value f k') as [[]|]; cbn; by rewrite ?String.eqb_refl, ?IH.
  - assert (bool_decide (k ∈ k' :: ks) = bool_decide (k ∈ ks)) as ->.
    { apply bool_decide_ext. rewrite elem_of_cons. split; [intros [->|?]; done|by right]. }
    destruct (getenv env k'), (dotenv_value f k') as [[]|]; cbn;
      rewrite ?(proj2 (String.eqb_neq _ _) Hne); done.
Qed.

Lemma getenv_load_dotenv f env k :
  getenv (load_dotenv (Some f) env) k =
  match getenv env k with
  | Some v => Some v
  | None => match dotenv_value f k with Some (Some v) => Some v | _ => None end
  end.
Proof.
  cbn [load_dotenv]. rewrite getenv_app, getenv_dotenv_exports by apply NoDup_remove_dups.
  destruct (getenv env k); [done|]. case_bool_decide as Hk; [done|].
  rewrite elem_of_remove_dups in Hk. by rewrite dotenv_value_absent.
Qed.

(** C11: [app.config['SECRET_KEY']] is the value of [SECRET_KEY] in the
    process environment when it is set there, whatever the file says;
    otherwise the value of the last line of [secrete.env] that names it;
    and [None] when neither sets it, in particular when the file is
    missing or its last [SECRET_KEY] line has no value. *)
Theorem app_config_secret_key file env :
  cfg_secret_key (app_config file env) =
  match getenv env "SECRET_KEY" with
  | Some v => Some v
  | None =>
      match file with
      | Some f => match dotenv_value f "SECRET_KEY" with Some (Some v) => Some v | _ => None end
      | None => None
      end
  end.
Proof.
  destruct file as [f|]; cbn [app_config cfg_secret_key]; [apply getenv_load_dotenv|].
  cbn [load_dotenv]. by destruct (getenv env _).
Qed.
