(* ===== verification/Auth.v ===== *)
(** * Login and the token check: [login] and [token_required]

    [login] (src/api.py 45-67) reads HTTP Basic credentials, finds the
    first user with that name, checks the password against the stored
    hash and answers with a JWT whose payload holds the user's
    [public_id] and an expiry 3600 minutes ahead.  [token_required]
    (api.py 70-86) wraps every other view: without an [X-Access-Token]
    header it answers "Token is missing!" without running the view;
    otherwise it decodes the token and looks up the user, answering
    "Token is invalid!" (401) on any exception, and runs the view with the
    user found, or with [None] when no user has that public id.  The key
    [app.config['SECRET_KEY']] may be [None]: [jwt.encode] then raises
    [TypeError] in [login], and [jwt.decode] raises it inside the [try]
    of [token_required].  Both are stated over any [PasswordHasher] and
    [JwtCodec]. *)

From S2P Require Import Prelude PyValue Credentials Store Http.

(** ['Basic realm="Login required!"'] *)
Definition dquote : string := String (Ascii.ascii_of_nat 34) EmptyString.
Definition basic_realm : list (string * string) :=
  [("WWW-Authenticate", "Basic realm=" +:+ dquote +:+ "Login required!" +:+ dquote)].

Definition could_not_verify : response :=
  make_response "FAILED: Could not verify" STATUS_CODE_401_UNATHORIZATED basic_realm.

Definition no_user_found : response :=
  make_response "FAILED: No user found" STATUS_CODE_204_NOTCONTENT basic_realm.

Definition token_missing : response :=
  jsonify (jmsg "message" (JStr "Token is missing!")) STATUS_CODE_200_SUCCESS.

Definition token_invalid : response :=
  jsonify (jmsg "message" (JStr "Token is invalid!")) STATUS_CODE_401_UNATHORIZATED.

(** [auth and auth.username and auth.password]: the credentials, when
    the guard of api.py 48 lets the request through. *)
Definition basic_credentials (a : option authorization) : option (string * string) :=
  match a with
  | Some (Authorization (Some u) (Some p)) =>
      if py_str_truthy (Some u) && py_str_truthy (Some p) then Some (u, p) else None
  | _ => None
  end.

(** [User.query.filter_by(name=...)]: a NULL name matches nothing. *)
Definition user_has_name (n : string) (u : user_row) : bool :=
  match u_name u with Some m => String.eqb m n | None => false end.

Definition user_has_public_id (p : string) (u : user_row) : bool :=
  String.eqb (u_public_id u) p.

Section Auth.
Context `{PasswordHasher} `{JwtCodec}.

(** The token [login] issues to user [u] at time [now], signed with
    [key]. *)
Definition issue_token (key : string) (u : user_row) (now : Z) : string :=
  jwt_encode (login_claims (u_public_id u) now) key.

(** [jwt.encode(payload, app.config['SECRET_KEY'])]: PyJWT raises
    [TypeError] on a [None] key. *)
Definition signing_key (cfg : config) : exn + string :=
  match cfg_secret_key cfg with Some k => inr k | None => inl TypeError end.

(** [login()] *)
Definition login (cfg : config) (e : env) (rq : request) : M response :=
  match basic_credentials (rq_authorization rq) with
  | None => mret could_not_verify
  | Some (username, password) =>
      user ← query_first_user (user_has_name username);
      match user with
      | None => mret no_user_found
      | Some u =>
          if check_password_hash (u_password u) password then
            key ← se_of_sum (signing_key cfg);
            mret (jsonify (jmsg "token" (JStr (issue_token key u (env_now e))))
                    STATUS_CODE_200_SUCCESS)
          else mret could_not_verify
      end
  end.

(** The [try] block of [decorated]: decode the token and look the user
    up; [inl] is the exception it raised. *)
Definition decode_current_user (cfg : config) (e : env) (token : string)
    : M (exn + option user_row) :=
  se_catch
    (pid ← se_of_sum (token_public_id token (cfg_secret_key cfg) (env_now e));
     cu ← query_first_user (user_has_public_id pid);
     mret (inr cu))
    (fun ex => mret (inl ex)).

(** [token_required(fn)] applied to a request: [fn] is the view, given
    the current user. *)
Definition token_required (cfg : config) (e : env) (rq : request)
    (fn : option user_row -> M response) : M response :=
  match header_lookup "X-Access-Token" (rq_headers rq) with
  | None => mret token_missing
  | Some token =>
      r ← decode_current_user cfg e token;
      match r with
      | inl _ => mret token_invalid
      | inr current_user => fn current_user
      end
  end.
End Auth.

(** ** Properties *)

Section AuthProps.
Context `{PasswordHasher} `{JwtCodec}.

(** What [token_required] reads from a token issued by [login]. *)
Lemma token_public_id_issue k u t0 now :
  token_public_id (issue_token k u t0) (Some k) now =
  if Z.ltb now (t0 + token_lifetime) then inr (u_public_id u)
  else inl ExpiredSignatureError.
Proof.
  unfold token_public_id, jwt_decode, issue_token. rewrite jwt_verify_encode.
  cbn [login_claims jc_exp jc_public_id].
  destruct (Z.ltb_spec now (t0 + token_lifetime));
    [rewrite (proj2 (Z.leb_gt _ _)) by lia|rewrite (proj2 (Z.leb_le _ _)) by lia];
    done.
Qed.

(** Whatever the key, a token issued by [login] is accepted only before
    it expires, and then names its user. *)
Lemma token_public_id_issue_inv k u t0 key now pid :
  token_public_id (issue_token k u t0) key now = inr pid ->
  now < t0 + token_lifetime /\ pid = u_public_id u.
Proof.
  destruct key as [k'|]; [|done]. unfold token_public_id, jwt_decode, issue_token.
  destruct (jwt_verify k' _) as [c|] eqn:E; [|done]. apply jwt_verify_claims in E as ->.
  cbn [login_claims jc_exp jc_public_id].
  destruct (Z.leb_spec (t0 + token_lifetime) now); [done|]. intros [= <-]. split; [lia|done].
Qed.

(** A token signed with a short key of the block of [SECRET_KEY] reads
    as one signed with [SECRET_KEY]. *)
Lemma token_public_id_same_block tok k k' now :
  hmac_short_key k -> hmac_short_key k' -> hmac_key_block k = hmac_key_block k' ->
  token_public_id tok (Some k) now = token_public_id tok (Some k') now.
Proof.
  intros Hk Hk' Hb. unfold token_public_id, jwt_decode. by rewrite (jwt_verify_same_block tok k k').
Qed.

(** The run of [token_required] once the [try] block has given its
    outcome. *)
Lemma run_token_required cfg e rq fn s token :
  header_lookup "X-Access-Token" (rq_headers rq) = Some token ->
  token_required cfg e rq fn s =
  match token_public_id token (cfg_secret_key cfg) (env_now e) with
  | inl _ => (inr token_invalid, s)
  | inr pid =>
      fn (head (List.filter (user_has_public_id pid) (db_users (s_db s))))
         (sess_log s (EvSelect TUser))
  end.
Proof.
  intros Hh. unfold token_required. rewrite Hh.
  unfold decode_current_user, se_catch, se_try_except.
  se_unfold. destruct (token_public_id _ _ _); [done|].
  by rewrite run_query_first_user.
Qed.

Lemma head_filter_in {R} (p : R -> bool) (l : list R) u :
  head (List.filter p l) = Some u -> u ∈ l /\ p u = true.
Proof.
  intros Hh. destruct (List.filter p l) as [|x l'] eqn:E; [done|].
  injection Hh as ->. assert (In u (List.filter p l)) as Hin by (rewrite E; left; done).
  apply filter_In in Hin as [Hin Hp]. split; [by apply list_elem_of_In|done].
Qed.

(** The outcome of [login] for the credentials it reads. *)
Definition login_answer (cfg : config) (e : env) (users : list user_row)
    (username password : string) : exn + response :=
  match head (List.filter (user_has_name username) users) with
  | None => inr no_user_found
  | Some u =>
      if check_password_hash (u_password u) password then
        match signing_key cfg with
        | inl ex => inl ex
        | inr key => inr (jsonify (jmsg "token" (JStr (issue_token key u (env_now e))))
                            STATUS_CODE_200_SUCCESS)
        end
      else inr could_not_verify
  end.

Lemma run_login cfg e rq s :
  login cfg e rq s =
  match basic_credentials (rq_authorization rq) with
  | None => (inr could_not_verify, s)
  | Some (n, p) => (login_answer cfg e (db_users (s_db s)) n p, sess_log s (EvSelect TUser))
  end.
Proof.
  unfold login, login_answer. destruct (basic_credentials _) as [[n p]|]; [|done].
  se_unfold. rewrite run_query_first_user. cbv beta iota.
  destruct (head _) as [u|]; [|done]. destruct (check_password_hash _ _); [|done].
  by destruct (signing_key cfg).
Qed.

(** A login whose password matches the first user with the name gets
    that user's token. *)
Lemma login_first_named cfg e rq s n p u k :
  cfg_secret_key cfg = Some k -> basic_credentials (rq_authorization rq) = Some (n, p) ->
  head (List.filter (user_has_name n) (db_users (s_db s))) = Some u ->
  check_password_hash (u_password u) p = true ->
  login cfg e rq s =
  (inr (jsonify (jmsg "token" (JStr (issue_token k u (env_now e)))) STATUS_CODE_200_SUCCESS),
   sess_log s (EvSelect TUser)).
Proof.
  intros Hk Hc Hu Hp. rewrite run_login, Hc. unfold login_answer, signing_key.
  by rewrite Hu, Hp, Hk.
Qed.

(** Login and the token check write nothing. *)
Lemma login_pres P cfg e rq : se_preserves (db_pred P) (login cfg e rq).
Proof. unfold login. se_preserves_auto. Qed.

Lemma token_required_pres P cfg e rq fn :
  (forall cu, se_preserves (db_pred P) (fn cu)) ->
  se_preserves (db_pred P) (token_required cfg e rq fn).
Proof.
  intros Hfn. unfold token_required, decode_current_user, se_catch. se_preserves_auto.
Qed.

Lemma login_atomic cfg e rq : atomic (login cfg e rq).
Proof. apply db_pure_atomic. intros d0. apply login_pres. Qed.

Lemma token_required_atomic cfg e rq fn :
  (forall cu, atomic (fn cu)) -> atomic (token_required cfg e rq fn).
Proof. intros Hfn. unfold token_required, decode_current_user, se_catch. atomic_auto. Qed.

(** Every answer of [login] and of [token_required] has a one-key JSON
    body or a text body, given that the view's answers have. *)
Lemma login_shape cfg e rq : login cfg e rq ⤳ (fun r => single_key_body r = true).
Proof. unfold login. se_post_auto. Qed.

Lemma token_required_shape cfg e rq fn :
  (forall cu, fn cu ⤳ (fun r => single_key_body r = true)) ->
  token_required cfg e rq fn ⤳ (fun r => single_key_body r = true).
Proof. intros Hfn. unfold token_required. se_post_auto. Qed.

(** Login and the token check keep any invariant of the database and
    the pending changes. *)
Lemma login_spres P Q cfg e rq : se_preserves (sess_pred P Q) (login cfg e rq).
Proof. unfold login. se_preserves_auto. Qed.

Lemma token_required_spres P Q cfg e rq fn :
  (forall cu, se_preserves (sess_pred P Q) (fn cu)) ->
  se_preserves (sess_pred P Q) (token_required cfg e rq fn).
Proof. intros Hfn. unfold token_required, decode_current_user, se_catch. se_preserves_auto. Qed.
End AuthProps.

#[export] Hint Resolve login_pres token_required_pres login_atomic token_required_atomic : api.
#[export] Hint Resolve login_shape token_required_shape : api.
#[export] Hint Resolve login_spres token_required_spres : api.

(** The users whose name has a colon, which no Basic header can name,
    taken out of the database. *)
Definition name_colon_free (u : user_row) : bool :=
  match u_name u with Some m => Nat.eqb (str_count ":" m) 0 | None => true end.

Definition hide_colon_names (s : sess) : sess :=
  Sess (DB (List.filter name_colon_free (db_users (s_db s))) (db_todos (s_db s)))
    (s_pending s) (s_log s).

Lemma basic_credentials_colon_free rq n p :
  basic_credentials (rq_authorization rq) = Some (n, p) -> str_free ":" n.
Proof.
  unfold basic_credentials.
  destruct (rq_authorization rq) as [[[u|] [p'|]]|] eqn:E; try done.
  destruct (_ && _); [|done]. intros [= <- _]. by eapply parse_authorization_username_free.
Qed.

Section AuthClaims.
Context `{PasswordHasher} `{JwtCodec}.

(** C1: a request without an [X-Access-Token] header is answered
    "Token is missing!" with status 200 before the view runs, and the
    session is left exactly as it was: no query, no change, no
    commit. *)
Theorem token_required_missing_token cfg e rq fn s :
  header_lookup "X-Access-Token" (rq_headers rq) = None ->
  token_required cfg e rq fn s = (inr token_missing, s).
Proof. intros Hh. unfold token_required. by rewrite Hh. Qed.

(** C2: a token issued by a successful login resolves, as long as it
    has not expired, to the very user who logged in: [token_required]
    runs the view with that user, on any later session over the same
    database. *)
Theorem login_token_resolves cfg e1 e2 rq s tok s1 :
  wf_db (s_db s) ->
  login cfg e1 rq s =
    (inr (jsonify (jmsg "token" (JStr tok)) STATUS_CODE_200_SUCCESS), s1) ->
  env_now e2 < env_now e1 + token_lifetime ->
  exists n p u,
    basic_credentials (rq_authorization rq) = Some (n, p) /\
    head (List.filter (user_has_name n) (db_users (s_db s))) = Some u /\
    check_password_hash (u_password u) p = true /\
    forall rq2 fn s2, s_db s2 = s_db s ->
      header_lookup "X-Access-Token" (rq_headers rq2) = Some tok ->
      token_required cfg e2 rq2 fn s2 = fn (Some u) (sess_log s2 (EvSelect TUser)).
Proof.
  intros (_ & Hpid & _) Hlogin Hnow. rewrite run_login in Hlogin.
  destruct (basic_credentials _) as [[n p]|]; [|done].
  unfold login_answer in Hlogin.
  destruct (head _) as [u|] eqn:Hu; [|done].
  destruct (check_password_hash _ _) eqn:Hc; [|done].
  unfold signing_key in Hlogin. destruct (cfg_secret_key cfg) as [k|] eqn:Hk; [|done].
  injection Hlogin as <- _. exists n, p, u. split_and!; [done..|].
  intros rq2 fn s2 Hs2 Hh. rewrite (run_token_required _ _ _ _ _ _ Hh), Hk.
  rewrite token_public_id_issue, (proj2 (Z.ltb_lt _ _) Hnow), Hs2.
  apply head_filter_in in Hu as [Hu _].
  unfold user_has_public_id. by rewrite (head_filter_unique u_public_id).
Qed.

(** C3: the token lifetime is [timedelta(minutes=3600)], that is
    216000 seconds (60 hours): a token issued at [t0] is accepted
    exactly when the clock reads less than [t0 + 216000]. *)
Theorem issued_token_valid_iff k u t0 now :
  token_public_id (issue_token k u t0) (Some k) now = inr (u_public_id u)
  <-> now < t0 + 216000.
Proof.
  rewrite token_public_id_issue. unfold token_lifetime.
  destruct (Z.ltb_spec now (t0 + 3600 * 60)); split; intros; (done || lia).
Qed.

(** C4: once its lifetime is over, an issued token is rejected with
    "Token is invalid!" (401), before any query, whatever key the
    application holds. *)
Theorem token_required_expired cfg e rq fn s k u t0 :
  header_lookup "X-Access-Token" (rq_headers rq) = Some (issue_token k u t0) ->
  t0 + token_lifetime <= env_now e ->
  token_required cfg e rq fn s = (inr token_invalid, s).
Proof.
  intros Hh Hexp. rewrite (run_token_required _ _ _ _ _ _ Hh).
  destruct (token_public_id _ _ _) as [|pid] eqn:Ht; [done|].
  apply token_public_id_issue_inv in Ht. lia.
Qed.

(** C5: a token signed with a key whose HMAC block differs from that
    of [SECRET_KEY] (both keys of at most 64 bytes) is rejected with
    "Token is invalid!", whatever its claims. *)
Theorem token_required_foreign_key cfg e rq fn s c k key :
  cfg_secret_key cfg = Some k -> hmac_short_key k -> hmac_short_key key ->
  hmac_key_block k <> hmac_key_block key ->
  header_lookup "X-Access-Token" (rq_headers rq) = Some (jwt_encode c key) ->
  token_required cfg e rq fn s = (inr token_invalid, s).
Proof.
  intros Hk Hs Hs' Hne Hh. rewrite (run_token_required _ _ _ _ _ _ Hh), Hk.
  unfold token_public_id, jwt_decode. by rewrite jwt_verify_other_key.
Qed.

(** C6: HMAC pads a short key with zero bytes, so a token signed with
    [SECRET_KEY] followed by a zero byte is not foreign: while it has
    not expired, [token_required] runs the view with the user it names,
    exactly as for a token signed with [SECRET_KEY]. *)
Theorem token_required_nul_padded_key cfg e rq fn s k u t0 :
  cfg_secret_key cfg = Some k -> (String.length k < 64)%nat ->
  header_lookup "X-Access-Token" (rq_headers rq) =
    Some (issue_token (k +:+ String "000" EmptyString) u t0) ->
  env_now e < t0 + token_lifetime ->
  token_required cfg e rq fn s =
  fn (head (List.filter (user_has_public_id (u_public_id u)) (db_users (s_db s))))
     (sess_log s (EvSelect TUser)).
Proof.
  intros Hk Hlen Hh Hnow. rewrite (run_token_required _ _ _ _ _ _ Hh), Hk.
  rewrite (token_public_id_same_block _ k (k +:+ String "000" EmptyString));
    [|unfold hmac_short_key; lia|by apply hmac_short_key_nul|by rewrite hmac_key_block_nul].
  by rewrite token_public_id_issue, (proj2 (Z.ltb_lt _ _) Hnow).
Qed.

(** C7: a valid token whose user no longer exists still passes the
    check: the view runs with [current_user = None] (the lookup
    failure is not an authentication failure). *)
Theorem token_required_unknown_user cfg e rq fn s k u t0 :
  cfg_secret_key cfg = Some k ->
  header_lookup "X-Access-Token" (rq_headers rq) = Some (issue_token k u t0) ->
  env_now e < t0 + token_lifetime ->
  (forall v, v ∈ db_users (s_db s) -> u_public_id v <> u_public_id u) ->
  token_required cfg e rq fn s = fn None (sess_log s (EvSelect TUser)).
Proof.
  intros Hk Hh Hnow Hgone. rewrite (run_token_required _ _ _ _ _ _ Hh), Hk.
  rewrite token_public_id_issue, (proj2 (Z.ltb_lt _ _) Hnow).
  rewrite filter_none; [done|]. intros v Hv. unfold user_has_public_id.
  by apply String.eqb_neq, Hgone.
Qed.

(** login leaves the database as it was, and the only exception it
    can raise is the [TypeError] of [jwt.encode] when [SECRET_KEY] is
    unset: with a key, every request gets an answer. *)
Theorem login_total cfg e rq s :
  s_db (snd (login cfg e rq s)) = s_db s /\
  forall ex, fst (login cfg e rq s) = inl ex -> ex = TypeError /\ cfg_secret_key cfg = None.
Proof.
  rewrite run_login. destruct (basic_credentials _) as [[n p]|]; [|done].
  split; [done|]. cbn [fst]. unfold login_answer.
  destruct (head _) as [u|]; [|done]. destruct (check_password_hash _ _); [|done].
  unfold signing_key. by destruct (cfg_secret_key cfg); intros ex [= <-].
Qed.

(** C8: names are not unique, and login only ever checks the first
    user with the given name: a later user with the same name can never
    log in with a password the first user does not have, even when it
    is their own. *)
Theorem login_shadowed_user cfg e rq s n p u1 u2 :
  basic_credentials (rq_authorization rq) = Some (n, p) ->
  head (List.filter (user_has_name n) (db_users (s_db s))) = Some u1 ->
  u2 ∈ db_users (s_db s) -> user_has_name n u2 = true ->
  check_password_hash (u_password u2) p = true ->
  check_password_hash (u_password u1) p = false ->
  fst (login cfg e rq s) = inr could_not_verify.
Proof.
  intros Hc Hu1 _ _ _ Hp1. rewrite run_login, Hc. cbn.
  unfold login_answer. by rewrite Hu1, Hp1.
Qed.

(** C10: with [SECRET_KEY] unset ([getenv] gave [None]), no one can get
    in: a login with the right password raises [TypeError] in
    [jwt.encode] (a 500), and every token is answered "Token is
    invalid!". *)
Theorem secret_key_unset cfg e rq s n p u fn s2 rq2 tok :
  cfg_secret_key cfg = None ->
  basic_credentials (rq_authorization rq) = Some (n, p) ->
  head (List.filter (user_has_name n) (db_users (s_db s))) = Some u ->
  check_password_hash (u_password u) p = true ->
  header_lookup "X-Access-Token" (rq_headers rq2) = Some tok ->
  fst (login cfg e rq s) = inl TypeError /\
  token_required cfg e rq2 fn s2 = (inr token_invalid, s2).
Proof.
  intros Hk Hc Hu Hp Hh. rewrite run_login, Hc, (run_token_required _ _ _ _ _ _ Hh), Hk.
  cbn [fst]. unfold login_answer, signing_key. by rewrite Hu, Hp, Hk.
Qed.
(** C9: werkzeug splits the Basic credentials at the first colon, so
    [login] never sees a user whose name has a colon: its answer is the
    same on the database without those users.  Such an account, which
    [create_user] accepts, can never log in. *)
Theorem login_ignores_colon_names cfg e rq s :
  fst (login cfg e rq s) = fst (login cfg e rq (hide_colon_names s)).
Proof.
  rewrite !run_login. destruct (basic_credentials _) as [[n p]|] eqn:Hc; [|done].
  cbn [fst hide_colon_names s_db db_users]. unfold login_answer.
  rewrite filter_filter_sub; [done|]. intros u. unfold user_has_name, name_colon_free.
  destruct (u_name u) as [m|]; [|done]. intros ->%String.eqb_eq.
  by apply Nat.eqb_eq, (basic_credentials_colon_free rq _ p).
Qed.

End AuthClaims.

(** ** Sample data and witnesses, with the toy instances *)

#[local] Existing Instances toy_hasher toy_jwt.

Definition key0 : string := "s3cret".
Definition cfg0 : config := Config (Some key0).
Definition env_at (now : Z) : env := Env now "uuid-new" "salt-new".
Definition alice : user_row := User 1 "pid-alice" (Some "alice") (toy_hash "pw-a" "salt-a") (Some false).
Definition alice2 : user_row := User 2 "pid-alice2" (Some "alice") (toy_hash "pw-b" "salt-b") (Some false).
Definition bob : user_row := User 3 "pid-bob" (Some "bob") (toy_hash "pw-bob" "salt-c") (Some true).
Definition carol : user_row := User 4 "pid-carol" (Some "carol") (toy_hash "pw-c" "salt-d") (Some false).
Definition db0 : db := DB [alice; alice2; bob] [Todo 1 1 (Some "buy milk") (Some false)].
Definition s0 : sess := Sess db0 [] [].

Definition rq_login (u p : string) : request :=
  Request POST "/login" [("Authorization", basic_header u p)] JNull.
(** An account named [ann:x], with her own password, is not found. *)
Definition ann : user_row := User 5 "pid-ann" (Some "ann:x") (toy_hash "pw" "salt-e") (Some false).

Example login_colon_name_not_found :
  fst (login cfg0 (env_at 0) (rq_login "ann:x" "pw") (Sess (DB [ann] []) [] [])) = inr no_user_found.
Proof. vm_compute. reflexivity. Qed.

Definition with_token (m : http_method) (path tok : string) (b : json) : request :=
  Request m path [("x-access-token", tok)] b.
Definition no_token (m : http_method) (path : string) (b : json) : request :=
  Request m path [] b.
Definition echo_view (cu : option user_row) : M response :=
  mret (jsonify (JBool (bool_decide (is_Some cu))) STATUS_CODE_200_SUCCESS).

Lemma token_required_missing_token_witness :
  token_required cfg0 (env_at 0) (no_token GET "/users" JNull) echo_view s0
  = (inr token_missing, s0).
Proof. apply token_required_missing_token. reflexivity. Defined.

Lemma login_token_resolves_witness :
  exists n p u,
    basic_credentials (rq_authorization (rq_login "alice" "pw-a")) = Some (n, p) /\
    head (List.filter (user_has_name n) (db_users (s_db s0))) = Some u /\
    check_password_hash (u_password u) p = true /\
    forall rq2 fn s2, s_db s2 = s_db s0 ->
      header_lookup "X-Access-Token" (rq_headers rq2) = Some (issue_token key0 alice 1000) ->
      token_required cfg0 (env_at 5000) rq2 fn s2 = fn (Some u) (sess_log s2 (EvSelect TUser)).
Proof.
  apply (login_token_resolves cfg0 (env_at 1000) (env_at 5000) (rq_login "alice" "pw-a") s0
           (issue_token key0 alice 1000) (sess_log s0 (EvSelect TUser))).
  - by_decide.
  - vm_compute. reflexivity.
  - vm_compute. reflexivity.
Defined.

Lemma token_required_expired_witness :
  token_required cfg0 (env_at (1000 + 216000)) (with_token GET "/users" (issue_token key0 alice 1000) JNull)
    echo_view s0 = (inr token_invalid, s0).
Proof.
  apply (token_required_expired _ _ _ _ _ key0 alice 1000); [reflexivity|vm_compute; discriminate].
Defined.

Lemma token_required_foreign_key_witness :
  token_required cfg0 (env_at 1000)
    (with_token GET "/users" (jwt_encode (login_claims "pid-alice" 1000) "guess") JNull)
    echo_view s0 = (inr token_invalid, s0).
Proof.
  apply (token_required_foreign_key _ _ _ _ _ (login_claims "pid-alice" 1000) key0 "guess");
    [reflexivity|unfold hmac_short_key; cbn; lia|unfold hmac_short_key; cbn; lia|
     vm_compute; congruence|reflexivity].
Defined.

Lemma token_required_nul_padded_key_witness :
  token_required cfg0 (env_at 1000)
    (with_token GET "/users" (issue_token (key0 +:+ String "000" EmptyString) alice 900) JNull)
    echo_view s0 =
  echo_view (head (List.filter (user_has_public_id (u_public_id alice)) (db_users (s_db s0))))
    (sess_log s0 (EvSelect TUser)).
Proof.
  apply (token_required_nul_padded_key _ _ _ _ _ key0 alice 900);
    [reflexivity|cbn; lia|reflexivity|cbn; unfold token_lifetime; lia].
Defined.

Lemma token_required_unknown_user_witness :
  token_required cfg0 (env_at 1000) (with_token GET "/users" (issue_token key0 carol 900) JNull)
    echo_view s0 = echo_view None (sess_log s0 (EvSelect TUser)).
Proof.
  apply (token_required_unknown_user _ _ _ _ _ key0 carol 900).
  - reflexivity.
  - reflexivity.
  - vm_compute. reflexivity.
  - intros v Hv. repeat (apply elem_of_cons in Hv as [->|Hv]; [discriminate|]).
    by apply elem_of_nil in Hv.
Defined.

Lemma login_shadowed_user_witness :
  fst (login cfg0 (env_at 1000) (rq_login "alice" "pw-b") s0) = inr could_not_verify.
Proof.
  apply (login_shadowed_user _ _ _ _ "alice" "pw-b" alice alice2);
    [reflexivity|reflexivity|by_decide|reflexivity|vm_compute; reflexivity|vm_compute; reflexivity].
Defined.

Definition cfg_unset : config := Config None.

Lemma secret_key_unset_witness :
  fst (login cfg_unset (env_at 1000) (rq_login "alice" "pw-a") s0) = inl TypeError /\
  token_required cfg_unset (env_at 1000) (with_token GET "/users" (issue_token key0 alice 1000) JNull)
    echo_view s0 = (inr token_invalid, s0).
Proof.
  apply (secret_key_unset _ _ _ _ "alice" "pw-a" alice _ _ _ (issue_token key0 alice 1000));
    [reflexivity|reflexivity|reflexivity|vm_compute; reflexivity|reflexivity].
Defined.
