(* ===== verification/Users.v ===== *)
(** * The user views of src/api.py

    [get_all_users], [get_one_user], [create_new_user], [update_user] and
    [delete_user] (api.py 106-196), each as a computation of the session
    monad [M], given the current user that [token_required] passes (and
    that none of them looks at), the path argument and the JSON body.
    The [update_user] model follows its three [try/except KeyError]
    blocks: an assignment happens when the key is present and its value
    truthy, and an assignment on [None] raises [AttributeError], which the
    [except KeyError] does not catch.  The section [Hashing] shows that
    every password these views write is a value of
    [generate_password_hash]. *)

From S2P Require Import Prelude PyValue Credentials Store Http Auth.

(** The dict a user becomes in the responses (api.py 116-121). *)
Definition json_of_opt_str (o : option string) : json :=
  match o with Some s => JStr s | None => JNull end.

Definition json_of_opt_bool (o : option bool) : json :=
  match o with Some b => JBool b | None => JNull end.

Definition user_json (u : user_row) : json :=
  JObj [("name", json_of_opt_str (u_name u)); ("public_id", JStr (u_public_id u));
        ("password", JStr (u_password u)); ("admin", json_of_opt_bool (u_admin u))].

Definition user_created : response :=
  jsonify (jmsg "message" (JStr "The user has been created!")) STATUS_CODE_201_CREATE.

Definition user_updated (user_id : string) : response :=
  jsonify (jmsg "message" (JStr ("User: " +:+ user_id +:+ " was successfull updated!")))
    STATUS_CODE_201_CREATE.

Definition user_deleted (user_id : string) : response :=
  jsonify (jmsg "message" (JStr ("User: " +:+ user_id +:+ " has been deleted!")))
    STATUS_CODE_202_ACCEPT.

Section Users.
Context `{PasswordHasher}.

(** [generate_password_hash(v, method='sha256')] (werkzeug 1.x): a
    [str] is hashed; [None] reaches [hmac.new(salt, None, ...)] as no
    message at all, the HMAC of the empty password; any other value
    raises [TypeError] in [hmac]. *)
Definition hash_password (v : json) (salt : string) : exn + string :=
  match v with
  | JStr pw => inr (generate_password_hash pw salt)
  | JNull => inr (generate_password_hash "" salt)
  | _ => inl TypeError
  end.

(** [get_all_users] (api.py 106-123).  The [if not users:] branch
    computes a response and drops it, so an empty table gives 200 too. *)
Definition get_all_users (current_user : option user_row) : M response :=
  users ← query_users (fun _ => true);
  mret (jsonify (jmsg "Users" (JList (map user_json users))) STATUS_CODE_200_SUCCESS).

(** [get_one_user] (api.py 126-142).  [not user] tests a Query object,
    which is always true in Python, so the 204 branch is never taken. *)
Definition get_one_user (current_user : option user_row) (user_id : string) : M response :=
  users ← query_users (user_has_public_id user_id);
  mret (jsonify (jmsg "message" (JList (map user_json users))) STATUS_CODE_200_SUCCESS).

(** [create_new_user] (api.py 145-158): admin is always [False]. *)
Definition create_new_user (e : env) (current_user : option user_row) (data : json)
    : M response :=
  pw ← se_of_sum (py_getitem data "password");
  hashed_password ← se_of_sum (hash_password pw (env_salt e));
  name ← se_of_sum (py_getitem data "name");
  session_add (AddUser (env_uuid e) name hashed_password (JBool false));;
  commit;;
  mret user_created.

(** [try: if data[k]: user.k = f(data[k]) except KeyError: pass]: the
    value assigned, if any. *)
Definition try_assign {A} (user : option user_row) (data : json) (k : string)
    (f : json -> exn + A) : M (option A) :=
  se_try_except is_key_error
    (v ← se_of_sum (py_getitem data k);
     if truthy v then
       a ← se_of_sum (f v);
       _ ← se_of_option AttributeError user;
       mret (Some a)
     else mret None)
    (fun _ => mret None).

(** [update_user] (api.py 161-186).  [if not user:] computes a response
    and drops it: the view goes on with [user = None]. *)
Definition update_user (e : env) (current_user : option user_row) (user_id : string)
    (data : json) : M response :=
  user ← query_first_user (user_has_public_id user_id);
  name ← try_assign user data "name" inr;
  password ← try_assign user data "password" (fun v => hash_password v (env_salt e));
  admin ← try_assign user data "admin" inr;
  match user with
  | Some u => session_add (SetUser (u_id u) name password admin)
  | None => mret tt
  end;;
  commit;;
  mret (user_updated user_id).

(** [delete_user] (api.py 189-196): no check that the user exists. *)
Definition delete_user (current_user : option user_row) (user_id : string) : M response :=
  user ← query_first_user (user_has_public_id user_id);
  session_delete_user user;;
  commit;;
  mret (user_deleted user_id).
End Users.

(** ** Properties *)

Section UserProps.
Context `{PasswordHasher}.

(** The outcome of one [try: if data[k]: user.k = ... except KeyError]
    block; the block does not touch the session. *)
Definition try_assign_outcome {A} (user : option user_row) (data : json) (k : string)
    (f : json -> exn + A) : exn + option A :=
  let r := match py_getitem data k with
           | inl ex => inl ex
           | inr v =>
               if truthy v then
                 match f v with
                 | inl ex => inl ex
                 | inr a => match user with Some _ => inr (Some a) | None => inl AttributeError end
                 end
               else inr None
           end in
  match r with
  | inl ex => if is_key_error ex then inr None else inl ex
  | inr o => inr o
  end.

Lemma run_try_assign {A} user data k (f : json -> exn + A) s :
  try_assign user data k f s = (try_assign_outcome user data k f, s).
Proof.
  unfold try_assign, try_assign_outcome. se_unfold.
  destruct (py_getitem data k) as [ex|v]; [by destruct (is_key_error ex)|].
  destruct (truthy v); [|done].
  destruct (f v) as [ex|a]; [by destruct (is_key_error ex)|]. by destruct user.
Qed.

(** [update_user] once the user is looked up and the three blocks have
    run. *)
Lemma run_update_user e cu user_id data s :
  let s1 := sess_log s (EvSelect TUser) in
  let user := head (List.filter (user_has_public_id user_id) (db_users (s_db s))) in
  update_user e cu user_id data s =
  match try_assign_outcome user data "name" inr,
        try_assign_outcome user data "password" (fun v => hash_password v (env_salt e)),
        try_assign_outcome user data "admin" inr with
  | inl ex, _, _ | inr _, inl ex, _ | inr _, inr _, inl ex => (inl ex, s1)
  | inr n, inr p, inr a =>
      let s2 := match user with
                | Some u => Sess (s_db s1) (s_pending s1 ++ [SetUser (u_id u) n p a]) (s_log s1)
                | None => s1
                end in
      match commit s2 with
      | (inl ex, s3) => (inl ex, s3)
      | (inr _, s3) => (inr (user_updated user_id), s3)
      end
  end.
Proof.
  cbv zeta. unfold update_user. se_unfold. rewrite run_query_first_user. cbv beta iota.
  rewrite !run_try_assign.
  destruct (try_assign_outcome _ data "name" _) as [ex|n]; [done|].
  destruct (try_assign_outcome _ data "password" _) as [ex|p]; [done|].
  destruct (try_assign_outcome _ data "admin" _) as [ex|a]; [done|].
  destruct (head _) as [u|]; [rewrite run_session_add|]; by destruct (commit _) as [[] ?].
Qed.

(** The run of [create_new_user]: the reads of the body, then one
    commit of the new row. *)
Lemma run_create_new_user e cu data s :
  create_new_user e cu data s =
  match py_getitem data "password" with
  | inl ex => (inl ex, s)
  | inr pw =>
      match hash_password pw (env_salt e) with
      | inl ex => (inl ex, s)
      | inr h =>
          match py_getitem data "name" with
          | inl ex => (inl ex, s)
          | inr name =>
              match commit (Sess (s_db s) (s_pending s ++ [AddUser (env_uuid e) name h (JBool false)])
                              (s_log s)) with
              | (inl ex, s') => (inl ex, s')
              | (inr _, s') => (inr user_created, s')
              end
          end
      end
  end.
Proof.
  unfold create_new_user. se_unfold. destruct (py_getitem data "password") as [ex|pw]; [done|].
  cbn. destruct (hash_password pw _) as [ex|h]; [done|]. cbn.
  destruct (py_getitem data "name") as [ex|name]; [done|]. cbn.
  by destruct (commit _) as [[] ?].
Qed.

(** C22: creating a user with a fresh [uuid4()] value appends one row:
    the next rowid, that public id, the name as stored text, the salted
    hash of the password, and [admin = False] whatever the body says;
    the response is 201. *)
Theorem create_new_user_adds e cu data s pw name name_col :
  s_pending s = [] ->
  py_getitem data "password" = inr (JStr pw) ->
  py_getitem data "name" = inr name ->
  text_column name = inr name_col ->
  (forall u, u ∈ db_users (s_db s) -> u_public_id u <> env_uuid e) ->
  create_new_user e cu data s =
  (inr user_created,
   Sess (DB (db_users (s_db s) ++
             [User (next_id u_id (db_users (s_db s))) (env_uuid e) name_col
                (generate_password_hash pw (env_salt e)) (Some false)])
            (db_todos (s_db s)))
        [] (s_log s ++ [EvCommit])).
Proof.
  intros Hpend Hpw Hname Hcol Hfresh. unfold create_new_user. se_unfold.
  rewrite Hpw. cbn [hash_password]. rewrite Hname, run_session_add, run_commit.
  cbn [s_db s_pending s_log]. rewrite Hpend. cbn [app apply_changes apply_change].
  rewrite Hcol. cbn [bool_column]. by rewrite existsb_public_id_fresh.
Qed.

(** C23: when [uuid4()] collides with an existing public id, the UNIQUE
    constraint fails at commit: [IntegrityError] (a 500) and nothing is
    written. *)
Theorem create_new_user_collision e cu data s pw name name_col u :
  s_pending s = [] ->
  py_getitem data "password" = inr (JStr pw) ->
  py_getitem data "name" = inr name ->
  text_column name = inr name_col ->
  u ∈ db_users (s_db s) -> u_public_id u = env_uuid e ->
  create_new_user e cu data s = (inl IntegrityError, Sess (s_db s) [] (s_log s ++ [EvCommit])).
Proof.
  intros Hpend Hpw Hname Hcol Hu Hp. unfold create_new_user. se_unfold.
  rewrite Hpw. cbn [hash_password]. rewrite Hname, run_session_add, run_commit.
  cbn [s_db s_pending s_log]. rewrite Hpend. cbn [app apply_changes apply_change].
  rewrite Hcol. cbn [bool_column]. by rewrite (existsb_public_id_taken _ u).
Qed.

Lemma try_assign_outcome_some {A} user data k (f : json -> exn + A) a :
  try_assign_outcome user data k f = inr (Some a) ->
  exists v, py_getitem data k = inr v /\ truthy v = true /\ f v = inr a.
Proof.
  unfold try_assign_outcome. intros Hr.
  destruct (py_getitem data k) as [ex|v]; [by destruct (is_key_error ex)|].
  destruct (truthy v) eqn:Ht; [|done].
  destruct (f v) as [ex|b] eqn:Hf; [by destruct (is_key_error ex)|].
  destruct user; [|done]. injection Hr as ->. eauto.
Qed.

Lemma try_assign_outcome_absent {A} user data k (f : json -> exn + A) :
  py_getitem data k = inl (KeyError k) -> try_assign_outcome user data k f = inr None.
Proof. unfold try_assign_outcome. by intros ->. Qed.

(** an update whose body has only a truthy [name] changes the name
    of that user and nothing else: password and admin flag stay, as do
    the other users and the todos; the answer is 201. *)
Theorem update_user_name_only e cu user_id data s u v name' :
  s_pending s = [] ->
  head (List.filter (user_has_public_id user_id) (db_users (s_db s))) = Some u ->
  py_getitem data "name" = inr v -> truthy v = true -> text_column v = inr name' ->
  py_getitem data "password" = inl (KeyError "password") ->
  py_getitem data "admin" = inl (KeyError "admin") ->
  update_user e cu user_id data s =
  (inr (user_updated user_id),
   Sess (DB (tbl_modify u_id (u_id u)
               (fun x => User (u_id x) (u_public_id x) name' (u_password x) (u_admin x))
               (db_users (s_db s)))
            (db_todos (s_db s)))
        [] ((s_log s ++ [EvSelect TUser]) ++ [EvCommit])).
Proof.
  intros Hp Hu Hn Ht Hc Hpw Ha. rewrite run_update_user. cbv zeta. rewrite Hu.
  rewrite (try_assign_outcome_absent _ data "password"),
    (try_assign_outcome_absent _ data "admin") by done.
  unfold try_assign_outcome at 1. rewrite Hn, Ht.
  rewrite run_commit. cbn [s_db s_pending s_log sess_log]. rewrite Hp.
  cbn [app apply_changes apply_change assigned]. by rewrite Hc.
Qed.

(** C24: [update_user] can raise the admin flag of a user but never
    clear it: a falsy [admin] is skipped, a truthy one can only be stored
    as [True]. *)
Theorem update_user_never_clears_admin e cu user_id data s x' :
  s_pending s = [] ->
  x' ∈ db_users (s_db (snd (update_user e cu user_id data s))) ->
  exists x, x ∈ db_users (s_db s) /\ u_id x = u_id x' /\
    (u_admin x' = u_admin x \/ u_admin x' = Some true).
Proof.
  intros Hp. rewrite run_update_user. cbv zeta.
  destruct (try_assign_outcome _ data "name" _) as [ex|n]; [cbn; eauto|].
  destruct (try_assign_outcome _ data "password" _) as [ex|pw]; [cbn; eauto|].
  destruct (try_assign_outcome _ data "admin" _) as [ex|a] eqn:Ha; [cbn; eauto|].
  destruct (head _) as [u|]; rewrite run_commit; cbn [s_db s_pending s_log sess_log];
    rewrite Hp; cbn [app apply_changes]; [|cbn; eauto].
  cbn [apply_change].
  destruct (assigned text_column n) as [ex|n']; [cbn; eauto|].
  destruct (assigned bool_column a) as [ex|a'] eqn:Ha'; [cbn; eauto|].
  cbn [snd s_db db_users]. intros (x & Hx & [->|[Hid ->]])%elem_of_tbl_modify; [eauto|].
  exists x. split; [done|]. split; [done|]. cbn.
  destruct a as [j|]; cbn in Ha'; [|injection Ha' as <-; by left].
  destruct (try_assign_outcome_some _ _ _ _ _ Ha) as (v & _ & Ht & [= ->]).
  destruct (bool_column j) as [|b] eqn:Hb; [done|]. injection Ha' as <-.
  right. by apply (bool_column_truthy j).
Qed.

(** C25: an update of an unknown public id with a truthy [name] tries to
    assign on [None]: [AttributeError], a 500, and nothing is written. *)
Theorem update_user_unknown_id_error e cu user_id data s v :
  head (List.filter (user_has_public_id user_id) (db_users (s_db s))) = None ->
  py_getitem data "name" = inr v -> truthy v = true ->
  update_user e cu user_id data s = (inl AttributeError, sess_log s (EvSelect TUser)).
Proof.
  intros Hu Hn Ht. rewrite run_update_user. cbv zeta. rewrite Hu.
  unfold try_assign_outcome at 1. by rewrite Hn, Ht.
Qed.

(** An update of an unknown public id whose body has none of the
    three keys commits nothing and still answers 201 "successfull
    updated". *)
Lemma update_user_unknown_id_noop e cu user_id data s :
  s_pending s = [] ->
  head (List.filter (user_has_public_id user_id) (db_users (s_db s))) = None ->
  py_getitem data "name" = inl (KeyError "name") ->
  py_getitem data "password" = inl (KeyError "password") ->
  py_getitem data "admin" = inl (KeyError "admin") ->
  update_user e cu user_id data s =
  (inr (user_updated user_id), Sess (s_db s) [] ((s_log s ++ [EvSelect TUser]) ++ [EvCommit])).
Proof.
  intros Hp Hu Hn Hpw Ha. rewrite run_update_user. cbv zeta. rewrite Hu.
  rewrite (try_assign_outcome_absent _ data "name"),
    (try_assign_outcome_absent _ data "password"),
    (try_assign_outcome_absent _ data "admin") by done.
  rewrite run_commit. cbn [s_db s_pending s_log sess_log]. by rewrite Hp.
Qed.

(** C27: deleting an unknown public id passes [None] to
    [db.session.delete]: [UnmappedInstanceError] (a 500), no commit. *)
Theorem delete_user_unknown cu user_id s :
  head (List.filter (user_has_public_id user_id) (db_users (s_db s))) = None ->
  delete_user cu user_id s = (inl UnmappedInstanceError, sess_log s (EvSelect TUser)).
Proof.
  intros Hu. unfold delete_user. se_unfold. rewrite run_query_first_user.
  cbv beta iota. by rewrite Hu.
Qed.

(** deleting an existing user removes that row only; the user's
    todos stay, still owned by the removed id. *)
Theorem delete_user_existing cu user_id s u :
  s_pending s = [] ->
  head (List.filter (user_has_public_id user_id) (db_users (s_db s))) = Some u ->
  delete_user cu user_id s =
  (inr (user_deleted user_id),
   Sess (DB (List.filter (fun x => negb (Z.eqb (u_id x) (u_id u))) (db_users (s_db s)))
            (db_todos (s_db s)))
        [] ((s_log s ++ [EvSelect TUser]) ++ [EvCommit])).
Proof.
  intros Hp Hu. unfold delete_user. se_unfold. rewrite run_query_first_user.
  cbv beta iota. rewrite Hu. cbn [session_delete_user]. rewrite run_session_add.
  rewrite run_commit. cbn [s_db s_pending s_log sess_log]. by rewrite Hp.
Qed.

(** C28: [GET /users] returns, for every stored user, a dict holding the
    user's password hash next to the public id. *)
Theorem get_all_users_exposes_hashes cu s u :
  u ∈ db_users (s_db s) ->
  exists j js,
    get_all_users cu s =
      (inr (jsonify (jmsg "Users" (JList js)) STATUS_CODE_200_SUCCESS),
       sess_log s (EvSelect TUser)) /\
    j ∈ js /\ py_getitem j "password" = inr (JStr (u_password u)) /\
    py_getitem j "public_id" = inr (JStr (u_public_id u)).
Proof.
  intros Hu. exists (user_json u), (map user_json (db_users (s_db s))).
  split_and!; [|by apply list_elem_of_fmap_2|done|done].
  unfold get_all_users. se_unfold. rewrite run_query_users. cbv beta iota.
  rewrite List.filter_true. reflexivity.
Qed.

(** C29: [GET /users/<id>] always answers 200: with the one user whose
    public id it is, or with an empty list; the 204 "User not found!"
    branch is dead. *)
Theorem get_one_user_result cu user_id s :
  wf_db (s_db s) ->
  get_one_user cu user_id s =
    (inr (jsonify (jmsg "message"
                     (JList (match head (List.filter (user_has_public_id user_id)
                                                (db_users (s_db s))) with
                             | Some u => [user_json u]
                             | None => []
                             end)))
            STATUS_CODE_200_SUCCESS),
     sess_log s (EvSelect TUser)).
Proof.
  intros (_ & Hpid & _). unfold get_one_user. se_unfold. rewrite run_query_users.
  cbv beta iota. unfold user_has_public_id.
  rewrite (filter_key_unique u_public_id user_id (db_users (s_db s)) Hpid) at 1.
  by destruct (head _).
Qed.

(** Every user view keeps the store invariant. *)
Lemma try_assign_pres {A} P user data k (f : json -> exn + A) :
  se_preserves (db_pred P) (try_assign user data k f).
Proof. unfold try_assign. se_preserves_auto. Qed.

Lemma get_all_users_wf cu : se_preserves (db_pred wf_db) (get_all_users cu).
Proof. unfold get_all_users. se_preserves_auto. Qed.

Lemma get_one_user_wf cu id : se_preserves (db_pred wf_db) (get_one_user cu id).
Proof. unfold get_one_user. se_preserves_auto. Qed.

Lemma create_new_user_wf e cu data : se_preserves (db_pred wf_db) (create_new_user e cu data).
Proof. unfold create_new_user. se_preserves_auto. Qed.

Lemma update_user_wf e cu id data : se_preserves (db_pred wf_db) (update_user e cu id data).
Proof. unfold update_user. se_preserves_auto; apply try_assign_pres. Qed.

Lemma delete_user_wf cu id : se_preserves (db_pred wf_db) (delete_user cu id).
Proof. unfold delete_user. se_preserves_auto. Qed.

(** A user view that raises has written nothing. *)
Lemma get_all_users_atomic cu : atomic (get_all_users cu).
Proof. unfold get_all_users. atomic_auto. Qed.

Lemma get_one_user_atomic cu id : atomic (get_one_user cu id).
Proof. unfold get_one_user. atomic_auto. Qed.

Lemma create_new_user_atomic e cu data : atomic (create_new_user e cu data).
Proof. unfold create_new_user. atomic_auto. Qed.

Lemma update_user_atomic e cu id data : atomic (update_user e cu id data).
Proof. unfold update_user. atomic_auto; apply try_assign_pres. Qed.

Lemma delete_user_atomic cu id : atomic (delete_user cu id).
Proof. unfold delete_user. atomic_auto. Qed.
End UserProps.

#[export] Hint Resolve get_all_users_wf get_one_user_wf create_new_user_wf update_user_wf
  delete_user_wf get_all_users_atomic get_one_user_atomic create_new_user_atomic
  update_user_atomic delete_user_atomic : api.

(** ** Stored passwords are hashes

    The spec (section 3) keeps a password hash, "never the plaintext":
    every [password] the views write comes out of
    [generate_password_hash]. *)
Section Hashing.
Context `{PasswordHasher}.

Definition stored_hash (h : string) : Prop :=
  exists pw salt, h = generate_password_hash pw salt.

(** The password a pending change writes, if any, is a hash. *)
Definition change_hashed (c : change) : Prop :=
  match c with
  | AddUser _ _ pw _ => stored_hash pw
  | SetUser _ _ (Some pw) _ => stored_hash pw
  | _ => True
  end.

Definition passwords_hashed (d : db) : Prop :=
  forall u, u ∈ db_users d -> stored_hash (u_password u).

Lemma hash_password_stored v salt h : hash_password v salt = inr h -> stored_hash h.
Proof. destruct v; cbn; intros Hh; try done; injection Hh as <-; by eexists _, _. Qed.

Lemma apply_change_hashed d c d' :
  passwords_hashed d -> change_hashed c -> apply_change d c = inr d' -> passwords_hashed d'.
Proof.
  intros Hd Hc Ha.
  destruct c as [pid nm pw adm|i nm pw adm|i|uid ds cp|i ds cp|i]; cbn in Ha, Hc.
  - destruct (text_column nm), (bool_column adm); try done.
    destruct (existsb _ _); [done|]. injection Ha as <-. intros u Hu.
    cbn in Hu. unfold tbl_insert in Hu. apply elem_of_app in Hu as [Hu|Hu%list_elem_of_singleton];
      [by apply Hd|by subst u].
  - destruct (assigned text_column nm), (assigned bool_column adm); try done.
    injection Ha as <-. intros u (x & Hx & [->|[_ ->]])%elem_of_tbl_modify; [by apply Hd|].
    destruct pw as [h|]; cbn; [done|by apply Hd].
  - injection Ha as <-. intros u Hu. apply Hd. cbn in Hu.
    apply list_elem_of_In, filter_In in Hu as [Hu _]. by apply list_elem_of_In.
  - destruct (text_column ds), (bool_column cp); try done. by injection Ha as <-.
  - destruct (assigned text_column ds), (assigned bool_column cp); try done. by injection Ha as <-.
  - by injection Ha as <-.
Qed.

Abbreviation hashed := (sess_pred passwords_hashed change_hashed).

Lemma commit_hashed : se_preserves hashed commit.
Proof. apply commit_spres. intros d c d'. apply apply_change_hashed. Qed.

#[local] Hint Resolve commit_hashed : api.

(** [try_assign] reads the body and leaves the session as it is. *)
Lemma try_assign_spres {A} (P : sess -> Prop) user data k (f : json -> exn + A) :
  se_preserves P (try_assign user data k f).
Proof. intros s Hs. by rewrite run_try_assign. Qed.

Lemma try_assign_hash_post user data salt :
  try_assign user data "password" (fun v => hash_password v salt)
    ⤳ (fun o => forall h, o = Some h -> stored_hash h).
Proof.
  intros s. rewrite run_try_assign. cbn [fst].
  destruct (try_assign_outcome _ _ _ _) as [ex|o] eqn:E; [done|]. intros h ->.
  apply try_assign_outcome_some in E as (v & _ & _ & Hv). by eapply hash_password_stored.
Qed.

Lemma get_all_users_hashed cu : se_preserves hashed (get_all_users cu).
Proof. unfold get_all_users. se_preserves_auto. Qed.

Lemma get_one_user_hashed cu id : se_preserves hashed (get_one_user cu id).
Proof. unfold get_one_user. se_preserves_auto. Qed.

Lemma create_new_user_hashed e cu data : se_preserves hashed (create_new_user e cu data).
Proof.
  unfold create_new_user. apply se_preserves_bind; [eauto with api|intros pw].
  apply (se_preserves_bind_post _ _ _ _ (se_post_of_sum _)); [eauto with api|intros h Hh].
  se_preserves_auto. apply session_add_spres. by apply (hash_password_stored pw (env_salt e)).
Qed.

Lemma update_user_hashed e cu id data : se_preserves hashed (update_user e cu id data).
Proof.
  unfold update_user. apply se_preserves_bind; [eauto with api|intros user].
  apply se_preserves_bind; [apply try_assign_spres|intros n].
  apply (se_preserves_bind_post _ _ _ _ (try_assign_hash_post _ _ _));
    [apply try_assign_spres|intros pw Hpw].
  apply se_preserves_bind; [apply try_assign_spres|intros a].
  se_preserves_auto. apply session_add_spres. destruct pw as [h|]; [by apply Hpw|done].
Qed.

Lemma delete_user_hashed cu id : se_preserves hashed (delete_user cu id).
Proof. unfold delete_user. se_preserves_auto. apply session_delete_user_spres. done. Qed.
End Hashing.

#[export] Hint Resolve commit_hashed get_all_users_hashed get_one_user_hashed
  create_new_user_hashed update_user_hashed delete_user_hashed : api.
#[export] Hint Extern 1 (change_hashed _) => exact I : api.

(** ** Witnesses, with the toy instances *)

#[local] Existing Instances toy_hasher toy_jwt.

Definition body_dave : json :=
  JObj [("name", JStr "dave"); ("password", JStr "pw-d"); ("admin", JBool true)].

Lemma create_new_user_adds_witness :
  create_new_user (env_at 1000) None body_dave s0 =
  (inr user_created,
   Sess (DB (db_users (s_db s0) ++
             [User (next_id u_id (db_users (s_db s0))) "uuid-new" (Some "dave")
                (generate_password_hash "pw-d" "salt-new") (Some false)])
            (db_todos (s_db s0)))
        [] (s_log s0 ++ [EvCommit])).
Proof.
  apply (create_new_user_adds (env_at 1000) None body_dave s0 "pw-d" (JStr "dave") (Some "dave"));
    try reflexivity.
  apply Forall_forall. by_decide.
Defined.

Lemma create_new_user_collision_witness :
  create_new_user (Env 1000 "pid-bob" "salt-new") None body_dave s0 =
  (inl IntegrityError, Sess (s_db s0) [] (s_log s0 ++ [EvCommit])).
Proof.
  apply (create_new_user_collision _ _ _ _ "pw-d" (JStr "dave") (Some "dave") bob);
    try reflexivity. by_decide.
Defined.

Lemma update_user_name_only_witness :
  update_user (env_at 1000) None "pid-alice" (jmsg "name" (JStr "alicia")) s0 =
  (inr (user_updated "pid-alice"),
   Sess (DB (tbl_modify u_id (u_id alice)
               (fun x => User (u_id x) (u_public_id x) (Some "alicia") (u_password x) (u_admin x))
               (db_users (s_db s0)))
            (db_todos (s_db s0)))
        [] ((s_log s0 ++ [EvSelect TUser]) ++ [EvCommit])).
Proof. apply (update_user_name_only _ _ _ _ _ _ (JStr "alicia")); reflexivity. Defined.

Lemma update_user_never_clears_admin_witness :
  exists x, x ∈ db_users (s_db s0) /\ u_id x = u_id bob /\
    (u_admin bob = u_admin x \/ u_admin bob = Some true).
Proof.
  apply (update_user_never_clears_admin (env_at 1000) None "pid-bob" (jmsg "admin" (JBool false)) s0);
    [reflexivity|by_decide].
Defined.

Lemma update_user_unknown_id_error_witness :
  update_user (env_at 1000) None "nobody" (jmsg "name" (JStr "x")) s0
  = (inl AttributeError, sess_log s0 (EvSelect TUser)).
Proof. apply (update_user_unknown_id_error _ _ _ _ _ (JStr "x")); reflexivity. Defined.

Lemma update_user_unknown_id_noop_witness :
  update_user (env_at 1000) None "nobody" (JObj []) s0
  = (inr (user_updated "nobody"), Sess (s_db s0) [] ((s_log s0 ++ [EvSelect TUser]) ++ [EvCommit])).
Proof. apply update_user_unknown_id_noop; reflexivity. Defined.

Lemma delete_user_unknown_witness :
  delete_user None "nobody" s0 = (inl UnmappedInstanceError, sess_log s0 (EvSelect TUser)).
Proof. apply delete_user_unknown. reflexivity. Defined.

Lemma delete_user_existing_witness :
  delete_user None "pid-bob" s0 =
  (inr (user_deleted "pid-bob"),
   Sess (DB (List.filter (fun x => negb (Z.eqb (u_id x) (u_id bob))) (db_users (s_db s0)))
            (db_todos (s_db s0)))
        [] ((s_log s0 ++ [EvSelect TUser]) ++ [EvCommit])).
Proof. apply delete_user_existing; reflexivity. Defined.

Lemma get_all_users_exposes_hashes_witness :
  exists j js,
    get_all_users None s0 =
      (inr (jsonify (jmsg "Users" (JList js)) STATUS_CODE_200_SUCCESS),
       sess_log s0 (EvSelect TUser)) /\
    j ∈ js /\ py_getitem j "password" = inr (JStr (u_password alice)) /\
    py_getitem j "public_id" = inr (JStr (u_public_id alice)).
Proof. apply get_all_users_exposes_hashes. by_decide. Defined.

Lemma get_one_user_result_witness :
  get_one_user None "pid-bob" s0 =
    (inr (jsonify (jmsg "message"
                     (JList (match head (List.filter (user_has_public_id "pid-bob")
                                                (db_users (s_db s0))) with
                             | Some u => [user_json u]
                             | None => []
                             end)))
            STATUS_CODE_200_SUCCESS),
     sess_log s0 (EvSelect TUser)).
Proof. apply get_one_user_result. by_decide. Defined.
