(* ===== verification/Todos.v ===== *)
(** * The todo views of src/api.py

    [get_all_todo], [get_one_todo], [create_todo], [update_todo] and
    [delete_todo] (api.py 199-268).  The path argument [todo_id] is a
    string: [get_one_todo] ignores it, [update_todo] converts it with
    [int()] and [delete_todo] passes it as it is to the query; both of the
    latter compare it with the OWNER column [user_id], not with the task
    id.  Reading [current_user.id] or [todo.id] on [None] raises
    [AttributeError]. *)

From S2P Require Import Prelude PyValue Credentials Store Http Auth Users.

(** The dict a todo becomes in the responses (api.py 205-209). *)
Definition todo_json (t : todo_row) : json :=
  JObj [("todo_id", JInt (t_id t)); ("description", json_of_opt_str (t_description t));
        ("complete", json_of_opt_bool (t_complete t))].

Definition todo_created : response :=
  jsonify (jmsg "to-do" (JStr "Task add successfully!")) STATUS_CODE_201_CREATE.

Definition todo_updated : response :=
  jsonify (jmsg "to-do" (JStr "Task updated successfully!")) STATUS_CODE_202_ACCEPT.

Definition todo_deleted : response :=
  jsonify (jmsg "to-do" (JStr "Task has been deleted!")) STATUS_CODE_202_ACCEPT.

Definition owned_by (uid : Z) (t : todo_row) : bool := Z.eqb (t_user_id t) uid.

(** [Todo.query.filter_by(user_id=todo_id)] with the path string: SQLite
    compares the text with the integer column under NUMERIC affinity. *)
Definition owned_by_text (todo_id : string) (t : todo_row) : bool :=
  match sqlite_int_affinity todo_id with
  | Some n => owned_by n t
  | None => false
  end.

(** [get_all_todo] (api.py 199-210): every todo of every user. *)
Definition get_all_todo (current_user : option user_row) : M response :=
  todo ← query_todos (fun _ => true);
  mret (jsonify (jmsg "all-to-do" (JList (map todo_json todo))) STATUS_CODE_200_SUCCESS).

(** [get_one_todo] (api.py 213-224): the first todo of the current user;
    [todo_id] is not used. *)
Definition get_one_todo (current_user : option user_row) (todo_id : string) : M response :=
  cu ← se_of_option AttributeError current_user;
  todo ← query_first_todo (owned_by (u_id cu));
  t ← se_of_option AttributeError todo;
  mret (jsonify (jmsg "all-to-do" (JList [todo_json t])) STATUS_CODE_200_SUCCESS).

(** [create_todo] (api.py 227-236): the owner is the current user. *)
Definition create_todo (current_user : option user_row) (data : json) : M response :=
  cu ← se_of_option AttributeError current_user;
  description ← se_of_sum (py_getitem data "description");
  complete ← se_of_sum (py_getitem data "complete");
  session_add (AddTodo (u_id cu) description complete);;
  commit;;
  mret todo_created.

(** [if data.get(k): todo.k = data.get(k)]: the value assigned, if any. *)
Definition get_assign (todo : option todo_row) (data : json) (k : string)
    : M (option json) :=
  v ← se_of_sum (py_dict_get data k);
  if truthy v then
    v' ← se_of_sum (py_dict_get data k);
    _ ← se_of_option AttributeError todo;
    mret (Some v')
  else mret None.

(** [update_todo] (api.py 239-257).  [if not todo:] builds a response and
    drops it. *)
Definition update_todo (current_user : option user_row) (todo_id : string) (data : json)
    : M response :=
  n ← se_of_sum (py_int_exn todo_id);
  p ← se_of_sum (int_param n);
  todo ← query_first_todo (owned_by p);
  description ← get_assign todo data "description";
  complete ← get_assign todo data "complete";
  match todo with
  | Some t => session_add (SetTodo (t_id t) description complete)
  | None => mret tt
  end;;
  commit;;
  mret todo_updated.

(** [delete_todo] (api.py 260-268): no check that the todo exists. *)
Definition delete_todo (current_user : option user_row) (todo_id : string) : M response :=
  todo ← query_first_todo (owned_by_text todo_id);
  session_delete_todo todo;;
  commit;;
  mret todo_deleted.

(** ** Properties *)

Definition get_assign_outcome (todo : option todo_row) (data : json) (k : string)
    : exn + option json :=
  match py_dict_get data k with
  | inl ex => inl ex
  | inr v =>
      if truthy v then
        match todo with Some _ => inr (Some v) | None => inl AttributeError end
      else inr None
  end.

Lemma run_get_assign todo data k s :
  get_assign todo data k s = (get_assign_outcome todo data k, s).
Proof.
  unfold get_assign, get_assign_outcome. se_unfold.
  destruct (py_dict_get data k) as [ex|v]; [done|].
  destruct (truthy v); [|done]. by destruct todo.
Qed.

Lemma get_assign_outcome_some todo data k v :
  get_assign_outcome todo data k = inr (Some v) ->
  py_dict_get data k = inr v /\ truthy v = true.
Proof.
  unfold get_assign_outcome. intros Hr.
  destruct (py_dict_get data k) as [ex|w]; [done|].
  destruct (truthy w) eqn:Ht; [|done]. destruct todo; [|done].
  by injection Hr as ->.
Qed.

(** [update_todo] once the path is converted and the todo looked up. *)
Lemma run_update_todo cu todo_id data s :
  update_todo cu todo_id data s =
  match py_int_exn todo_id with
  | inl ex => (inl ex, s)
  | inr n =>
      match int_param n with
      | inl ex => (inl ex, s)
      | inr p =>
          let s1 := sess_log s (EvSelect TTodo) in
          let todo := head (List.filter (owned_by p) (db_todos (s_db s))) in
          match get_assign_outcome todo data "description",
                get_assign_outcome todo data "complete" with
          | inl ex, _ | inr _, inl ex => (inl ex, s1)
          | inr d, inr c =>
              let s2 := match todo with
                        | Some t => Sess (s_db s1) (s_pending s1 ++ [SetTodo (t_id t) d c])
                                      (s_log s1)
                        | None => s1
                        end in
              match commit s2 with
              | (inl ex, s3) => (inl ex, s3)
              | (inr _, s3) => (inr todo_updated, s3)
              end
          end
      end
  end.
Proof.
  unfold update_todo. se_unfold.
  destruct (py_int_exn todo_id) as [ex|n]; [done|]. destruct (int_param n) as [ex|p]; [done|].
  rewrite run_query_first_todo. cbv beta iota zeta. rewrite !run_get_assign.
  destruct (get_assign_outcome _ data "description") as [ex|d]; [done|].
  destruct (get_assign_outcome _ data "complete") as [ex|c]; [done|].
  destruct (head _) as [t|]; [rewrite run_session_add|]; by destruct (commit _) as [[] ?].
Qed.

Lemma py_int_exn_str n : py_int_exn (py_str_int n) = inr n.
Proof. unfold py_int_exn. by rewrite py_int_py_str_int. Qed.

Lemma int_param_in_range n : in_int64 n = true -> int_param n = inr n.
Proof. unfold int_param. by intros ->. Qed.

(** a new todo is owned by the current user: one row is appended
    with the next rowid, [user_id = current_user.id], the description as
    stored text and the completion flag as stored boolean; answer 201. *)
Theorem create_todo_adds u data s d c d' c' :
  s_pending s = [] ->
  py_getitem data "description" = inr d -> py_getitem data "complete" = inr c ->
  text_column d = inr d' -> bool_column c = inr c' ->
  create_todo (Some u) data s =
  (inr todo_created,
   Sess (DB (db_users (s_db s))
            (db_todos (s_db s) ++ [Todo (next_id t_id (db_todos (s_db s))) (u_id u) d' c']))
        [] (s_log s ++ [EvCommit])).
Proof.
  intros Hp Hd Hc Hd' Hc'. unfold create_todo. se_unfold. rewrite Hd, Hc.
  rewrite run_session_add, run_commit. cbn [s_db s_pending s_log]. rewrite Hp.
  cbn [app apply_changes apply_change]. by rewrite Hd', Hc'.
Qed.

(** With [current_user = None] (a valid token of a deleted user),
    [create_todo] fails on [current_user.id]: [AttributeError], a 500,
    before any query. *)
Lemma create_todo_no_user data s : create_todo None data s = (inl AttributeError, s).
Proof. reflexivity. Qed.

(** [GET /todo/<id>] answers with the first todo of the CURRENT
    USER, whatever the id in the path; when the user has none, [todo.id]
    on [None] raises (500). *)
Theorem get_one_todo_first_of_caller u todo_id s :
  get_one_todo (Some u) todo_id s =
  match head (List.filter (owned_by (u_id u)) (db_todos (s_db s))) with
  | Some t => (inr (jsonify (jmsg "all-to-do" (JList [todo_json t])) STATUS_CODE_200_SUCCESS),
               sess_log s (EvSelect TTodo))
  | None => (inl AttributeError, sess_log s (EvSelect TTodo))
  end.
Proof.
  unfold get_one_todo. se_unfold. rewrite run_query_first_todo. cbv beta iota.
  by destruct (head _).
Qed.

(** C30: [PUT /todo/<n>] with a truthy description updates the first
    todo OWNED BY USER [n] (not the todo whose id is [n]); its completion
    flag stays when the body has no truthy [complete]. *)
Theorem update_todo_targets_owner cu n data s t v d' :
  s_pending s = [] -> in_int64 n = true ->
  head (List.filter (owned_by n) (db_todos (s_db s))) = Some t ->
  py_dict_get data "description" = inr v -> truthy v = true -> text_column v = inr d' ->
  py_dict_get data "complete" = inr JNull ->
  update_todo cu (py_str_int n) data s =
  (inr todo_updated,
   Sess (DB (db_users (s_db s))
            (tbl_modify t_id (t_id t)
               (fun x => Todo (t_id x) (t_user_id x) d' (t_complete x)) (db_todos (s_db s))))
        [] ((s_log s ++ [EvSelect TTodo]) ++ [EvCommit])).
Proof.
  intros Hp Hn Ht Hd Htr Hd' Hc. rewrite run_update_todo, py_int_exn_str.
  rewrite int_param_in_range by done. cbv zeta. rewrite Ht.
  unfold get_assign_outcome. rewrite Hd, Htr, Hc.
  cbn [truthy]. rewrite run_commit. cbn [s_db s_pending s_log sess_log]. rewrite Hp.
  cbn [app apply_changes apply_change assigned]. by rewrite Hd'.
Qed.

(** C31: [update_todo] never marks a task as not complete: a falsy
    [complete] is skipped, so the flag can only become [True]. *)
Theorem update_todo_never_uncompletes cu todo_id data s x' :
  s_pending s = [] ->
  x' ∈ db_todos (s_db (snd (update_todo cu todo_id data s))) ->
  exists x, x ∈ db_todos (s_db s) /\ t_id x = t_id x' /\
    (t_complete x' = t_complete x \/ t_complete x' = Some true).
Proof.
  intros Hp. rewrite run_update_todo.
  destruct (py_int_exn todo_id) as [ex|n]; [cbn; eauto|].
  destruct (int_param n) as [ex|p]; [cbn; eauto|]. cbv zeta.
  destruct (get_assign_outcome _ data "description") as [ex|d]; [cbn; eauto|].
  destruct (get_assign_outcome _ data "complete") as [ex|c] eqn:Hc; [cbn; eauto|].
  destruct (head _) as [t|]; rewrite run_commit; cbn [s_db s_pending s_log sess_log];
    rewrite Hp; cbn [app apply_changes]; [|cbn; eauto].
  cbn [apply_change].
  destruct (assigned text_column d) as [ex|d']; [cbn; eauto|].
  destruct (assigned bool_column c) as [ex|c'] eqn:Hc'; [cbn; eauto|].
  cbn [snd s_db db_todos]. intros (x & Hx & [->|[Hid ->]])%elem_of_tbl_modify; [eauto|].
  exists x. split; [done|]. split; [done|]. cbn.
  destruct c as [j|]; cbn in Hc'; [|injection Hc' as <-; by left].
  destruct (get_assign_outcome_some _ _ _ _ Hc) as (_ & Ht).
  destruct (bool_column j) as [|b] eqn:Hb; [done|]. injection Hc' as <-.
  right. by apply (bool_column_truthy j).
Qed.

(** A path that [int()] cannot read ([ValueError]) fails before any
    query and writes nothing. *)
Lemma update_todo_bad_path cu todo_id data s :
  py_int todo_id = None -> update_todo cu todo_id data s = (inl ValueError, s).
Proof. intros Hn. rewrite run_update_todo. unfold py_int_exn. by rewrite Hn. Qed.

(** C32: a path that reads as an integer outside 64 bits is refused when
    sqlite3 binds it ([OverflowError]): a 500, before any query. *)
Theorem update_todo_path_overflow cu todo_id data s n :
  py_int todo_id = Some n -> in_int64 n = false ->
  update_todo cu todo_id data s = (inl OverflowError, s).
Proof.
  intros Hn Hr. rewrite run_update_todo. unfold py_int_exn, int_param. by rewrite Hn, Hr.
Qed.

(** Deleting when no todo matches the path passes [None] to
    [db.session.delete]: [UnmappedInstanceError], a 500, no commit. *)
Lemma delete_todo_missing cu todo_id s :
  head (List.filter (owned_by_text todo_id) (db_todos (s_db s))) = None ->
  delete_todo cu todo_id s = (inl UnmappedInstanceError, sess_log s (EvSelect TTodo)).
Proof.
  intros Ht. unfold delete_todo. se_unfold. rewrite run_query_first_todo.
  cbv beta iota. by rewrite Ht.
Qed.

(** [DELETE /todo/<n>] removes the first todo owned by user [n]
    (not the todo whose id is [n]) and nothing else. *)
Theorem delete_todo_by_owner cu n s t :
  s_pending s = [] -> in_int64 n = true ->
  head (List.filter (owned_by n) (db_todos (s_db s))) = Some t ->
  delete_todo cu (py_str_int n) s =
  (inr todo_deleted,
   Sess (DB (db_users (s_db s))
            (List.filter (fun x => negb (Z.eqb (t_id x) (t_id t))) (db_todos (s_db s))))
        [] ((s_log s ++ [EvSelect TTodo]) ++ [EvCommit])).
Proof.
  intros Hp Hn Ht. unfold delete_todo. se_unfold. rewrite run_query_first_todo.
  cbv beta iota.
  assert (List.filter (owned_by_text (py_str_int n)) (db_todos (s_db s)) =
          List.filter (owned_by n) (db_todos (s_db s))) as ->.
  { apply List.filter_ext. intros x. unfold owned_by_text.
    by rewrite sqlite_int_affinity_str. }
  rewrite Ht. cbn [session_delete_todo]. rewrite run_session_add, run_commit.
  cbn [s_db s_pending s_log sess_log]. by rewrite Hp.
Qed.

(** [GET /todo] lists every todo of every user, whoever asks: the
    list is not restricted to the caller's tasks. *)
Theorem get_all_todo_lists_every_owner cu s t :
  t ∈ db_todos (s_db s) ->
  exists js,
    get_all_todo cu s = (inr (jsonify (jmsg "all-to-do" (JList js)) STATUS_CODE_200_SUCCESS),
                         sess_log s (EvSelect TTodo)) /\
    todo_json t ∈ js.
Proof.
  intros Ht. exists (map todo_json (db_todos (s_db s))). split; [|by apply list_elem_of_fmap_2].
  unfold get_all_todo. se_unfold. rewrite run_query_todos. cbv beta iota.
  by rewrite List.filter_true.
Qed.

(** C33: when no todo is owned by user [n], [if not todo:] builds a 204
    response and drops it, so a truthy [description] is assigned on
    [None]: [AttributeError], a 500, after one SELECT and with no commit.
    The spec says the update silently does nothing. *)
Theorem update_todo_missing_owner cu n data s v :
  in_int64 n = true ->
  head (List.filter (owned_by n) (db_todos (s_db s))) = None ->
  py_dict_get data "description" = inr v -> truthy v = true ->
  update_todo cu (py_str_int n) data s = (inl AttributeError, sess_log s (EvSelect TTodo)).
Proof.
  intros Hn Ht Hd Htr. rewrite run_update_todo, py_int_exn_str.
  rewrite int_param_in_range by done. cbv zeta. rewrite Ht.
  unfold get_assign_outcome at 1. by rewrite Hd, Htr.
Qed.

(** Every todo view keeps the store invariant. *)
Lemma get_assign_pres P todo data k : se_preserves (db_pred P) (get_assign todo data k).
Proof. unfold get_assign. se_preserves_auto. Qed.

Lemma get_all_todo_wf cu : se_preserves (db_pred wf_db) (get_all_todo cu).
Proof. unfold get_all_todo. se_preserves_auto. Qed.

Lemma get_one_todo_wf cu id : se_preserves (db_pred wf_db) (get_one_todo cu id).
Proof. unfold get_one_todo. se_preserves_auto. Qed.

Lemma create_todo_wf cu data : se_preserves (db_pred wf_db) (create_todo cu data).
Proof. unfold create_todo. se_preserves_auto. Qed.

Lemma update_todo_wf cu id data : se_preserves (db_pred wf_db) (update_todo cu id data).
Proof. unfold update_todo. se_preserves_auto; apply get_assign_pres. Qed.

Lemma delete_todo_wf cu id : se_preserves (db_pred wf_db) (delete_todo cu id).
Proof. unfold delete_todo. se_preserves_auto. Qed.

(** A todo view that raises has written nothing. *)
Lemma get_all_todo_atomic cu : atomic (get_all_todo cu).
Proof. unfold get_all_todo. atomic_auto. Qed.

Lemma get_one_todo_atomic cu id : atomic (get_one_todo cu id).
Proof. unfold get_one_todo. atomic_auto. Qed.

Lemma create_todo_atomic cu data : atomic (create_todo cu data).
Proof. unfold create_todo. atomic_auto. Qed.

Lemma update_todo_atomic cu id data : atomic (update_todo cu id data).
Proof. unfold update_todo. atomic_auto; apply get_assign_pres. Qed.

Lemma delete_todo_atomic cu id : atomic (delete_todo cu id).
Proof. unfold delete_todo. atomic_auto. Qed.

#[export] Hint Resolve get_all_todo_wf get_one_todo_wf create_todo_wf update_todo_wf
  delete_todo_wf get_all_todo_atomic get_one_todo_atomic create_todo_atomic
  update_todo_atomic delete_todo_atomic : api.

(** The todo views write no password: they keep the hash invariant of
    [Users]. *)
Section TodoHashing.
Context `{PasswordHasher}.

Lemma get_assign_spres (P : sess -> Prop) todo data k : se_preserves P (get_assign todo data k).
Proof. intros s Hs. by rewrite run_get_assign. Qed.

#[local] Hint Resolve get_assign_spres : api.

Lemma get_all_todo_hashed cu :
  se_preserves (sess_pred passwords_hashed change_hashed) (get_all_todo cu).
Proof. unfold get_all_todo. se_preserves_auto. Qed.

Lemma get_one_todo_hashed cu id :
  se_preserves (sess_pred passwords_hashed change_hashed) (get_one_todo cu id).
Proof. unfold get_one_todo. se_preserves_auto. Qed.

Lemma create_todo_hashed cu data :
  se_preserves (sess_pred passwords_hashed change_hashed) (create_todo cu data).
Proof. unfold create_todo. se_preserves_auto. Qed.

Lemma update_todo_hashed cu id data :
  se_preserves (sess_pred passwords_hashed change_hashed) (update_todo cu id data).
Proof. unfold update_todo. se_preserves_auto. Qed.

Lemma delete_todo_hashed cu id :
  se_preserves (sess_pred passwords_hashed change_hashed) (delete_todo cu id).
Proof. unfold delete_todo. se_preserves_auto. Qed.
End TodoHashing.

#[export] Hint Resolve get_all_todo_hashed get_one_todo_hashed create_todo_hashed
  update_todo_hashed delete_todo_hashed : api.

(** ** Witnesses *)

(** Todo 1 belongs to bob (user 3), todo 2 to alice (user 1). *)
Definition s1 : sess :=
  Sess (DB [alice; alice2; bob]
           [Todo 1 3 (Some "walk dog") (Some true); Todo 2 1 (Some "buy milk") (Some false)])
       [] [].

Definition body_milk : json :=
  JObj [("description", JStr "buy milk"); ("complete", JBool false)].

Lemma create_todo_adds_witness :
  create_todo (Some bob) body_milk s1 =
  (inr todo_created,
   Sess (DB (db_users (s_db s1))
            (db_todos (s_db s1) ++
             [Todo (next_id t_id (db_todos (s_db s1))) (u_id bob) (Some "buy milk") (Some false)]))
        [] (s_log s1 ++ [EvCommit])).
Proof. apply (create_todo_adds _ _ _ (JStr "buy milk") (JBool false)); reflexivity. Defined.

Lemma update_todo_targets_owner_witness :
  update_todo None (py_str_int 1) (jmsg "description" (JStr "buy oat milk")) s1 =
  (inr todo_updated,
   Sess (DB (db_users (s_db s1))
            (tbl_modify t_id 2
               (fun x => Todo (t_id x) (t_user_id x) (Some "buy oat milk") (t_complete x))
               (db_todos (s_db s1))))
        [] ((s_log s1 ++ [EvSelect TTodo]) ++ [EvCommit])).
Proof.
  apply (update_todo_targets_owner _ _ _ _ (Todo 2 1 (Some "buy milk") (Some false))
           (JStr "buy oat milk")); reflexivity.
Defined.

Lemma update_todo_never_uncompletes_witness :
  exists x, x ∈ db_todos (s_db s1) /\ t_id x = 1 /\
    (Some true = t_complete x \/ Some true = Some true).
Proof.
  apply (update_todo_never_uncompletes None "3" (jmsg "complete" (JBool false)) s1
           (Todo 1 3 (Some "walk dog") (Some true))); [reflexivity|by_decide].
Defined.

Lemma update_todo_bad_path_witness :
  update_todo None "abc" (JObj []) s1 = (inl ValueError, s1).
Proof. apply update_todo_bad_path. reflexivity. Defined.

Lemma update_todo_path_overflow_witness :
  update_todo None "99999999999999999999" (JObj []) s1 = (inl OverflowError, s1).
Proof. apply (update_todo_path_overflow _ _ _ _ 99999999999999999999); reflexivity. Defined.

Lemma delete_todo_missing_witness :
  delete_todo None "42" s1 = (inl UnmappedInstanceError, sess_log s1 (EvSelect TTodo)).
Proof. apply delete_todo_missing. reflexivity. Defined.

Lemma get_all_todo_lists_every_owner_witness :
  exists js,
    get_all_todo (Some alice) s1 =
      (inr (jsonify (jmsg "all-to-do" (JList js)) STATUS_CODE_200_SUCCESS),
       sess_log s1 (EvSelect TTodo)) /\
    todo_json (Todo 1 3 (Some "walk dog") (Some true)) ∈ js.
Proof. apply get_all_todo_lists_every_owner. by_decide. Defined.

Lemma delete_todo_by_owner_witness :
  delete_todo None (py_str_int 1) s1 =
  (inr todo_deleted,
   Sess (DB (db_users (s_db s1))
            (List.filter (fun x => negb (Z.eqb (t_id x) 2)) (db_todos (s_db s1))))
        [] ((s_log s1 ++ [EvSelect TTodo]) ++ [EvCommit])).
Proof.
  apply (delete_todo_by_owner _ _ _ (Todo 2 1 (Some "buy milk") (Some false))); reflexivity.
Defined.

Lemma update_todo_missing_owner_witness :
  update_todo None (py_str_int 2) body_milk s1 = (inl AttributeError, sess_log s1 (EvSelect TTodo)).
Proof. apply update_todo_missing_owner with (v := JStr "buy milk"); reflexivity. Defined.
