(* ===== verification/App.v ===== *)
(** * Routing, the error views and one request end to end

    Flask's URL map for the [@app.route] lines of src/api.py, the three
    error views [not_found], [internal_error] and [not_allowed] (api.py
    90-102), and [serve]: one request from the server to a response and
    the database after it.  An exception that escapes a view ends in the
    500 view; the session is then discarded, so only what was committed
    stays.  Flask answers [HEAD] like [GET] without a body and [OPTIONS]
    by itself.  [reachable] is the set of databases a sequence of
    requests can produce from the empty one. *)

From S2P Require Import Prelude PyValue Credentials Store Http Auth Users Todos.

(** ** Error views *)

Definition not_found : response :=
  jsonify (jmsg "OPS" (JStr "Route not found!")) STATUS_CODE_404_NOTFOUND.

Definition internal_error : response :=
  jsonify (jmsg "ERROR" (JStr "INTERNAL ERROR!")) STATUS_CODE_500_INTERNALERROR.

Definition not_allowed : response :=
  jsonify (jmsg "FAILED" (JStr "METHOD NOT ALLOWED!")) STATUS_CODE_405_NOTALLOWED.

(** ** The URL map *)

Inductive route : Type :=
| RLogin                    (** /login *)
| RUsers                    (** /users *)
| RUser (user_id : string)  (** /users/<user_id> *)
| RTodos                    (** /todo *)
| RTodo (todo_id : string). (** /todo/<todo_id> *)

(** The segments of a path, split at each [/]. *)
Fixpoint split_path_go (acc : string) (s : string) : list string :=
  match s with
  | EmptyString => [acc]
  | String c r =>
      if Ascii.eqb c "/" then acc :: split_path_go EmptyString r
      else split_path_go (acc +:+ String c EmptyString) r
  end.

Definition split_path (s : string) : list string := split_path_go EmptyString s.

(** A [<name>] converter matches one non-empty segment. *)
Definition match_route (path : string) : option route :=
  match split_path path with
  | [""; "login"] => Some RLogin
  | [""; "users"] => Some RUsers
  | [""; "users"; id] => if String.eqb id "" then None else Some (RUser id)
  | [""; "todo"] => Some RTodos
  | [""; "todo"; id] => if String.eqb id "" then None else Some (RTodo id)
  | _ => None
  end.

(** The methods of each rule ([methods=[...]] of its [@app.route]). *)
Definition route_methods (r : route) : list http_method :=
  match r with
  | RLogin => [POST]
  | RUsers | RTodos => [GET; POST]
  | RUser _ | RTodo _ => [GET; PUT; DELETE]
  end.

Definition method_name (m : http_method) : string :=
  match m with
  | GET => "GET" | POST => "POST" | PUT => "PUT" | DELETE => "DELETE"
  | HEAD => "HEAD" | OPTIONS => "OPTIONS" | OTHER s => s
  end.

(** Flask's automatic answer to [OPTIONS]. *)
Definition options_response (r : route) : response :=
  Response (BText "") STATUS_CODE_200_SUCCESS
    [("Allow", foldr (fun m acc => method_name m +:+ ", " +:+ acc) "OPTIONS"
                 (if decide (GET ∈ route_methods r) then HEAD :: route_methods r
                  else route_methods r))].

Section App.
Context `{PasswordHasher} `{JwtCodec}.

(** The view of a rule and method, under [token_required] for every
    rule but [/login]. *)
Definition view (cfg : config) (e : env) (rq : request) (r : route) (m : http_method)
    : option (M response) :=
  let data := rq_json rq in
  let protect fn := Some (token_required cfg e rq fn) in
  match r, m with
  | RLogin, POST => Some (login cfg e rq)
  | RUsers, GET => protect get_all_users
  | RUsers, POST => protect (fun cu => create_new_user e cu data)
  | RUser id, GET => protect (fun cu => get_one_user cu id)
  | RUser id, PUT => protect (fun cu => update_user e cu id data)
  | RUser id, DELETE => protect (fun cu => delete_user cu id)
  | RTodos, GET => protect get_all_todo
  | RTodos, POST => protect (fun cu => create_todo cu data)
  | RTodo id, GET => protect (fun cu => get_one_todo cu id)
  | RTodo id, PUT => protect (fun cu => update_todo cu id data)
  | RTodo id, DELETE => protect (fun cu => delete_todo cu id)
  | _, _ => None
  end.

(** Dispatch: 404 without a rule, Flask's answer to [OPTIONS], [HEAD]
    run as [GET], 405 for a method the rule does not list. *)
Definition dispatch (cfg : config) (e : env) (rq : request) : M response :=
  match match_route (rq_path rq) with
  | None => mret not_found
  | Some r =>
      match rq_method rq with
      | OPTIONS => mret (options_response r)
      | m =>
          let m' := if decide (m = HEAD) then GET else m in
          match view cfg e rq r m' with
          | Some v => v
          | None => mret not_allowed
          end
      end
  end.

Record outcome : Type := Outcome {
  out_response : response;
  out_db : db;
  out_log : list event
}.

(** Werkzeug sends no body in answer to [HEAD], whatever the response. *)
Definition finalize (rq : request) (r : response) : response :=
  if decide (rq_method rq = HEAD) then Response (BText "") (rs_status r) (rs_headers r) else r.

(** One request on database [d]: an uncaught exception becomes the 500
    view; the session is dropped, the database keeps what was committed. *)
Definition serve (cfg : config) (e : env) (rq : request) (d : db) : outcome :=
  match dispatch cfg e rq (Sess d [] []) with
  | (inr r, s) => Outcome (finalize rq r) (s_db s) (s_log s)
  | (inl _, s) => Outcome (finalize rq internal_error) (s_db s) (s_log s)
  end.

(** The databases a sequence of requests can produce. *)
Inductive reachable (cfg : config) : db -> Prop :=
| reachable_empty : reachable cfg empty_db
| reachable_step d e rq : reachable cfg d -> reachable cfg (out_db (serve cfg e rq d)).
End App.

(** ** Properties *)

Section AppProps.
Context `{PasswordHasher} `{JwtCodec}.

Lemma finalize_not_head rq r : rq_method rq <> HEAD -> finalize rq r = r.
Proof. intros Hm. unfold finalize. by rewrite decide_False. Qed.

(** A property of the views of the URL map, one rule and method at a
    time: the goal for the computation [v] that [view] gives. *)
Ltac view_cases :=
  match goal with
  | |- view _ _ _ ?r ?m = Some _ -> _ =>
      unfold view; intros Hv; destruct r, m; try discriminate; injection Hv as <-
  end.

(** A property of [dispatch] from the same property of the views
    ([Hview]) and of the error views (by [api]). *)
Ltac dispatch_cases Hview :=
  unfold dispatch; destruct (match_route _) as [r|]; [|eauto with api];
  destruct (rq_method _); try (destruct (view _ _ _ _ _) eqn:Hv;
    [by eapply Hview|eauto with api]); eauto with api.

Lemma view_wf cfg e rq r m v :
  view cfg e rq r m = Some v -> se_preserves (db_pred wf_db) v.
Proof. view_cases; eauto with api. Qed.

Lemma dispatch_wf cfg e rq : se_preserves (db_pred wf_db) (dispatch cfg e rq).
Proof. dispatch_cases view_wf. Qed.

Lemma serve_wf cfg e rq d : wf_db d -> wf_db (out_db (serve cfg e rq d)).
Proof.
  intros Hd. pose proof (dispatch_wf cfg e rq (Sess d [] []) Hd) as Hs.
  unfold serve. destruct (dispatch cfg e rq (Sess d [] [])) as [[ex|r] s]; done.
Qed.

Lemma view_atomic cfg e rq r m v : view cfg e rq r m = Some v -> atomic v.
Proof. view_cases; eauto with api. Qed.

Lemma dispatch_atomic cfg e rq : atomic (dispatch cfg e rq).
Proof. dispatch_cases view_atomic. Qed.

(** Every answer of a view, of dispatch and of the error views has a
    one-key JSON body or a text body. *)
Lemma view_shape cfg e rq r m v :
  view cfg e rq r m = Some v -> v ⤳ (fun r => single_key_body r = true).
Proof.
  view_cases; [apply login_shape|..]; apply token_required_shape; intros cu;
    unfold get_all_users, get_one_user, create_new_user, update_user, delete_user,
      get_all_todo, get_one_todo, create_todo, update_todo, delete_todo;
    se_post_auto.
Qed.

Lemma dispatch_shape cfg e rq : dispatch cfg e rq ⤳ (fun r => single_key_body r = true).
Proof. dispatch_cases view_shape. Qed.

(** Every view, and so every request, stores only hashed passwords. *)
Lemma view_hashed cfg e rq r m v :
  view cfg e rq r m = Some v -> se_preserves (sess_pred passwords_hashed change_hashed) v.
Proof. view_cases; eauto with api. Qed.

Lemma dispatch_hashed cfg e rq :
  se_preserves (sess_pred passwords_hashed change_hashed) (dispatch cfg e rq).
Proof. dispatch_cases view_hashed. Qed.

Lemma serve_hashed cfg e rq d :
  passwords_hashed d -> passwords_hashed (out_db (serve cfg e rq d)).
Proof.
  intros Hd. destruct (dispatch_hashed cfg e rq (Sess d [] []) (conj Hd (List.Forall_nil _))) as [Hs _].
  unfold serve. by destruct (dispatch cfg e rq (Sess d [] [])) as [[ex|r] s].
Qed.

(** C34: every database reachable from the empty one by any sequence of
    requests satisfies the store invariant: user and todo ids strictly
    increasing in rowid order and public ids unique. *)
Theorem reachable_wf cfg d : reachable cfg d -> wf_db d.
Proof.
  induction 1 as [|d e rq _ IH]; [by_decide|]. by apply serve_wf.
Qed.

(** C26: no reachable database holds a plaintext password: every
    [password] of every user, whatever requests came before, is a value
    of [generate_password_hash] (spec, section 3). *)
Theorem reachable_passwords_hashed cfg d : reachable cfg d -> passwords_hashed d.
Proof.
  induction 1 as [|d e rq _ IH]; [by intros u Hu%elem_of_nil|]. by apply serve_hashed.
Qed.

Lemma view_protected cfg e rq r m :
  r <> RLogin -> m ∈ route_methods r ->
  exists fn, view cfg e rq r m = Some (token_required cfg e rq fn).
Proof.
  intros Hr Hm. destruct r; [done|..]; cbn in Hm;
    repeat (apply elem_of_cons in Hm as [->|Hm]; [by eexists|]);
    by apply elem_of_nil in Hm.
Qed.

Lemma listed_method_not_head_options r m :
  m ∈ route_methods r -> m <> HEAD /\ m <> OPTIONS.
Proof.
  intros Hm. destruct r; cbn in Hm;
    repeat (apply elem_of_cons in Hm as [->|Hm]; [done|]); by apply elem_of_nil in Hm.
Qed.

(** Dispatch of a method other than [HEAD] and [OPTIONS]. *)
Lemma dispatch_plain cfg e rq r :
  match_route (rq_path rq) = Some r -> rq_method rq <> HEAD -> rq_method rq <> OPTIONS ->
  dispatch cfg e rq =
  match view cfg e rq r (rq_method rq) with Some v => v | None => mret not_allowed end.
Proof.
  intros Hr Hhead Hopt. unfold dispatch. rewrite Hr.
  destruct (rq_method rq); try done; cbv zeta; by rewrite decide_False.
Qed.

Lemma dispatch_listed cfg e rq r :
  match_route (rq_path rq) = Some r -> rq_method rq ∈ route_methods r ->
  dispatch cfg e rq =
  match view cfg e rq r (rq_method rq) with Some v => v | None => mret not_allowed end.
Proof.
  intros Hr Hm. destruct (listed_method_not_head_options _ _ Hm) as [Hhead Hopt].
  by apply dispatch_plain.
Qed.

(** C35: a request to any protected rule, with a method the rule lists
    and no [X-Access-Token] header, is answered "Token is missing!"
    (status 200) with no statement sent to the database. *)
Theorem serve_missing_token cfg e rq d r :
  match_route (rq_path rq) = Some r -> r <> RLogin ->
  rq_method rq ∈ route_methods r ->
  header_lookup "X-Access-Token" (rq_headers rq) = None ->
  serve cfg e rq d = Outcome token_missing d [].
Proof.
  intros Hr Hlogin Hm Hh. destruct (listed_method_not_head_options _ _ Hm) as [Hhead _].
  destruct (view_protected cfg e rq r _ Hlogin Hm) as [fn Hv].
  unfold serve. rewrite (dispatch_listed _ _ _ _ Hr Hm), Hv.
  unfold token_required at 1. rewrite Hh. cbn. by rewrite finalize_not_head.
Qed.

(** C36: the user views check no permission: any unexpired token, that
    of a non-admin user or of a deleted one alike, lets its holder make
    any user an administrator with [PUT /users/<public_id>] and body
    [{"admin": true}]. *)
Theorem any_token_grants_admin cfg e rq d k u t0 v :
  cfg_secret_key cfg = Some k -> wf_db d -> v ∈ db_users d ->
  match_route (rq_path rq) = Some (RUser (u_public_id v)) -> rq_method rq = PUT ->
  header_lookup "X-Access-Token" (rq_headers rq) = Some (issue_token k u t0) ->
  env_now e < t0 + token_lifetime ->
  rq_json rq = jmsg "admin" (JBool true) ->
  out_response (serve cfg e rq d) = user_updated (u_public_id v) /\
  User (u_id v) (u_public_id v) (u_name v) (u_password v) (Some true)
    ∈ db_users (out_db (serve cfg e rq d)).
Proof.
  intros Hk (_ & Hpid & _) Hv Hr Hm Hh Hnow Hdata.
  assert (rq_method rq ∈ route_methods (RUser (u_public_id v))) as Hl
    by (rewrite Hm; by_decide).
  unfold serve. rewrite (dispatch_listed _ _ _ _ Hr Hl), Hm. cbn [view].
  rewrite (run_token_required _ _ _ _ _ _ Hh), Hk, token_public_id_issue.
  rewrite (proj2 (Z.ltb_lt _ _) Hnow). rewrite run_update_user. cbv zeta.
  cbn [sess_log s_db]. unfold user_has_public_id.
  rewrite (head_filter_unique u_public_id _ v Hpid Hv), Hdata.
  cbn [try_assign_outcome py_getitem jmsg dict_lookup]. cbn.
  rewrite finalize_not_head by (rewrite Hm; done). split; [done|].
  by apply (elem_of_tbl_modify_2 u_id (u_id v)
    (fun x => User (u_id x) (u_public_id x) (u_name x) (u_password x) (Some true))).
Qed.

(** A path that matches no rule is answered by the 404 view
    ["Route not found!"] without touching the database. *)
Lemma serve_unknown_route cfg e rq d :
  rq_method rq <> HEAD -> match_route (rq_path rq) = None ->
  serve cfg e rq d = Outcome not_found d [].
Proof.
  intros Hhead Hr. unfold serve, dispatch. rewrite Hr. cbn. by rewrite finalize_not_head.
Qed.

Lemma view_unlisted cfg e rq r m :
  m ∉ route_methods r -> view cfg e rq r m = None.
Proof. intros Hm. destruct r, m; try done; exfalso; apply Hm; by_decide. Qed.

(** A method the rule does not list (other than [HEAD] and
    [OPTIONS], which Flask answers itself) gets the 405 view, before
    [token_required] or any query. *)
Lemma serve_method_not_allowed cfg e rq d r :
  match_route (rq_path rq) = Some r ->
  rq_method rq <> HEAD -> rq_method rq <> OPTIONS -> rq_method rq ∉ route_methods r ->
  serve cfg e rq d = Outcome not_allowed d [].
Proof.
  intros Hr Hhead Hopt Hm. unfold serve.
  rewrite (dispatch_plain _ _ _ _ Hr Hhead Hopt), view_unlisted by done.
  cbn. by rewrite finalize_not_head.
Qed.

(** C38: every answer of the application, the error views included,
    has a JSON body that is an object with exactly one key, or a text
    body (the [make_response] answers of [login], and the empty body of
    [HEAD] and [OPTIONS]); no request gets a JSON list, scalar or a
    many-key object at the top level. *)
Theorem serve_single_key_body cfg e rq d :
  single_key_body (out_response (serve cfg e rq d)) = true.
Proof.
  pose proof (dispatch_shape cfg e rq (Sess d [] [])) as Hs. unfold serve, finalize.
  destruct (dispatch _ _ _ _) as [[ex|r] s]; cbn in Hs |- *; by case_decide.
Qed.

(** C39: a request whose view raises is answered by the 500 view and
    leaves the database exactly as it was: no view commits part of its
    work before failing. *)
Theorem serve_exception_rolls_back cfg e rq d ex s :
  dispatch cfg e rq (Sess d [] []) = (inl ex, s) ->
  serve cfg e rq d = Outcome (finalize rq internal_error) d (s_log s).
Proof.
  intros Hd. unfold serve. rewrite Hd.
  by rewrite (dispatch_atomic cfg e rq (Sess d [] []) ex s Hd).
Qed.
(** [POST /users] with an unexpired token and a body with a [str] name
    and password appends the new user's row. *)
Lemma serve_create_new_user cfg e rq d k u t0 name pw :
  cfg_secret_key cfg = Some k ->
  match_route (rq_path rq) = Some RUsers -> rq_method rq = POST ->
  header_lookup "X-Access-Token" (rq_headers rq) = Some (issue_token k u t0) ->
  env_now e < t0 + token_lifetime ->
  py_getitem (rq_json rq) "password" = inr (JStr pw) ->
  py_getitem (rq_json rq) "name" = inr (JStr name) ->
  (forall v, v ∈ db_users d -> u_public_id v <> env_uuid e) ->
  serve cfg e rq d =
  Outcome user_created
    (DB (db_users d ++ [User (next_id u_id (db_users d)) (env_uuid e) (Some name)
                          (generate_password_hash pw (env_salt e)) (Some false)])
        (db_todos d))
    [EvSelect TUser; EvCommit].
Proof.
  intros Hk Hr Hm Hh Hnow Hpw Hname Hfresh.
  assert (rq_method rq ∈ route_methods RUsers) as Hl by (rewrite Hm; by_decide).
  unfold serve. rewrite (dispatch_listed _ _ _ _ Hr Hl), Hm. cbn [view].
  rewrite (run_token_required _ _ _ _ _ _ Hh), Hk, token_public_id_issue.
  rewrite (proj2 (Z.ltb_lt _ _) Hnow), run_create_new_user, Hpw. cbn [hash_password].
  rewrite Hname, run_commit. cbn. rewrite existsb_public_id_fresh by done.
  cbn. by rewrite finalize_not_head by (rewrite Hm; done).
Qed.

(** C37: an account created through [POST /users] with a name no other
    account has can log in: a later [POST /login] with that name and
    password answers with a token, and until the token expires
    [token_required] resolves it to the new account. *)
Theorem created_user_can_log_in cfg e e' e'' rq rql d k u t0 name pw :
  cfg_secret_key cfg = Some k ->
  match_route (rq_path rq) = Some RUsers -> rq_method rq = POST ->
  header_lookup "X-Access-Token" (rq_headers rq) = Some (issue_token k u t0) ->
  env_now e < t0 + token_lifetime ->
  py_getitem (rq_json rq) "password" = inr (JStr pw) ->
  py_getitem (rq_json rq) "name" = inr (JStr name) ->
  (forall v, v ∈ db_users d -> u_public_id v <> env_uuid e /\ user_has_name name v = false) ->
  match_route (rq_path rql) = Some RLogin -> rq_method rql = POST ->
  basic_credentials (rq_authorization rql) = Some (name, pw) ->
  env_now e'' < env_now e' + token_lifetime ->
  let d' := out_db (serve cfg e rq d) in
  let new := User (next_id u_id (db_users d)) (env_uuid e) (Some name)
               (generate_password_hash pw (env_salt e)) (Some false) in
  exists tok,
    out_response (serve cfg e' rql d') = jsonify (jmsg "token" (JStr tok)) STATUS_CODE_200_SUCCESS /\
    forall rq2 fn s2, s_db s2 = d' ->
      header_lookup "X-Access-Token" (rq_headers rq2) = Some tok ->
      token_required cfg e'' rq2 fn s2 = fn (Some new) (sess_log s2 (EvSelect TUser)).
Proof.
  intros Hk Hr Hm Hh Hnow Hpw Hname Hd Hrl Hml Hc Hnow'. cbv zeta.
  rewrite (serve_create_new_user cfg e rq d k u t0 name pw Hk Hr Hm Hh Hnow Hpw Hname);
    [|intros v Hv; apply (Hd v Hv)]. cbn [out_db].
  set (new := User _ _ _ _ _).
  assert (head (List.filter (user_has_name name) (db_users d ++ [new])) = Some new) as Hu.
  { apply head_filter_snoc; [intros v Hv; apply (Hd v Hv)|]. cbn. apply String.eqb_refl. }
  exists (issue_token k new (env_now e')). split.
  - assert (rq_method rql ∈ route_methods RLogin) as Hl by (rewrite Hml; by_decide).
    unfold serve. rewrite (dispatch_listed _ _ _ _ Hrl Hl), Hml. cbn [view].
    rewrite (login_first_named _ _ _ _ name pw new k) by (done || apply check_generate).
    cbn. by rewrite finalize_not_head by (rewrite Hml; done).
  - intros rq2 fn s2 Hs2 Hh2. rewrite (run_token_required _ _ _ _ _ _ Hh2), Hk.
    rewrite token_public_id_issue, (proj2 (Z.ltb_lt _ _) Hnow'), Hs2. cbn [db_users].
    unfold user_has_public_id. rewrite head_filter_snoc; [done| |by apply String.eqb_refl].
    intros y Hy. apply String.eqb_neq, (Hd y Hy).
Qed.
(** The DELETE of an existing user through [serve]. *)
Lemma serve_delete_user cfg e rq d k u t0 pid v :
  cfg_secret_key cfg = Some k ->
  match_route (rq_path rq) = Some (RUser pid) -> rq_method rq = DELETE ->
  header_lookup "X-Access-Token" (rq_headers rq) = Some (issue_token k u t0) ->
  env_now e < t0 + token_lifetime ->
  head (List.filter (user_has_public_id pid) (db_users d)) = Some v ->
  out_db (serve cfg e rq d) =
  DB (List.filter (fun x => negb (Z.eqb (u_id x) (u_id v))) (db_users d)) (db_todos d).
Proof.
  intros Hk Hr Hm Hh Hnow Hv.
  assert (rq_method rq ∈ route_methods (RUser pid)) as Hl by (rewrite Hm; by_decide).
  unfold serve. rewrite (dispatch_listed _ _ _ _ Hr Hl), Hm. cbn [view].
  rewrite (run_token_required _ _ _ _ _ _ Hh), Hk, token_public_id_issue.
  rewrite (proj2 (Z.ltb_lt _ _) Hnow). by rewrite (delete_user_existing _ _ _ v).
Qed.

(** C40: SQLite hands out a deleted last rowid again, and deleting a
    user leaves its todos: when the user [v] with the largest id, which
    got [max + 1] when it was created, is deleted through the API and a
    user is created next, the new user has [v]'s id and owns every todo
    [v] owned. *)
Theorem deleted_user_todos_inherited cfg e1 e2 rq1 rq2 d k u t0 us v t name pw :
  cfg_secret_key cfg = Some k -> wf_db d ->
  db_users d = us ++ [v] -> u_id v = next_id u_id us ->
  t ∈ db_todos d -> t_user_id t = u_id v ->
  match_route (rq_path rq1) = Some (RUser (u_public_id v)) -> rq_method rq1 = DELETE ->
  header_lookup "X-Access-Token" (rq_headers rq1) = Some (issue_token k u t0) ->
  env_now e1 < t0 + token_lifetime ->
  match_route (rq_path rq2) = Some RUsers -> rq_method rq2 = POST ->
  header_lookup "X-Access-Token" (rq_headers rq2) = Some (issue_token k u t0) ->
  env_now e2 < t0 + token_lifetime ->
  py_getitem (rq_json rq2) "password" = inr (JStr pw) ->
  py_getitem (rq_json rq2) "name" = inr (JStr name) ->
  (forall w, w ∈ db_users d -> u_public_id w <> env_uuid e2) ->
  let d2 := out_db (serve cfg e2 rq2 (out_db (serve cfg e1 rq1 d))) in
  exists w, w ∈ db_users d2 /\ u_public_id w = env_uuid e2 /\ u_id w = u_id v /\
    t ∈ db_todos d2 /\ t_user_id t = u_id w.
Proof.
  intros Hk (Hs & Hp & _) Hd Hv Ht Htu Hr1 Hm1 Hh1 Hn1 Hr2 Hm2 Hh2 Hn2 Hpw Hname Hfresh. cbv zeta.
  assert (Hhead : head (List.filter (user_has_public_id (u_public_id v)) (db_users d)) = Some v).
  { apply head_filter_unique; [done|]. rewrite Hd. set_solver. }
  rewrite (serve_delete_user cfg e1 rq1 d k u t0 _ v Hk Hr1 Hm1 Hh1 Hn1 Hhead).
  rewrite (serve_create_new_user cfg e2 rq2 _ k u t0 name pw); try done.
  2:{ intros w Hw%list_elem_of_In. apply Hfresh, list_elem_of_In. cbn in Hw.
      by apply filter_In in Hw as [Hw _]. }
  cbn [out_db db_users db_todos]. rewrite Hd in Hs |- *.
  rewrite (rowid_reused_after_delete_last us v Hs Hv).
  eexists. split; [apply elem_of_app; right; apply list_elem_of_singleton; reflexivity|].
  by split_and!.
Qed.
End AppProps.
(** ** Scenarios and witnesses, with the toy instances *)

#[local] Existing Instances toy_hasher toy_jwt.

Definition tok_alice : string := issue_token key0 alice 1000.

(** the spec's scenario: alice logs in with her password and gets a
    token; [GET /users] with that token answers 200 with a list that holds
    alice. *)
Theorem scenario_login_then_list :
  out_response (serve cfg0 (env_at 1000) (rq_login "alice" "pw-a") db0)
    = jsonify (jmsg "token" (JStr tok_alice)) STATUS_CODE_200_SUCCESS /\
  exists js,
    out_response (serve cfg0 (env_at 2000) (with_token GET "/users" tok_alice JNull) db0)
      = jsonify (jmsg "Users" (JList js)) STATUS_CODE_200_SUCCESS /\
    user_json alice ∈ js.
Proof.
  split; [vm_compute; reflexivity|]. eexists. split; [vm_compute; reflexivity|].
  apply list_elem_of_here.
Qed.

Definition eve_body : json := JObj [("name", JStr "eve"); ("password", JStr "pw-e")].
Definition eve : user_row := User 3 "pid-eve" (Some "eve") (toy_hash "pw-e" "salt-e") (Some false).

(** Bob (user 3, the last one, owner of todo 1) is deleted; eve is
    created next. *)
Lemma deleted_user_todos_inherited_witness :
  exists w,
    w ∈ db_users (out_db (serve cfg0 (Env 1001 "pid-eve" "salt-e") (with_token POST "/users" tok_alice eve_body)
                  (out_db (serve cfg0 (env_at 1000) (with_token DELETE "/users/pid-bob" tok_alice JNull) (s_db s1))))) /\
    u_public_id w = "pid-eve" /\ u_id w = u_id bob /\
    Todo 1 3 (Some "walk dog") (Some true) ∈
      db_todos (out_db (serve cfg0 (Env 1001 "pid-eve" "salt-e") (with_token POST "/users" tok_alice eve_body)
                  (out_db (serve cfg0 (env_at 1000) (with_token DELETE "/users/pid-bob" tok_alice JNull) (s_db s1))))) /\
    t_user_id (Todo 1 3 (Some "walk dog") (Some true)) = u_id w.
Proof.
  apply (deleted_user_todos_inherited cfg0 (env_at 1000) (Env 1001 "pid-eve" "salt-e")
           (with_token DELETE "/users/pid-bob" tok_alice JNull) (with_token POST "/users" tok_alice eve_body)
           (s_db s1) key0 alice 1000 [alice; alice2] bob _ "eve" "pw-e");
    try reflexivity; try by_decide.
  intros w Hw. apply list_elem_of_In in Hw. cbn in Hw.
    destruct Hw as [<-|[<-|[<-|[]]]]; discriminate.
Defined.

Lemma reachable_wf_witness :
  wf_db (out_db (serve cfg0 (env_at 1000)
                   (with_token POST "/users" tok_alice eve_body) empty_db)).
Proof. apply (reachable_wf cfg0). apply reachable_step, reachable_empty. Defined.

Lemma reachable_passwords_hashed_witness :
  passwords_hashed (out_db (serve cfg0 (env_at 1000)
                              (with_token POST "/users" tok_alice eve_body) empty_db)).
Proof. apply (reachable_passwords_hashed cfg0). apply reachable_step, reachable_empty. Defined.

Lemma serve_missing_token_witness :
  serve cfg0 (env_at 1000) (no_token GET "/todo" JNull) db0 = Outcome token_missing db0 [].
Proof. apply (serve_missing_token _ _ _ _ RTodos); [reflexivity|discriminate|by_decide|reflexivity]. Defined.

Definition promote_rq : request :=
  with_token PUT "/users/pid-alice2" (issue_token key0 carol 900) (jmsg "admin" (JBool true)).

Lemma any_token_grants_admin_witness :
  out_response (serve cfg0 (env_at 1000) promote_rq db0) = user_updated (u_public_id alice2) /\
  User (u_id alice2) (u_public_id alice2) (u_name alice2) (u_password alice2) (Some true)
    ∈ db_users (out_db (serve cfg0 (env_at 1000) promote_rq db0)).
Proof.
  apply (any_token_grants_admin _ _ _ _ key0 carol 900);
    [reflexivity|by_decide|by_decide|reflexivity|reflexivity|reflexivity|vm_compute; reflexivity|reflexivity].
Defined.

Lemma serve_unknown_route_witness :
  serve cfg0 (env_at 1000) (no_token GET "/admin" JNull) db0 = Outcome not_found db0 [].
Proof. apply serve_unknown_route; [discriminate|reflexivity]. Defined.

Lemma serve_method_not_allowed_witness :
  serve cfg0 (env_at 1000) (no_token DELETE "/users" JNull) db0 = Outcome not_allowed db0 [].
Proof.
  apply (serve_method_not_allowed _ _ _ _ RUsers); [reflexivity|discriminate|discriminate|by_decide].
Defined.

Definition delete_nobody_rq : request := with_token DELETE "/users/nobody" tok_alice JNull.

Lemma serve_exception_rolls_back_witness :
  serve cfg0 (env_at 1000) delete_nobody_rq db0 =
  Outcome (finalize delete_nobody_rq internal_error) db0 (s_log (snd (dispatch cfg0 (env_at 1000) delete_nobody_rq (Sess db0 [] [])))).
Proof.
  apply (serve_exception_rolls_back _ _ _ _ UnmappedInstanceError). vm_compute. reflexivity.
Defined.

Definition create_dave_rq : request := with_token POST "/users" tok_alice body_dave.

Lemma created_user_can_log_in_witness :
  let d' := out_db (serve cfg0 (env_at 1001) create_dave_rq db0) in
  let new := User (next_id u_id (db_users db0)) (env_uuid (env_at 1001)) (Some "dave")
               (generate_password_hash "pw-d" (env_salt (env_at 1001))) (Some false) in
  exists tok,
    out_response (serve cfg0 (env_at 2000) (rq_login "dave" "pw-d") d')
      = jsonify (jmsg "token" (JStr tok)) STATUS_CODE_200_SUCCESS /\
    forall rq2 fn s2, s_db s2 = d' ->
      header_lookup "X-Access-Token" (rq_headers rq2) = Some tok ->
      token_required cfg0 (env_at 3000) rq2 fn s2 = fn (Some new) (sess_log s2 (EvSelect TUser)).
Proof.
  apply (created_user_can_log_in cfg0 (env_at 1001) (env_at 2000) (env_at 3000) create_dave_rq
           (rq_login "dave" "pw-d") db0 key0 alice 1000 "dave" "pw-d");
    try reflexivity.
  intros v Hv. repeat (apply elem_of_cons in Hv as [->|Hv]; [split; [discriminate|reflexivity]|]).
  by apply elem_of_nil in Hv.
Defined.
