(* ===== verification/Deploy.v ===== *)
(** * The application with werkzeug's password hashes

    The views are proved over any [PasswordHasher]; deployed, the class
    is werkzeug's [sha256] scheme ([Security.werkzeug_hasher]), whose
    check collapses werkzeug's exception into a failed check.  Over the
    databases the application can reach, that collapse never happens:
    every stored password is a hash of the scheme ([App], the password
    invariant), on which werkzeug's [check_password_hash], the call of
    [login] (src/api.py 58), never raises and answers what the views'
    check answers. *)

From S2P Require Import Prelude PyValue Credentials Security Store Http Auth Users App.

Import Werkzeug.

(** [check_password_hash(user.password, auth.password)] of [login]
    (api.py 58), with werkzeug's exception kept: the class-level check
    of the views turns it into [False]. *)
Definition login_password_check `{Hashlib} (u : user_row) (password : string) : exn + bool :=
  Werkzeug.check_password_hash (u_password u) password.

Section Deployed.
Context `{Hashlib} `{JwtCodec}.
#[local] Existing Instance werkzeug_hasher.

Lemma reachable_stored_hashes cfg d : reachable cfg d -> passwords_hashed d.
Proof. induction 1 as [|d e rq _ IH]; [by intros u Hu%elem_of_nil|]. by apply serve_hashed. Qed.

(** C21: in every database the deployed application can reach, the
    [check_password_hash] that [login] calls on a stored password never
    raises, whatever password is offered, and it answers what the
    views' [PasswordHasher] answers. *)
Theorem login_check_never_raises cfg d u pw :
  reachable cfg d -> u ∈ db_users d ->
  login_password_check u pw = inr (Credentials.check_password_hash (u_password u) pw).
Proof.
  intros Hr Hu. unfold login_password_check. destruct (reachable_stored_hashes cfg d Hr u Hu) as (pw0 & draws & ->).
  apply check_password_hash_scheme.
Qed.
End Deployed.

(** ** Witness *)

#[local] Existing Instances toy_hashlib toy_jwt werkzeug_hasher.

(** A user created through the API by a holder of a token. *)
Definition deployed_db : db :=
  out_db (serve cfg0 (env_at 1000) (with_token POST "/users" tok_alice eve_body) empty_db).

Definition eve_row : user_row :=
  User 1 "uuid-new" (Some "eve") (sha256_hash "pw-e" (sha256_salt "salt-new")) (Some false).

Lemma login_check_never_raises_witness :
  reachable cfg0 deployed_db /\ eve_row ∈ db_users deployed_db /\
  login_password_check eve_row "guess" =
  inr (Credentials.check_password_hash (u_password eve_row) "guess").
Proof.
  assert (Hr : reachable cfg0 deployed_db) by apply reachable_step, reachable_empty.
  assert (Hu : eve_row ∈ db_users deployed_db) by by_decide.
  split; [exact Hr|]. split; [exact Hu|]. apply (login_check_never_raises cfg0 _ _ _ Hr Hu).
Defined.
